(** * hilltoppy.web_service: a shallow embedding and its properties

    The Python module [hilltoppy/web_service.py] queries a Hilltop server
    over HTTP and turns its XML replies into pandas tables.  This file
    embeds the module function by function:

    - Python strings are [string]; a character above 127 stands for a
      non-ASCII code point, which [.encode('ascii', 'ignore').decode()]
      drops;
    - an [xml.etree] element is an [Element]: tag, attributes, text and
      children, with [find] and [findall] over the direct children;
    - a raised exception is [Raise e]; a function that also prints is a
      value of [M], the printed lines followed by the outcome;
    - a Python [dict] is an association list with unique keys that keeps
      insertion order ([dict_set] overwrites in place or appends);
    - a [pandas.DataFrame] is a [DataFrame]: column names, the names of
      the index columns, and rows of cells;
    - what the module gets from outside (the HTTP transport with the XML
      parser, [requests.utils.quote], the scalar parsers behind
      [pd.to_datetime] and [pd.to_numeric], the clock behind
      [pd.Timestamp.today]) is a [World].

    The pandas operations are written after their documented behaviour:
    [errors='coerce'] turns what cannot be read into a missing value,
    [errors='ignore'] returns the input when something cannot be read,
    [stack] goes row by row and drops missing cells, the rows of a
    table made from a nested dict are the keys of its columns in order of
    first appearance, [set_index] needs its columns.

    The properties follow the definitions.  Each numbered property [Cn]
    is one theorem, followed by a closed instance on a concrete reply of
    the server. *)

From Stdlib Require Import String Ascii List ZArith Bool Arith Lia Permutation.
From Stdlib Require Import DecimalString QArith_base.
Import ListNotations.
Local Close Scope Q_scope.
Local Open Scope string_scope.
Local Open Scope list_scope.

Infix "+++" := String.append (at level 60, right associativity).

(** ** Python strings *)

(** [s.endswith(suffix)]. *)
Definition endswith (s suffix : string) : bool :=
  let n := String.length s in
  let m := String.length suffix in
  (m <=? n)%nat && String.eqb (substring (n - m) m s) suffix.

Definition is_ascii (c : ascii) : bool := (nat_of_ascii c <? 128)%nat.

(** [s.encode('ascii', 'ignore').decode()]: non-ASCII characters are
    dropped, not substituted. *)
Fixpoint ascii_ignore (s : string) : string :=
  match s with
  | EmptyString => EmptyString
  | String c s' =>
      if is_ascii c then String c (ascii_ignore s') else ascii_ignore s'
  end.

(** [s[:n]]. *)
Definition str_take (n : nat) (s : string) : string := substring 0 n s.

(** [str(n)] for a Python [int]. *)
Definition str_of_int (n : Z) : string := NilZero.string_of_int (Z.to_int n).

(** ** Exceptions and outcomes *)

Inductive exn : Type :=
| ValueError (msg : string)
| KeyError
| AttributeError
| TypeError
| NameError
| TransportError
| MalformedDocument.

Inductive result (A : Type) : Type :=
| Ok (a : A)
| Raise (e : exn).
Arguments Ok {A} a.
Arguments Raise {A} e.

Definition bind {A B : Type} (r : result A) (k : A -> result B) : result B :=
  match r with
  | Ok a => k a
  | Raise e => Raise e
  end.

Notation "x <- e ;; k" := (bind e (fun x => k))
  (at level 61, e at next level, right associativity).

(** A computation that prints: the lines printed so far and the outcome. *)
Definition M (A : Type) : Type := list string * result A.

Definition ret {A : Type} (a : A) : M A := ([], Ok a).
Definition raise {A : Type} (e : exn) : M A := ([], Raise e).
Definition print (line : string) : M unit := ([line], Ok tt).
Definition lift {A : Type} (r : result A) : M A := ([], r).

Definition bindM {A B : Type} (m : M A) (k : A -> M B) : M B :=
  match m with
  | (out, Ok a) => let (out', r) := k a in (out ++ out', r)
  | (out, Raise e) => (out, Raise e)
  end.

Notation "x <~ e ;; k" := (bindM e (fun x => k))
  (at level 61, e at next level, right associativity).
Notation "e ;;; k" := (bindM e (fun _ => k))
  (at level 61, right associativity).

(** [mapM f l]: the list comprehension [[f(x) for x in l]] of a function
    that may raise; the first failure is the one raised. *)
Fixpoint mapM {A B : Type} (f : A -> result B) (l : list A) : result (list B) :=
  match l with
  | [] => Ok []
  | x :: l' => y <- f x ;; ys <- mapM f l' ;; Ok (y :: ys)
  end.

(** ** Keys with a decidable equality *)

Class EqB (K : Type) : Type := {
  eqb : K -> K -> bool;
  eqb_spec : forall x y : K, reflect (x = y) (eqb x y)
}.

#[export] Instance EqB_string : EqB string :=
  {| eqb := String.eqb; eqb_spec := String.eqb_spec |}.

Definition option_eqb {K : Type} `{EqB K} (x y : option K) : bool :=
  match x, y with
  | None, None => true
  | Some a, Some b => eqb a b
  | _, _ => false
  end.

Lemma option_eqb_spec {K : Type} `{EqB K} (x y : option K) :
  reflect (x = y) (option_eqb x y).
Proof.
  destruct x as [a|], y as [b|]; simpl; try (constructor; congruence).
  destruct (eqb_spec a b); constructor; congruence.
Qed.

#[export] Instance EqB_option {K : Type} `{EqB K} : EqB (option K) :=
  {| eqb := option_eqb; eqb_spec := option_eqb_spec |}.

(** ** Python dicts *)

Definition dict (K V : Type) : Type := list (K * V).

Fixpoint dict_get {K V : Type} `{EqB K} (k : K) (d : dict K V) : option V :=
  match d with
  | [] => None
  | (k', v) :: d' => if eqb k k' then Some v else dict_get k d'
  end.

(** [d[k] = v]: an existing key keeps its place, a new one goes last. *)
Fixpoint dict_set {K V : Type} `{EqB K} (k : K) (v : V) (d : dict K V) : dict K V :=
  match d with
  | [] => [(k, v)]
  | (k', v') :: d' =>
      if eqb k k' then (k', v) :: d' else (k', v') :: dict_set k v d'
  end.

(** [d.update(other)]. *)
Definition dict_update {K V : Type} `{EqB K} (d other : dict K V) : dict K V :=
  fold_left (fun acc kv => dict_set (fst kv) (snd kv) acc) other d.

Definition dict_keys {K V : Type} (d : dict K V) : list K := map fst d.

(** Membership in a list of keys: [k in l]. *)
Definition mem {K : Type} `{EqB K} (k : K) (l : list K) : bool := existsb (eqb k) l.

(** ** XML elements *)

#[warnings="-register-all"]
Inductive Element : Type :=
  Elem (tag : string) (attrib : dict string string) (text : option string)
       (children : list Element).

(** The projections; [children e] is [e.getchildren()], as the Python
    versions that still have it (before 3.9) give it, and the elements a
    [for c in e] visits. *)
Definition tag (e : Element) : string := let (t, _, _, _) := e in t.
Definition attrib (e : Element) : dict string string := let (_, a, _, _) := e in a.
Definition text (e : Element) : option string := let (_, _, x, _) := e in x.
Definition children (e : Element) : list Element := let (_, _, _, c) := e in c.

(** [e.findall(name)]: the direct children with that tag, in document order. *)
Definition findall (name : string) (e : Element) : list Element :=
  filter (fun c => String.eqb (tag c) name) (children e).

(** [e.find(name)]: the first such child, or [None]. *)
Definition find (name : string) (e : Element) : option Element :=
  List.find (fun c => String.eqb (tag c) name) (children e).

(** [e.find(name).x]: getting an attribute of [None] raises. *)
Definition find_ (name : string) (e : Element) : result Element :=
  match find name e with
  | Some c => Ok c
  | None => Raise AttributeError
  end.

(** [e.attrib[key]]. *)
Definition attrib_ (key : string) (e : Element) : result string :=
  match dict_get key (attrib e) with
  | Some v => Ok v
  | None => Raise KeyError
  end.

(** [e.text.encode('ascii', 'ignore').decode()]: no text is [None], and
    [None] has no [encode]. *)
Definition text_ascii (e : Element) : result string :=
  match text e with
  | Some s => Ok (ascii_ignore s)
  | None => Raise AttributeError
  end.

(** ** Tables *)

(** A cell: a missing value ([None], [NaN], [NaT]), a string, a Python
    [int], a number made by [pd.to_numeric], or a timestamp in
    nanoseconds since 1970-01-01. *)
Inductive cell (Num : Type) : Type :=
| CNull
| CStr (s : string)
| CInt (n : Z)
| CNum (x : Num)
| CTime (t : Z).
Arguments CNull {Num}.
Arguments CStr {Num} s.
Arguments CInt {Num} n.
Arguments CNum {Num} x.
Arguments CTime {Num} t.

(** [df_columns] names every stored column, a row holds one cell per
    column, and [df_index] names the columns [set_index] made the index. *)
Record DataFrame (Num : Type) : Type := {
  df_index : list string;
  df_columns : list string;
  df_rows : list (list (cell Num))
}.
Arguments df_index {Num} d.
Arguments df_columns {Num} d.
Arguments df_rows {Num} d.
Arguments Build_DataFrame {Num} df_index df_columns df_rows.

(** What a function returns: one table or a pair of tables. *)
Inductive tables (Num : Type) : Type :=
| One (df : DataFrame Num)
| Two (df1 df2 : DataFrame Num).
Arguments One {Num} df.
Arguments Two {Num} df1 df2.

(** ** The collaborators *)

Record World (Num : Type) : Type := {
  (** [requests.utils.quote]: percent-encoding *)
  quote : string -> string;
  (** [ET.fromstring(requests.get(url).content)] *)
  http_get_xml : string -> result Element;
  (** how [pd.to_datetime] reads one string: [None] when it cannot,
      [Some None] for [NaT] *)
  datetime_of_string : string -> option (option Z);
  (** how [pd.to_numeric] reads one string *)
  number_of_string : string -> option Num;
  (** what the k-th evaluation of [pd.Timestamp.today()] gives *)
  today : nat -> Z
}.
Arguments quote {Num} w.
Arguments http_get_xml {Num} w.
Arguments datetime_of_string {Num} w.
Arguments number_of_string {Num} w.
Arguments today {Num} w.

(** ** build_url *)

Definition available_requests : list string :=
  ["SiteList"; "MeasurementList"; "GetData"].

(** The [site] argument: [None], a [str] or an [int].  A [float] site
    passes the same [isinstance] test; it is left out, its [str] being a
    matter of floating point. *)
Inductive site_value : Type :=
| SiteNone
| SiteStr (s : string)
| SiteInt (n : Z).

Definition build_url {Num : Type} (W : World Num)
    (base_url hts request : string) (site : site_value)
    (measurement from_date to_date : option string) (location : bool)
    (site_parameters : option (list string))
    (agg_method agg_interval alignment : option string) : result string :=
  (* Check base parameters *)
  let base_url := if negb (endswith base_url "/") then base_url +++ "/" else base_url in
  if negb (endswith hts ".hts") then
    Raise (ValueError "The hts file must end with .hts")
  else if negb (mem request available_requests) then
    Raise (ValueError
      "request must be one of ['SiteList', 'MeasurementList', 'GetData']")
  else
  (* Make the first part of the url *)
  let url := base_url +++ hts +++ "?Service=Hilltop&Request=" +++ request in
  (* Ready the others *)
  let url := match site with
             | SiteStr s => url +++ "&Site=" +++ quote W s
             | SiteInt n => url +++ "&Site=" +++ quote W (str_of_int n)
             | SiteNone => url
             end in
  let url := match measurement with
             | Some m => url +++ "&Measurement=" +++ quote W m
             | None => url
             end in
  let url := match site_parameters with
             | Some l => url +++ "&SiteParameters=" +++ quote W (String.concat "," l)
             | None => url
             end in
  let url := if location && String.eqb request "SiteList"
             then url +++ "&Location=Yes" else url in
  (* Time interval goes last! *)
  let url :=
    if String.eqb request "GetData" then
      let url := match agg_method with
                 | Some a => url +++ "&Method=" +++ quote W a
                 | None => url
                 end in
      let url := match agg_interval with
                 | Some a => url +++ "&Interval=" +++ quote W a
                 | None => url
                 end in
      let url := match from_date with
                 | Some d => url +++ "&TimeInterval=" +++ d
                 | None => url +++ "&TimeInterval=1800-01-01"
                 end in
      let url := match to_date with
                 | Some d => url +++ "/" +++ d
                 | None => url +++ "/now"
                 end in
      match alignment with
      | Some a => url +++ "&Alignment=" +++ a
      | None => url
      end
    else url in
  Ok url.

(** ** pandas operations *)

Section Frames.
Context {Num : Type}.

(** [pd.DataFrame()] *)
Definition empty_frame : DataFrame Num :=
  {| df_index := []; df_columns := []; df_rows := [] |}.

(** [df.empty]: some axis has length 0. *)
Definition df_empty (df : DataFrame Num) : bool :=
  match df_columns df, df_rows df with
  | [], _ => true
  | _, [] => true
  | _, _ => false
  end.

(** The position of a column. *)
Fixpoint col_pos (name : string) (cols : list string) : option nat :=
  match cols with
  | [] => None
  | c :: cols' =>
      if String.eqb name c then Some 0 else option_map S (col_pos name cols')
  end.

(** The cell of [row] in the column at position [i]. *)
Definition cell_at (i : nat) (row : list (cell Num)) : cell Num := nth i row CNull.

(** Replace the cell at position [i]. *)
Fixpoint set_at (i : nat) (c : cell Num) (row : list (cell Num)) : list (cell Num) :=
  match row, i with
  | [], _ => []
  | _ :: row', 0 => c :: row'
  | x :: row', S i' => x :: set_at i' c row'
  end.

(** The keys of the records in order of first appearance: the columns
    of [pd.DataFrame(records)]. *)
Definition add_keys (cols keys : list string) : list string :=
  fold_left (fun cols k => if mem k cols then cols else cols ++ [k]) keys cols.

Definition union_keys {V : Type} (records : list (dict string V)) : list string :=
  fold_left (fun cols d => add_keys cols (dict_keys d)) records [].

(** [pd.DataFrame(records)] for a list of dicts of strings: a key a
    record lacks gives a missing value. *)
Definition frame_of_records (records : list (dict string string)) : DataFrame Num :=
  let cols := union_keys records in
  {| df_index := [];
     df_columns := cols;
     df_rows := map (fun d => map (fun c => match dict_get c d with
                                            | Some s => CStr s
                                            | None => CNull
                                            end) cols) records |}.

(** [df.rename(columns={old: new})] *)
Definition rename_column (old new : string) (df : DataFrame Num) : DataFrame Num :=
  {| df_index := df_index df;
     df_columns := map (fun c => if String.eqb c old then new else c) (df_columns df);
     df_rows := df_rows df |}.

(** [df[name] = f(df[name])] cell by cell, for a column that exists. *)
Definition map_column (name : string) (f : cell Num -> cell Num)
    (df : DataFrame Num) : DataFrame Num :=
  match col_pos name (df_columns df) with
  | Some i =>
      {| df_index := df_index df;
         df_columns := df_columns df;
         df_rows := map (fun row => set_at i (f (cell_at i row)) row) (df_rows df) |}
  | None => df
  end.

(** [df[name] = value]: a new column goes last. *)
Definition assign_column (name : string) (value : cell Num)
    (df : DataFrame Num) : DataFrame Num :=
  match col_pos name (df_columns df) with
  | Some i =>
      {| df_index := df_index df;
         df_columns := df_columns df;
         df_rows := map (set_at i value) (df_rows df) |}
  | None =>
      {| df_index := df_index df;
         df_columns := df_columns df ++ [name];
         df_rows := map (fun row => row ++ [value]) (df_rows df) |}
  end.

(** [df[mask]]: the rows whose mask entry is [True]. *)
Fixpoint select {A : Type} (l : list A) (mask : list bool) : list A :=
  match l, mask with
  | x :: l', b :: mask' => if b then x :: select l' mask' else select l' mask'
  | _, _ => []
  end.

Definition df_where (df : DataFrame Num) (mask : list bool) : DataFrame Num :=
  {| df_index := df_index df;
     df_columns := df_columns df;
     df_rows := select (df_rows df) mask |}.

(** [df.set_index(keys)]: every key must be a column. *)
Definition set_index (keys : list string) (df : DataFrame Num) : result (DataFrame Num) :=
  if forallb (fun k => mem k (df_columns df)) keys then
    Ok {| df_index := keys; df_columns := df_columns df; df_rows := df_rows df |}
  else Raise KeyError.

(** [df.columns = names]: as many names as columns. *)
Definition set_columns (names : list string) (df : DataFrame Num) : result (DataFrame Num) :=
  if Nat.eqb (length names) (length (df_columns df)) then
    Ok {| df_index := df_index df; df_columns := names; df_rows := df_rows df |}
  else Raise (ValueError "Length mismatch").

Definition isnull (c : cell Num) : bool :=
  match c with
  | CNull => true
  | _ => false
  end.

(** [c < t] and [c > t] against a timestamp: false on a missing value. *)
Definition time_lt (c : cell Num) (t : Z) : bool :=
  match c with
  | CTime x => (x <? t)%Z
  | _ => false
  end.

Definition time_gt (c : cell Num) (t : Z) : bool :=
  match c with
  | CTime x => (t <? x)%Z
  | _ => false
  end.

Definition time_cell (t : option string) : cell Num :=
  match t with
  | Some s => CStr s
  | None => CNull
  end.

Variable W : World Num.

(** [pd.to_datetime(..., errors='coerce')] on one cell: what cannot be
    read becomes [NaT]. *)
Definition to_datetime_coerce (c : cell Num) : cell Num :=
  match c with
  | CStr s =>
      match datetime_of_string W s with
      | Some (Some t) => CTime t
      | _ => CNull
      end
  | CTime t => CTime t
  | _ => CNull
  end.

(** [pd.to_datetime(...)] on one cell: what cannot be read raises (a
    [ValueError] of the date parser). *)
Definition to_datetime_raise (c : cell Num) : result (cell Num) :=
  match c with
  | CStr s =>
      match datetime_of_string W s with
      | Some (Some t) => Ok (CTime t)
      | Some None => Ok CNull
      | None => Raise (ValueError "Unknown datetime string format")
      end
  | CTime t => Ok (CTime t)
  | CNull => Ok CNull
  | _ => Raise TypeError
  end.

(** [df[name] = pd.to_datetime(df[name])] *)
Definition column_to_datetime (name : string) (df : DataFrame Num) : result (DataFrame Num) :=
  match col_pos name (df_columns df) with
  | Some i =>
      rows <- mapM (fun row => c <- to_datetime_raise (cell_at i row) ;;
                               Ok (set_at i c row)) (df_rows df) ;;
      Ok {| df_index := df_index df; df_columns := df_columns df; df_rows := rows |}
  | None => Raise KeyError
  end.

(** [pd.to_numeric(column, errors='ignore')]: when every string of the
    column reads as a number the column becomes numeric; when one does
    not, invalid parsing returns the input and the column stays as it
    was. *)
Fixpoint numbers_of_cells (col : list (cell Num)) : option (list (cell Num)) :=
  match col with
  | [] => Some []
  | CStr s :: col' =>
      match number_of_string W s, numbers_of_cells col' with
      | Some x, Some xs => Some (CNum x :: xs)
      | _, _ => None
      end
  | c :: col' => option_map (cons c) (numbers_of_cells col')
  end.

Definition to_numeric_ignore (col : list (cell Num)) : list (cell Num) :=
  match numbers_of_cells col with
  | Some xs => xs
  | None => col
  end.

(** [df[name] = pd.to_numeric(df[name], errors='ignore')] *)
Definition column_to_numeric (name : string) (df : DataFrame Num) : DataFrame Num :=
  match col_pos name (df_columns df) with
  | Some i =>
      let col := to_numeric_ignore (map (cell_at i) (df_rows df)) in
      {| df_index := df_index df;
         df_columns := df_columns df;
         df_rows := map (fun rc => set_at i (snd rc) (fst rc)) (combine (df_rows df) col) |}
  | None => df
  end.

End Frames.

(** ** measurement_list *)

Section Service.
Context {Num : Type}.
Variable W : World Num.

Definition ds_types : list string := ["DataType"; "From"; "To"; "SensorGroup"].
Definition m_types : list string := ["RequestAs"; "Units"].

(** [{c.tag: c.text.encode('ascii', 'ignore').decode() for c in e if c.tag in types}] *)
Fixpoint tag_text_dict (types : list string) (cs : list Element)
    (acc : dict string string) : result (dict string string) :=
  match cs with
  | [] => Ok acc
  | c :: cs' =>
      if mem (tag c) types then
        s <- text_ascii c ;; tag_text_dict types cs' (dict_set (tag c) s acc)
      else tag_text_dict types cs' acc
  end.

(** The body of the loop over the data sources after the [TSType] test:
    one record per [Measurement] child, each with the fields of the data
    source. *)
Definition source_records (d : Element) : result (list (dict string string)) :=
  ds_dict <- tag_text_dict ds_types (children d) [] ;;
  mapM (fun m => m_dict <- tag_text_dict m_types (children m) [] ;;
                 Ok (dict_update m_dict ds_dict))
       (findall "Measurement" d).

(** One turn of the loop: what the data source [d] appends to [data_list]. *)
Definition source_rows (d : Element) : result (list (dict string string)) :=
  match find "TSType" d with
  | None => source_records d                              (* pass *)
  | Some ts =>
      if negb (eqb (text ts) (Some "StdSeries")) then Ok []   (* continue *)
      else source_records d
  end.

(** [for d in data_sources: ...] *)
Fixpoint collect_sources (data_sources : list Element)
    (data_list : list (dict string string)) : result (list (dict string string)) :=
  match data_sources with
  | [] => Ok data_list
  | d :: rest => rows <- source_rows d ;; collect_sources rest (data_list ++ rows)
  end.

Definition cell_of_site (site : site_value) : cell Num :=
  match site with
  | SiteNone => CNull
  | SiteStr s => CStr s
  | SiteInt n => CInt n
  end.

Definition cell_of_name (name : option string) : cell Num :=
  match name with
  | Some s => CStr s
  | None => CNull
  end.

(** [Timestamp('1900-01-01')] in nanoseconds since 1970-01-01. *)
Definition ts_1900_01_01 : Z := (-2208988800 * 1000000000)%Z.

(** [df.replace({'Units': {'%': np.nan}})] on one cell. *)
Definition percent_to_nan (c : cell Num) : cell Num :=
  match c with
  | CStr s => if String.eqb s "%" then CNull else c
  | _ => c
  end.

(** What is done to a catalog that is not empty before it is returned or
    split: the renaming, the two date columns, the units, the site. *)
Definition tidy_catalog (site : site_value) (mtype_df : DataFrame Num) : DataFrame Num :=
  let mtype_df := rename_column "RequestAs" "Measurement" mtype_df in
  let mtype_df := if mem "To" (df_columns mtype_df)
                  then map_column "To" (to_datetime_coerce W) mtype_df else mtype_df in
  let mtype_df := if mem "From" (df_columns mtype_df)
                  then map_column "From" (to_datetime_coerce W) mtype_df else mtype_df in
  let mtype_df := if mem "Units" (df_columns mtype_df)
                  then map_column "Units" percent_to_nan mtype_df else mtype_df in
  assign_column "Site" (cell_of_site site) mtype_df.

(** The row test of the mask
    [From.isnull() | To.isnull() | (From < '1900-01-01') | (To > today)]. *)
Definition bad_times (now : Z) (from to : cell Num) : bool :=
  isnull from || isnull to || time_lt from ts_1900_01_01 || time_gt to now.

(** The mask itself; [df['From']] and [df['To']] need their columns. *)
Definition bad_mask (now : Z) (df : DataFrame Num) : result (list bool) :=
  match col_pos "From" (df_columns df), col_pos "To" (df_columns df) with
  | Some i, Some j =>
      Ok (map (fun row => bad_times now (cell_at i row) (cell_at j row)) (df_rows df))
  | _, _ => Raise KeyError
  end.

(** [if len(data_sources) == 1: d = data_sources[0]; d.attrib['Name'] == 'WQ Sample'] *)
Definition only_wq_sample (data_sources : list Element) : result bool :=
  match data_sources with
  | [d] => name <- attrib_ "Name" d ;; Ok (String.eqb name "WQ Sample")
  | _ => Ok false
  end.

Definition measurement_list (base_url hts : string) (site : site_value)
    (measurement : option string) (output_bad_sites : bool) : M (tables Num) :=
  (* Make url *)
  url <~ lift (build_url W base_url hts "MeasurementList" site measurement
                 None None false None None None None) ;;
  (* Request data and load in xml *)
  tree1 <~ lift (http_get_xml W url) ;;
  match find "Error" tree1 with
  | Some _ => raise (ValueError "No results returned from URL request")
  | None =>
  let data_sources := findall "DataSource" tree1 in
  match data_sources with
  | [] => print "No data, returning empty DataFrame" ;;; ret (One empty_frame)
  | _ :: _ =>
  (* Test to see if the site only has a WQ Sample and no other measurment *)
  wq_only <~ lift (only_wq_sample data_sources) ;;
  if wq_only then
    print "Site only has WQ Sample" ;;;
    if output_bad_sites then ret (Two empty_frame empty_frame)
    else ret (One empty_frame)
  else
  (* Extract data into DataFrame *)
  data_list <~ lift (collect_sources data_sources []) ;;
  let mtype_df := frame_of_records data_list in
  if negb (df_empty mtype_df) then
    let mtype_df := tidy_catalog site mtype_df in
    if output_bad_sites then
      mask <~ lift (bad_mask (today W 0) mtype_df) ;;
      let bad_sites := df_where mtype_df mask in
      if df_empty bad_sites then
        good <~ lift (set_index ["Site"; "Measurement"] mtype_df) ;;
        ret (Two good empty_frame)
      else
        print ("There are " +++ str_of_int (Z.of_nat (length (df_rows bad_sites)))
               +++ " sites with bad times") ;;;
        mask <~ lift (bad_mask (today W 1) mtype_df) ;;
        let mtype_df := df_where mtype_df (map negb mask) in
        good <~ lift (set_index ["Site"; "Measurement"] mtype_df) ;;
        ret (Two good bad_sites)
    else
      good <~ lift (set_index ["Site"; "Measurement"] mtype_df) ;;
      ret (One good)
  else
    if output_bad_sites then ret (Two empty_frame empty_frame)
    else ret (One empty_frame)
  end
  end.

(** ** get_data *)

(** [{name(i): value(i) for i in params1}] with
    [name(i) = i.attrib['Name'].encode('ascii', 'ignore').decode()] and
    [value(i) = i.attrib['Value'][:299].encode('ascii', 'ignore').decode()]. *)
Fixpoint param_dict (params1 : list Element) (acc : dict string string)
    : result (dict string string) :=
  match params1 with
  | [] => Ok acc
  | i :: rest =>
      name <- attrib_ "Name" i ;;
      value <- attrib_ "Value" i ;;
      param_dict rest (dict_set (ascii_ignore name) (ascii_ignore (str_take 299 value)) acc)
  end.

(** The loop of the 'WQ Sample' branch. *)
Fixpoint wq_sample_loop (es1 : list Element)
    (tsdata_dict : dict (option string) (dict string string))
    : result (dict (option string) (dict string string)) :=
  match es1 with
  | [] => Ok tsdata_dict
  | d :: rest =>
      t <- find_ "T" d ;;
      let time1 := text t in
      match findall "Parameter" d with
      | [] => wq_sample_loop rest tsdata_dict                      (* continue *)
      | params1 =>
          p_dict <- param_dict params1 [] ;;
          wq_sample_loop rest (dict_set time1 p_dict tsdata_dict)
      end
  end.

(** The index of the wide table of [pd.DataFrame.from_dict(d, orient='index')].
    pandas turns the nested dict round into one dict per parameter name,
    in order of first appearance ([_from_nested_dict]), and the index of
    a table made from a dict of dicts is the union of the keys of its
    columns: column after column, each key where it first appears. *)
Definition wide_index (d : dict (option string) (dict string string))
    (columns : list string) : list (option string) :=
  fold_left (fun index c =>
               fold_left (fun index tp =>
                            if mem c (dict_keys (snd tp)) && negb (mem (fst tp) index)
                            then index ++ [fst tp] else index)
                         d index)
            columns [].

(** [pd.DataFrame.from_dict(d, orient='index').stack().reset_index()]:
    the wide table has one row per key of its index and one column per
    parameter name; stacking goes through it row by row and gives one row
    per cell that is not missing. *)
Definition stack_frame (d : dict (option string) (dict string string)) : DataFrame Num :=
  let columns := union_keys (map snd d) in
  {| df_index := [];
     df_columns := ["level_0"; "level_1"; "0"];
     df_rows :=
       flat_map (fun t =>
         match dict_get t d with
         | Some p_dict =>
             flat_map (fun c => match dict_get c p_dict with
                                | Some v => [[time_cell t; CStr c; CStr v]]
                                | None => []
                                end) columns
         | None => []
         end) (wide_index d columns) |}.

(** The loop of the 'WQData' branch when parameters are requested. *)
Fixpoint wqdata_params_loop (es1 : list Element)
    (tsdata_list : list (option string * string))
    (tsextra_dict : dict (option string) (dict string string))
    : result (list (option string * string) * dict (option string) (dict string string)) :=
  match es1 with
  | [] => Ok (tsdata_list, tsextra_dict)
  | d :: rest =>
      t <- find_ "T" d ;;
      let time1 := text t in
      v <- find_ "Value" d ;;
      value1 <- text_ascii v ;;
      match findall "Parameter" d with
      | [] => wqdata_params_loop rest (tsdata_list ++ [(time1, value1)]) tsextra_dict
      | params1 =>
          p_dict <- param_dict params1 [] ;;
          wqdata_params_loop rest (tsdata_list ++ [(time1, value1)])
                             (dict_set time1 p_dict tsextra_dict)
      end
  end.

(** The loop with the gap counter: 'WQData' without parameters reads the
    [Value] child, 'SimpleTimeSeries' and 'MeterReading' read [I1]. *)
Fixpoint gap_loop (field : string) (es1 : list Element) (gap : nat)
    (tsdata_list : list (option string * string))
    : result (list (option string * string)) :=
  match es1 with
  | [] => Ok tsdata_list
  | d :: rest =>
      if String.eqb (tag d) "Gap" then gap_loop field rest (gap + 1) tsdata_list
      else if Nat.eqb (gap mod 2) 1 then gap_loop field rest gap tsdata_list
      else
        t <- find_ "T" d ;;
        v <- find_ field d ;;
        value <- text_ascii v ;;
        gap_loop field rest gap (tsdata_list ++ [(text t, value)])
  end.

(** [pd.DataFrame(tsdata_list, columns=['DateTime', 'Value'])] *)
Definition frame_of_pairs (tsdata_list : list (option string * string)) : DataFrame Num :=
  {| df_index := [];
     df_columns := ["DateTime"; "Value"];
     df_rows := map (fun tv => [time_cell (fst tv); CStr (snd tv)]) tsdata_list |}.

(** The local variables the extraction may leave unbound. *)
Record extraction : Type := {
  data_df : option (DataFrame Num);
  tsextra_dict : option (dict (option string) (dict string string));
  extra_df : option (DataFrame Num)
}.

(** "Extract data": the branch on the measurement and the data type. *)
Definition extract_data (measurement datatype : option string) (parameters : bool)
    (es1 : list Element) : result extraction :=
  if eqb measurement (Some "WQ Sample") then
    tsdata_dict <- wq_sample_loop es1 [] ;;
    data_df <- set_columns ["DateTime"; "Parameter"; "Value"] (stack_frame tsdata_dict) ;;
    Ok {| data_df := Some data_df; tsextra_dict := None; extra_df := None |}
  else if eqb datatype (Some "WQData") then
    if parameters then
      lists <- wqdata_params_loop es1 [] [] ;;
      let data_df := frame_of_pairs (fst lists) in
      match snd lists with
      | [] => Ok {| data_df := Some data_df; tsextra_dict := Some []; extra_df := None |}
      | tsextra_dict =>
          extra_df <- set_columns ["DateTime"; "Parameter"; "Value"] (stack_frame tsextra_dict) ;;
          Ok {| data_df := Some data_df; tsextra_dict := Some tsextra_dict;
                extra_df := Some extra_df |}
      end
    else
      tsdata_list <- gap_loop "Value" es1 0 [] ;;
      Ok {| data_df := Some (frame_of_pairs tsdata_list); tsextra_dict := None;
            extra_df := None |}
  else if mem datatype [Some "SimpleTimeSeries"; Some "MeterReading"] then
    tsdata_list <- gap_loop "I1" es1 0 [] ;;
    let data_df := frame_of_pairs tsdata_list in
    Ok {| data_df := Some (column_to_numeric W "Value" data_df); tsextra_dict := None;
          extra_df := None |}
  else Ok {| data_df := None; tsextra_dict := None; extra_df := None |}.

(** [pd.DataFrame(columns=[...]).set_index([...])]: the empty placeholder
    of the parameter table. *)
Definition empty_extra : DataFrame Num :=
  {| df_index := ["Site"; "Measurement"; "Parameter"; "DateTime"];
     df_columns := ["Site"; "Measurement"; "Parameter"; "DateTime"; "Value"];
     df_rows := [] |}.

(** "Add in additional columns and convert DateTime", and the return. *)
Definition finish_data (site : site_value) (measurement datatype : option string)
    (parameters : bool) (x : extraction) : result (tables Num) :=
  data_df <- match data_df x with Some df => Ok df | None => Raise NameError end ;;
  data_df <- column_to_datetime W "DateTime" data_df ;;
  let data_df := assign_column "Site" (cell_of_site site) data_df in
  data_df <-
    (if eqb measurement (Some "WQ Sample") then
       set_index ["Site"; "Parameter"; "DateTime"] data_df
     else
       let data_df := assign_column "Measurement" (cell_of_name measurement) data_df in
       set_index ["Site"; "Measurement"; "DateTime"] data_df) ;;
  if parameters && eqb datatype (Some "WQData") then
    tsextra_dict <- match tsextra_dict x with Some d => Ok d | None => Raise NameError end ;;
    match tsextra_dict with
    | _ :: _ =>
        extra_df <- match extra_df x with Some df => Ok df | None => Raise NameError end ;;
        extra_df <- column_to_datetime W "DateTime" extra_df ;;
        let extra_df := assign_column "Measurement" (cell_of_name measurement) extra_df in
        let extra_df := assign_column "Site" (cell_of_site site) extra_df in
        extra_df <- set_index ["Site"; "Measurement"; "Parameter"; "DateTime"] extra_df ;;
        Ok (Two data_df extra_df)
    | [] => Ok (Two data_df empty_extra)
    end
  else Ok (One data_df).

(** Everything after the data type and the time points have been read. *)
Definition data_tables (site : site_value) (measurement datatype : option string)
    (parameters : bool) (es1 : list Element) : result (tables Num) :=
  x <- extract_data measurement datatype parameters es1 ;;
  finish_data site measurement datatype parameters x.

Definition get_data (base_url hts : string) (site : site_value)
    (measurement from_date to_date agg_method agg_interval alignment : option string)
    (parameters : bool) : M (tables Num) :=
  (* Make url *)
  url <~ lift (build_url W base_url hts "GetData" site measurement from_date to_date
                 false None agg_method agg_interval alignment) ;;
  (* Request data and load in xml *)
  tree1 <~ lift (http_get_xml W url) ;;
  match find "Error" tree1 with
  | Some _ => raise (ValueError "No results returned from URL request")
  | None =>
  match find "Measurement" tree1 with
  | None => print "No data, returning empty DataFrame" ;;; ret (One empty_frame)
  | Some meas1 =>
      source <~ lift (find_ "DataSource" meas1) ;;
      dtype <~ lift (find_ "DataType" source) ;;
      let datatype := text dtype in
      data1 <~ lift (find_ "Data" meas1) ;;
      let es1 := children data1 in
      lift (data_tables site measurement datatype parameters es1)
  end
  end.

(** ** wq_sample_parameter_list *)

(** [a < b] on timestamps as read from the document: two strings compare
    by code points, [None] compares with nothing. *)
Definition py_lt (a b : option string) : result bool :=
  match a, b with
  | Some x, Some y => Ok (String.ltb x y)
  | _, _ => Raise TypeError
  end.

(** [min(k)] and [max(k)] of a tuple: the first item, replaced by each
    later item that is smaller (greater). *)
Fixpoint min_from (cur : option string) (rest : list (option string))
    : result (option string) :=
  match rest with
  | [] => Ok cur
  | x :: rest' => lt <- py_lt x cur ;; min_from (if lt then x else cur) rest'
  end.

Fixpoint max_from (cur : option string) (rest : list (option string))
    : result (option string) :=
  match rest with
  | [] => Ok cur
  | x :: rest' => gt <- py_lt cur x ;; max_from (if gt then x else cur) rest'
  end.

Definition py_min (k : list (option string)) : result (option string) :=
  match k with
  | [] => Raise (ValueError "min() arg is an empty sequence")
  | x :: rest => min_from x rest
  end.

Definition py_max (k : list (option string)) : result (option string) :=
  match k with
  | [] => Raise (ValueError "max() arg is an empty sequence")
  | x :: rest => max_from x rest
  end.

(** The state of the loop: [tsdata_dict], [p_set], and [p_tup], which is
    unbound until a time point with parameters has been seen. *)
Record wq_state : Type := {
  st_tsdata_dict : dict (option string) (list string);
  st_p_set : list string;
  st_p_tup : option (list string)
}.

Fixpoint wq_param_loop (es1 : list Element) (st : wq_state) : result wq_state :=
  match es1 with
  | [] => Ok st
  | d :: rest =>
      match findall "Parameter" d with
      | [] => wq_param_loop rest st                                  (* continue *)
      | params1 =>
          p_tup <- mapM (fun i => name <- attrib_ "Name" i ;; Ok (ascii_ignore name))
                        params1 ;;
          t <- find_ "T" d ;;
          wq_param_loop rest
            {| st_tsdata_dict := dict_set (text t) p_tup (st_tsdata_dict st);
               st_p_set := add_keys (st_p_set st) p_tup;
               st_p_tup := Some p_tup |}
      end
  end.

(** [tuple(i for i, k in tsdata_dict.items() if p in k)] *)
Definition times_of (tsdata_dict : dict (option string) (list string)) (p : string)
    : list (option string) :=
  map fst (filter (fun ik => mem p (snd ik)) tsdata_dict).

(** [{p: times_of(p) for p in p_tup}]: the comprehension runs over
    [p_tup], the names of the last time point with parameters. *)
Definition p_t_dict_of (tsdata_dict : dict (option string) (list string))
    (p_tup : list string) : dict string (list (option string)) :=
  fold_left (fun acc p => dict_set p (times_of tsdata_dict p) acc) p_tup [].

(** [{i: (min(k), max(k)) for i, k in p_t_dict.items()}] *)
Definition min_max_dict_of (p_t_dict : dict string (list (option string)))
    : result (dict string (option string * option string)) :=
  mapM (fun ik => lo <- py_min (snd ik) ;; hi <- py_max (snd ik) ;;
                  Ok (fst ik, (lo, hi))) p_t_dict.

(** [pd.DataFrame.from_dict(min_max_dict, orient='index').reset_index()] *)
Definition frame_of_ranges (min_max_dict : dict string (option string * option string))
    : DataFrame Num :=
  {| df_index := [];
     df_columns := ["index"; "0"; "1"];
     df_rows := map (fun ik => [CStr (fst ik); time_cell (fst (snd ik));
                                time_cell (snd (snd ik))]) min_max_dict |}.

(** "Extract data" and what follows it. *)
Definition parameter_table (site : site_value) (es1 : list Element)
    : result (DataFrame Num) :=
  st <- wq_param_loop es1 {| st_tsdata_dict := []; st_p_set := []; st_p_tup := None |} ;;
  p_tup <- match st_p_tup st with Some t => Ok t | None => Raise NameError end ;;
  let p_t_dict := p_t_dict_of (st_tsdata_dict st) p_tup in
  min_max_dict <- min_max_dict_of p_t_dict ;;
  let mtype_df := frame_of_ranges min_max_dict in
  mtype_df <-
    (if negb (df_empty mtype_df) then
       mtype_df <- set_columns ["Parameter"; "From"; "To"] mtype_df ;;
       mtype_df <- column_to_datetime W "To" mtype_df ;;
       mtype_df <- column_to_datetime W "From" mtype_df ;;
       let mtype_df := assign_column "DataType" (CStr "WQSample") mtype_df in
       Ok (assign_column "Site" (cell_of_site site) mtype_df)
     else Ok mtype_df) ;;
  set_index ["Site"; "Parameter"] mtype_df.

Definition wq_sample_parameter_list (base_url hts : string) (site : site_value)
    : M (DataFrame Num) :=
  (* Make url *)
  url <~ lift (build_url W base_url hts "GetData" site (Some "WQ Sample")
                 None None false None None None None) ;;
  (* Request data and load in xml *)
  tree1 <~ lift (http_get_xml W url) ;;
  match find "Error" tree1 with
  | Some _ => raise (ValueError "No results returned from URL request")
  | None =>
  match find "Measurement" tree1 with
  | None => print "No data, returning empty DataFrame" ;;; ret empty_frame
  | Some meas1 =>
      data1 <~ lift (find_ "Data" meas1) ;;
      let es1 := children data1 in
      lift (parameter_table site es1)
  end
  end.

End Service.

(** ** A concrete world for the examples *)

(** Percent-encoding as [urllib.parse.quote] does it with its default
    [safe='/']: letters, digits and [_.-~/] stay, every other byte of the
    UTF-8 encoding becomes [%XX]. *)
Definition hex_digit (n : nat) : ascii :=
  nth n (list_ascii_of_string "0123456789ABCDEF") "0"%char.

Definition percent_byte (b : nat) : string :=
  String "%" (String (hex_digit (b / 16)) (String (hex_digit (b mod 16)) "")).

Definition between (lo n hi : nat) : bool := (lo <=? n)%nat && (n <=? hi)%nat.

#[export] Instance EqB_nat : EqB nat :=
  {| eqb := Nat.eqb; eqb_spec := Nat.eqb_spec |}.

Definition always_safe (c : ascii) : bool :=
  let n := nat_of_ascii c in
  between 65 n 90 || between 97 n 122 || between 48 n 57
  || mem n [95; 46; 45; 126; 47]%nat.

Fixpoint url_quote (s : string) : string :=
  match s with
  | EmptyString => EmptyString
  | String c s' =>
      let n := nat_of_ascii c in
      (if always_safe c then String c ""
       else if (n <? 128)%nat then percent_byte n
       else percent_byte (192 + n / 64) +++ percent_byte (128 + n mod 64))
      +++ url_quote s'
  end.

(** Decimal digits. *)
Definition digit_of (c : ascii) : option Z :=
  let n := nat_of_ascii c in
  if between 48 n 57 then Some (Z.of_nat (n - 48)) else None.

Fixpoint digits_from (acc : Z) (s : string) : option Z :=
  match s with
  | EmptyString => Some acc
  | String c s' =>
      match digit_of c with
      | Some d => digits_from (10 * acc + d) s'
      | None => None
      end
  end.

Definition digits (s : string) : option Z :=
  match s with
  | EmptyString => None
  | _ => digits_from 0 s
  end.

(** Days from 1970-01-01 to a date of the proleptic Gregorian calendar. *)
Definition days_from_civil (y m d : Z) : Z :=
  let y := if (m <=? 2)%Z then (y - 1)%Z else y in
  let era := (y / 400)%Z in
  let yoe := (y - era * 400)%Z in
  let mp := if (m <=? 2)%Z then (m + 9)%Z else (m - 3)%Z in
  let doy := ((153 * mp + 2) / 5 + d - 1)%Z in
  let doe := (yoe * 365 + yoe / 4 - yoe / 100 + doy)%Z in
  (era * 146097 + doe - 719468)%Z.

(** The example reader of timestamps: [YYYY-MM-DD] and
    [YYYY-MM-DDTHH:MM:SS], in nanoseconds; anything else cannot be read. *)
Definition iso_date (s : string) : option Z :=
  match digits (substring 0 4 s), digits (substring 5 2 s), digits (substring 8 2 s) with
  | Some y, Some m, Some d =>
      if String.eqb (substring 4 1 s) "-" && String.eqb (substring 7 1 s) "-"
         && (1 <=? m)%Z && (m <=? 12)%Z && (1 <=? d)%Z && (d <=? 31)%Z
      then Some (days_from_civil y m d * 86400)%Z
      else None
  | _, _, _ => None
  end.

Definition iso_time (s : string) : option Z :=
  match digits (substring 0 2 s), digits (substring 3 2 s), digits (substring 6 2 s) with
  | Some h, Some m, Some sec =>
      if String.eqb (substring 2 1 s) ":" && String.eqb (substring 5 1 s) ":"
         && (h <? 24)%Z && (m <? 60)%Z && (sec <? 60)%Z
      then Some (h * 3600 + m * 60 + sec)%Z
      else None
  | _, _, _ => None
  end.

Definition iso_datetime (s : string) : option (option Z) :=
  match String.length s with
  | 10 => option_map (fun secs => Some (secs * 1000000000)%Z) (iso_date s)
  | 19 =>
      match iso_date (substring 0 10 s), iso_time (substring 11 8 s) with
      | Some day, Some secs =>
          if String.eqb (substring 10 1 s) "T" || String.eqb (substring 10 1 s) " "
          then Some (Some ((day + secs) * 1000000000)%Z)
          else None
      | _, _ => None
      end
  | _ => None
  end.

(** The example reader of numbers: an optional sign, digits, and an
    optional fraction, as a rational. *)
Fixpoint split_at_dot (s : string) : string * option string :=
  match s with
  | EmptyString => (EmptyString, None)
  | String c s' =>
      if Ascii.eqb c "."%char then (EmptyString, Some s')
      else let (a, b) := split_at_dot s' in (String c a, b)
  end.

Definition unsigned_decimal (s : string) : option Q :=
  match split_at_dot s with
  | (whole, None) => option_map (fun n => Qmake n 1) (digits whole)
  | (whole, Some frac) =>
      match digits whole, digits frac with
      | Some n, Some f =>
          let scale := Pos.pow 10 (Pos.of_nat (String.length frac)) in
          Some (Qmake (n * Z.pos scale + f) scale)
      | _, _ => None
      end
  end.

Definition decimal_number (s : string) : option Q :=
  match s with
  | String "-" s' => option_map Qopp (unsigned_decimal s')
  | _ => unsigned_decimal s
  end.

(** A world whose server answers every request with [reply], read at
    the instant [now]. *)
Definition world_of (reply : Element) (now : Z) : World Q :=
  {| quote := url_quote;
     http_get_xml := fun _ => Ok reply;
     datetime_of_string := iso_datetime;
     number_of_string := decimal_number;
     today := fun _ => now |}.

(** Builders of documents. *)
Definition leaf (name value : string) : Element := Elem name [] (Some value) [].
Definition node (name : string) (cs : list Element) : Element := Elem name [] None cs.
Definition parameter (name value : string) : Element :=
  Elem "Parameter" [("Name", name); ("Value", value)] None [].
Definition gap_marker : Element := Elem "Gap" [] None [].

(** A [GetData] reply: one measurement of the given data type with the
    given time points. *)
Definition data_reply (datatype : string) (es1 : list Element) : Element :=
  node "Hilltop"
    [node "Measurement"
       [node "DataSource" [leaf "DataType" datatype];
        node "Data" es1]].

(** 2020-06-01 00:00:00 *)
Definition june_2020 : Z := 1590969600000000000%Z.

(** ** The URL in the words of the specification *)

(** A query parameter [&key=value], or nothing when it is not emitted. *)
Definition query_part (key : string) (value : option string) : string :=
  match value with
  | Some v => "&" +++ key +++ "=" +++ v
  | None => ""
  end.

Definition site_text {Num : Type} (W : World Num) (site : site_value) : option string :=
  match site with
  | SiteNone => None
  | SiteStr s => Some (quote W s)
  | SiteInt n => Some (quote W (str_of_int n))
  end.

Definition or_default (default : string) (value : option string) : string :=
  match value with
  | Some v => v
  | None => default
  end.

(** The address, then the parameters in the fixed order: site,
    measurement, site parameters, location flag, and for [GetData] only:
    method, interval, time interval, alignment. *)
Definition url_in_order {Num : Type} (W : World Num)
    (base_url hts request : string) (site : site_value)
    (measurement from_date to_date : option string) (location : bool)
    (site_parameters : option (list string))
    (agg_method agg_interval alignment : option string) : string :=
  (if endswith base_url "/" then base_url else base_url +++ "/")
  +++ hts +++ "?Service=Hilltop&Request=" +++ request
  +++ String.concat ""
        ([query_part "Site" (site_text W site);
          query_part "Measurement" (option_map (quote W) measurement);
          query_part "SiteParameters"
            (option_map (fun l => quote W (String.concat "," l)) site_parameters);
          if location && String.eqb request "SiteList" then "&Location=Yes" else ""]
         ++ (if String.eqb request "GetData" then
               [query_part "Method" (option_map (quote W) agg_method);
                query_part "Interval" (option_map (quote W) agg_interval);
                "&TimeInterval=" +++ or_default "1800-01-01" from_date
                  +++ "/" +++ or_default "now" to_date;
                query_part "Alignment" alignment]
             else [])).

(** The two runs of [build_url]: the parameters every request may carry,
    and those of [GetData]. *)
Definition common_params {Num : Type} (W : World Num) (url request : string)
    (site : site_value) (measurement : option string) (location : bool)
    (site_parameters : option (list string)) : string :=
  let url := match site with
             | SiteStr s => url +++ "&Site=" +++ quote W s
             | SiteInt n => url +++ "&Site=" +++ quote W (str_of_int n)
             | SiteNone => url
             end in
  let url := match measurement with
             | Some m => url +++ "&Measurement=" +++ quote W m
             | None => url
             end in
  let url := match site_parameters with
             | Some l => url +++ "&SiteParameters=" +++ quote W (String.concat "," l)
             | None => url
             end in
  if location && String.eqb request "SiteList" then url +++ "&Location=Yes" else url.

Definition data_params {Num : Type} (W : World Num) (url : string)
    (from_date to_date agg_method agg_interval alignment : option string) : string :=
  let url := match agg_method with
             | Some a => url +++ "&Method=" +++ quote W a
             | None => url
             end in
  let url := match agg_interval with
             | Some a => url +++ "&Interval=" +++ quote W a
             | None => url
             end in
  let url := match from_date with
             | Some d => url +++ "&TimeInterval=" +++ d
             | None => url +++ "&TimeInterval=1800-01-01"
             end in
  let url := match to_date with
             | Some d => url +++ "/" +++ d
             | None => url +++ "/now"
             end in
  match alignment with
  | Some a => url +++ "&Alignment=" +++ a
  | None => url
  end.

(** What each request raises on a reply with an [Error] element. *)
Definition server_error {A : Type} : M A :=
  ([], Raise (ValueError "No results returned from URL request")).

(** What each request raises when the file name lacks its suffix. *)
Definition suffix_error {A : Type} : M A :=
  ([], Raise (ValueError "The hts file must end with .hts")).

(** A reply that holds an [Error] element next to data. *)
Definition error_reply : Element :=
  node "HilltopServer"
    [leaf "Error" "No such site";
     node "Measurement"
       [node "DataSource" [leaf "DataType" "SimpleTimeSeries"];
        node "Data" [node "E" [leaf "T" "2020-01-01"; leaf "I1" "1.5"]]]].

(** A catalog reply with no data source at all. *)
Definition no_data_reply : Element := node "HilltopServer" [].

(** A water-quality reply: pH is sampled at the first time point only,
    turbidity at the second only. *)
Definition two_parameter_reply : Element :=
  data_reply "WQSample"
    [node "E" [leaf "T" "2020-01-01"; parameter "pH" "7.1"];
     node "E" [leaf "T" "2020-02-01"; parameter "Turbidity" "3"]].

(** ** Replies with data *)

(** The reply [tree1] has no [Error] element and holds a measurement
    whose data type reads [datatype] and whose [Data] element has the
    children [es1]. *)
Definition is_data_reply (tree1 : Element) (datatype : option string)
    (es1 : list Element) : Prop :=
  find "Error" tree1 = None /\
  exists meas1 source dtype data1,
    find "Measurement" tree1 = Some meas1 /\
    find "DataSource" meas1 = Some source /\
    find "DataType" source = Some dtype /\
    text dtype = datatype /\
    find "Data" meas1 = Some data1 /\
    children data1 = es1.

(** The shapes read with the gap counter: 'SimpleTimeSeries' and
    'MeterReading', and 'WQData' when no parameters are asked for; the
    measurement is not 'WQ Sample', which is read first. *)
Definition gap_shape (measurement datatype : option string) (parameters : bool) : Prop :=
  measurement <> Some "WQ Sample" /\
  (datatype = Some "SimpleTimeSeries" \/ datatype = Some "MeterReading"
   \/ (datatype = Some "WQData" /\ parameters = false)).

Definition is_gap (d : Element) : bool := String.eqb (tag d) "Gap".

(** How many gap markers a run of elements holds. *)
Definition count_gaps (es : list Element) : nat := length (filter is_gap es).

(** A simple series: a reading, a gap that holds one reading, a reading. *)
Definition reading (t v : string) : Element := node "E" [leaf "T" t; leaf "I1" v].

Definition gapped_reply : Element :=
  data_reply "SimpleTimeSeries"
    [reading "2020-01-01" "1.5"; gap_marker; reading "2020-01-02" "2.5"; gap_marker;
     reading "2020-01-03" "3.5"].

(** ** Well-formed catalog entries *)




Definition plain_source : Element :=
  Elem "DataSource" [("Name", "Rainfall")] None
    [leaf "DataType" "SimpleTimeSeries"; leaf "From" "2010-01-01";
     leaf "To" "2020-01-01";
     node "Measurement" [leaf "RequestAs" "Rainfall"; leaf "Units" "mm"];
     node "Measurement" [leaf "RequestAs" "Rainfall [Daily]"; leaf "Units" "mm"]].

(** ** Reading a table *)

(** [df[name]]: the cells of a column, top to bottom. *)
Definition column {Num : Type} (name : string) (df : DataFrame Num)
    : option (list (cell Num)) :=
  option_map (fun i => map (cell_at i) (df_rows df)) (col_pos name (df_columns df)).

(** Rows of two cells from a column of times and a column of values. *)
Definition zip_rows {Num : Type} (ts vs : list (cell Num)) : list (list (cell Num)) :=
  map (fun p => [fst p; snd p]) (combine ts vs).

(** A timestamp that [pd.to_datetime] can read ([None] reads as [NaT]). *)
Definition readable_time {Num : Type} (W : World Num) (t : option string) : Prop :=
  exists c, to_datetime_raise W (time_cell t) = Ok c.

(** A simple series where one value is not a number. *)
Definition mixed_reply : Element :=
  data_reply "SimpleTimeSeries"
    [reading "2020-01-01" "1.5"; reading "2020-01-02" "n/a"].

(** A simple series of numbers. *)
Definition numeric_reply : Element :=
  data_reply "SimpleTimeSeries"
    [reading "2020-01-01" "1.5"; reading "2020-01-02" "2.5"].

(** ** Rows with bad times *)

(** The test of the mask on a row whose [From] and [To] cells stand at
    the positions [i] and [j]. *)
Definition row_is_bad {Num : Type} (now : Z) (i j : nat) (row : list (cell Num)) : bool :=
  bad_times now (cell_at i row) (cell_at j row).

(** A catalog whose only entry ends before it starts, and one with a
    sound entry and an entry that ends in 2099. *)
Definition reversed_catalog : Element :=
  node "HilltopServer"
    [Elem "DataSource" [("Name", "Flow")] None
       [leaf "DataType" "SimpleTimeSeries"; leaf "From" "2020-01-01";
        leaf "To" "2010-01-01";
        node "Measurement" [leaf "RequestAs" "Flow"; leaf "Units" "l/s"]]].

Definition future_catalog : Element :=
  node "HilltopServer"
    [plain_source;
     Elem "DataSource" [("Name", "Flow")] None
       [leaf "DataType" "SimpleTimeSeries"; leaf "From" "2010-01-01";
        leaf "To" "2099-01-01";
        node "Measurement" [leaf "RequestAs" "Flow"; leaf "Units" "l/s"]]].

(** The dates of a row are implausible at the instant [now]: [From] or
    [To] is missing, [From] is before 1900-01-01, or [To] is after [now]. *)
Definition implausible {Num : Type} (now : Z) (i j : nat) (row : list (cell Num)) : Prop :=
  cell_at i row = CNull \/ cell_at j row = CNull
  \/ (exists t, cell_at i row = CTime t /\ (t < ts_1900_01_01)%Z)
  \/ (exists t, cell_at j row = CTime t /\ (now < t)%Z).

(** ** Water-quality time points *)

(** The timestamp of a time point as the loops read it: the text of its
    [T] child. *)
Definition time_of (d : Element) : option string :=
  match find "T" d with
  | Some t => text t
  | None => None
  end.

Definition has_parameters (d : Element) : bool :=
  match findall "Parameter" d with
  | [] => false
  | _ :: _ => true
  end.

(** The name and the value of a [Parameter] element as the dict
    comprehension reads them. *)
Definition param_name (i : Element) : string :=
  match dict_get "Name" (attrib i) with
  | Some n => ascii_ignore n
  | None => ""
  end.

Definition param_value (i : Element) : string :=
  match dict_get "Value" (attrib i) with
  | Some v => ascii_ignore (str_take 299 v)
  | None => ""
  end.

Definition param_well_formed (i : Element) : Prop :=
  dict_get "Name" (attrib i) <> None /\ dict_get "Value" (attrib i) <> None.

(** A time point the 'WQ Sample' loop reads without raising: it has a
    [T] child, and its [Parameter] children have names and values. *)
Definition wq_point (d : Element) : Prop :=
  find "T" d <> None /\ Forall param_well_formed (findall "Parameter" d).

(** The parameter set of a time point: its [p_dict]. *)
Definition params_of (d : Element) : dict string string :=
  match param_dict (findall "Parameter" d) [] with
  | Ok p_dict => p_dict
  | Raise _ => []
  end.

(** The last time point of [es] that has parameters and the timestamp [t]. *)
Fixpoint last_point (t : option string) (es : list Element) : option Element :=
  match es with
  | [] => None
  | d :: rest =>
      match last_point t rest with
      | Some d' => Some d'
      | None => if has_parameters d && eqb (time_of d) t then Some d else None
      end
  end.

(** One row per parameter of a time point. *)
Definition point_rows {Num : Type} (d : Element) : list (list (cell Num)) :=
  map (fun i => [time_cell (time_of d); CStr (param_name i); CStr (param_value i)])
      (findall "Parameter" d).

(** How the rows of the returned table come from the stacked rows, one
    for one and in order: the timestamp is read, the site is added. *)
Definition finished_rows {Num : Type} (W : World Num) (site : site_value)
    (stacked rows : list (list (cell Num))) : Prop :=
  Forall2 (fun r r' => exists t p v c,
             r = [time_cell t; CStr p; CStr v]
             /\ to_datetime_raise W (time_cell t) = Ok c
             /\ r' = [c; CStr p; CStr v; cell_of_site site])
          stacked rows.

Definition sample (t : string) (ps : list Element) : Element := node "E" (leaf "T" t :: ps).

(** The payload of the specification: a time point with two parameters
    and a time point with none. *)
Definition pivot_reply : Element :=
  data_reply "WQSample"
    [sample "2020-01-01" [parameter "pH" "7.1"; parameter "Turbidity" "3"];
     sample "2020-02-01" []].

(** Two time points with one timestamp, both with a parameter; and two
    with one timestamp of which the last has none. *)
Definition repeated_reply : Element :=
  data_reply "WQSample"
    [sample "2020-01-01" [parameter "pH" "7.1"];
     sample "2020-01-01" [parameter "Turbidity" "3"]].

(** One time point that names a parameter twice. *)
Definition repeated_name_reply : Element :=
  data_reply "WQSample"
    [sample "2020-01-01" [parameter "pH" "7.1"; parameter "pH" "7.3"]].

Definition repeated_bare_reply : Element :=
  data_reply "WQSample"
    [sample "2020-01-01" [parameter "pH" "7.1"];
     sample "2020-01-01" []].

(** ** The remaining requests *)

Section OtherRequests.
Context {Num : Type}.
Variable W : World Num.

(** [site_list]: the names of the [Site] children of the reply.  The
    reply is not tested for an [Error] element. *)
Definition site_list (base_url hts : string) : result (list string) :=
  url <- build_url W base_url hts "SiteList" SiteNone None None None false
                   None None None None ;;
  tree1 <- http_get_xml W url ;;
  mapM (attrib_ "Name") (findall "Site" tree1).

(** [pd.concat(mtype_list)], from outside like the fields of the world. *)
Variable concat : list (tables Num) -> result (DataFrame Num).

(** [for s in sites: m1 = measurement_list(base_url, hts, s); mtype_list.append(m1)] *)
Fixpoint all_sites_loop (base_url hts : string) (sites : list string)
    (mtype_list : list (tables Num)) : M (list (tables Num)) :=
  match sites with
  | [] => ret mtype_list
  | s :: rest =>
      m1 <~ measurement_list W base_url hts (SiteStr s) None false ;;
      all_sites_loop base_url hts rest (mtype_list ++ [m1])
  end.

Definition measurement_list_all (base_url hts : string) : M (DataFrame Num) :=
  sites <~ lift (site_list base_url hts) ;;
  mtype_list <~ all_sites_loop base_url hts sites [] ;;
  lift (concat mtype_list).

End OtherRequests.

(** ** Instances for the remaining requests *)

Definition site_element (name : string) : Element := Elem "Site" [("Name", name)] None [].

(** A site list, and a site list that comes with an [Error] element. *)
Definition sites_reply : Element :=
  node "HilltopServer" [site_element "Site A"; site_element "Site B"].

Definition sites_error_reply : Element :=
  node "HilltopServer" [leaf "Error" "Partial result"; site_element "Site A"].

(** A site list with a site that has no name. *)
Definition nameless_site_reply : Element :=
  node "HilltopServer" [site_element "Site A"; Elem "Site" [] None []].

(** A server that knows two sites: the catalog of the first is sound,
    the request for the second is answered with an error. *)
Definition two_site_world : World Q :=
  {| quote := url_quote;
     http_get_xml := fun url =>
       if String.eqb url "http://example.org/data.hts?Service=Hilltop&Request=SiteList"
       then Ok sites_reply
       else if String.eqb url
                 ("http://example.org/data.hts?Service=Hilltop&Request=MeasurementList"
                  +++ "&Site=Site%20A")
       then Ok future_catalog
       else Ok error_reply;
     datetime_of_string := iso_datetime;
     number_of_string := decimal_number;
     today := fun _ => june_2020 |}.

(** A server that knows one site. *)
Definition one_site_world : World Q :=
  {| quote := url_quote;
     http_get_xml := fun url =>
       if String.eqb url "http://example.org/data.hts?Service=Hilltop&Request=SiteList"
       then Ok (node "HilltopServer" [site_element "Site A"])
       else Ok future_catalog;
     datetime_of_string := iso_datetime;
     number_of_string := decimal_number;
     today := fun _ => june_2020 |}.

(** [pd.concat] as far as the instances need it: nothing to concatenate
    raises, a single table comes back as it is. *)
Definition concat_at_most_one {Num : Type} (l : list (tables Num)) : result (DataFrame Num) :=
  match l with
  | [One df] => Ok df
  | _ => Raise (ValueError "No objects to concatenate")
  end.

(** ** Instances for the catalog *)

(** A catalog whose only data source is the water-quality sample. *)
Definition wq_only_catalog : Element :=
  node "HilltopServer"
    [Elem "DataSource" [("Name", "WQ Sample")] None
       [leaf "DataType" "WQSample";
        node "Measurement" [leaf "RequestAs" "WQ Sample"]]].

(** A catalog whose data source gives no start of its record. *)
Definition no_from_catalog : Element :=
  node "HilltopServer"
    [Elem "DataSource" [("Name", "Flow")] None
       [leaf "DataType" "SimpleTimeSeries"; leaf "To" "2010-01-01";
        node "Measurement" [leaf "RequestAs" "Flow"; leaf "Units" "l/s"]]].

(** A data source is read when it has no [TSType] child or one that
    reads 'StdSeries'. *)
Definition is_retained (d : Element) : bool :=
  match find "TSType" d with
  | None => true
  | Some ts => eqb (text ts) (Some "StdSeries")
  end.

(** ** Instances for the time series *)

(** A reply of a data type [get_data] has no branch for. *)
Definition section_reply : Element :=
  data_reply "HydSection" [reading "2020-01-01" "1.5"].

(** A water-quality series: a value per time point, parameters at the
    first only; and the same series with a gap marker in it. *)
Definition wq_value (t v : string) (ps : list Element) : Element :=
  node "E" (leaf "T" t :: leaf "Value" v :: ps).

Definition wqdata_reply : Element :=
  data_reply "WQData"
    [wq_value "2020-01-01" "7.1" [parameter "Method" "Probe"];
     wq_value "2020-02-01" "7.3" []].

Definition wqdata_plain_reply : Element :=
  data_reply "WQData"
    [wq_value "2020-01-01" "7.1" []; wq_value "2020-02-01" "7.3" []].

Definition wqdata_gap_reply : Element :=
  data_reply "WQData"
    [wq_value "2020-01-01" "7.1" []; gap_marker; wq_value "2020-02-01" "7.3" []].

(** The element [d] is a time point with the timestamp and the value of
    the pair [p], the value read from the child [field]. *)
Definition reads_as (field : string) (d : Element) (p : option string * string) : Prop :=
  exists t v s,
    find "T" d = Some t /\ find field d = Some v /\ text v = Some s
    /\ p = (text t, ascii_ignore s).

(** How the rows of the parameter table of the 'WQData' shape come from
    the stacked rows: the timestamp is read, the measurement and the site
    are added. *)
Definition finished_extra_rows {Num : Type} (W : World Num) (site : site_value)
    (measurement : option string) (stacked rows : list (list (cell Num))) : Prop :=
  Forall2 (fun r r' => exists t p v c,
             r = [time_cell t; CStr p; CStr v]
             /\ to_datetime_raise W (time_cell t) = Ok c
             /\ r' = [c; CStr p; CStr v; cell_of_name measurement; cell_of_site site])
          stacked rows.

(** ** Sanitised text *)

(** Every character of the string is an ASCII character. *)
Fixpoint all_ascii (s : string) : bool :=
  match s with
  | EmptyString => true
  | String c s' => is_ascii c && all_ascii s'
  end.

(** A parameter whose value ends in a degree sign and a unit. *)
Definition degree_sign : string := String (ascii_of_nat 176) EmptyString.

Definition temperature_parameter : Element :=
  parameter "Temp" ("21" +++ degree_sign +++ "C").

(** ** Time points of a parameter summary *)

(** The parameter names of a time point as the summary reads them. *)
Definition names_of (d : Element) : list string :=
  map param_name (findall "Parameter" d).

(** The last time point that has parameters. *)
Fixpoint last_with_parameters (es : list Element) : option Element :=
  match es with
  | [] => None
  | d :: rest =>
      match last_with_parameters rest with
      | Some d' => Some d'
      | None => if has_parameters d then Some d else None
      end
  end.

(** A time point the summary reads without raising: when it has
    parameters they are named, and its [T] child holds a timestamp that
    [pd.to_datetime] can read. *)
Definition summary_point {Num : Type} (W : World Num) (d : Element) : Prop :=
  has_parameters d = true ->
  Forall (fun i => dict_get "Name" (attrib i) <> None) (findall "Parameter" d)
  /\ exists t s, find "T" d = Some t /\ text t = Some s /\ datetime_of_string W s <> None.

(** The parameter [p] occurs at a time point of [es] with timestamp [t]. *)
Definition observed_at (p : string) (es : list Element) (t : option string) : Prop :=
  exists d, In d es /\ In p (names_of d) /\ time_of d = t.

(** A water-quality reply whose time points carry no parameter, and one
    whose measurement has no [Data] element. *)
Definition no_parameter_reply : Element :=
  data_reply "WQSample"
    [node "E" [leaf "T" "2020-01-01"]; node "E" [leaf "T" "2020-02-01"]].

Definition no_payload_reply : Element :=
  node "HilltopServer"
    [node "Measurement" [node "DataSource" [leaf "DataType" "WQSample"]]].

(** The row of the summary for a parameter and its first and last
    timestamp. *)
Definition range_row {Num : Type} (W : World Num) (site : site_value)
    (p : string) (lo hi : option string) : list (cell Num) :=
  [CStr p; to_datetime_coerce W (time_cell lo); to_datetime_coerce W (time_cell hi);
   CStr "WQSample"; cell_of_site site].

(** ** Cells of the tidied catalog *)

(** The field of a record that a column of the tidied catalog shows: the
    column 'Measurement' shows the field 'RequestAs'. *)
Definition catalog_field (r : dict string string) (c : string) : option string :=
  dict_get (if String.eqb c "Measurement" then "RequestAs" else c) r.

(** The cell of a record in a column of the tidied catalog. *)
Definition catalog_cell {Num : Type} (W : World Num) (site : site_value)
    (r : dict string string) (c : string) : cell Num :=
  if String.eqb c "Site" then cell_of_site site
  else if String.eqb c "Units" then percent_to_nan (cell_of_name (catalog_field r c))
  else if String.eqb c "From" || String.eqb c "To"
       then to_datetime_coerce W (cell_of_name (catalog_field r c))
  else cell_of_name (catalog_field r c).

(** A catalog with a measurement in percent. *)
Definition percent_catalog : Element :=
  node "HilltopServer"
    [Elem "DataSource" [("Name", "Humidity")] None
       [leaf "DataType" "SimpleTimeSeries"; leaf "From" "2010-01-01";
        leaf "To" "2020-01-01";
        node "Measurement" [leaf "RequestAs" "Humidity"; leaf "Units" "%"]]].

(** ** The stacked rows, time point by time point *)

(** The rows of the stacked table listed entry by entry of the mapping:
    the same rows as [stack_frame] gives, in another order. *)
Definition rows_by_point {Num : Type} (d : dict (option string) (dict string string))
    : list (list (cell Num)) :=
  flat_map (fun tp =>
    flat_map (fun c => match dict_get c (snd tp) with
                       | Some v => [[time_cell (fst tp); CStr c; CStr v]]
                       | None => []
                       end) (union_keys (map snd d))) d.

(** ** Fields of a catalog record *)






(** * Properties *)

(** ** Strings and outcomes *)

Lemma append_assoc (a b c : string) : (a +++ b) +++ c = a +++ (b +++ c).
Proof.
  induction a as [|x a IH]; simpl; [reflexivity | now rewrite IH].
Qed.

Lemma append_nil_r (a : string) : a +++ "" = a.
Proof.
  induction a as [|x a IH]; simpl; [reflexivity | now rewrite IH].
Qed.

Lemma bindM_lift_ok {A B : Type} (a : A) (k : A -> M B) :
  bindM (lift (Ok a)) k = k a.
Proof.
  unfold bindM, lift. destruct (k a) as [out r]. reflexivity.
Qed.

Lemma bindM_lift_raise {A B : Type} (e : exn) (k : A -> M B) :
  bindM (lift (Raise e)) k = ([], Raise e).
Proof. reflexivity. Qed.

Lemma bindM_print {A : Type} (line : string) (a : A) :
  (print line ;;; ret a) = ([line], Ok a).
Proof. reflexivity. Qed.

(** ** build_url *)

Lemma build_url_runs {Num : Type} (W : World Num)
    (base_url hts request : string) (site : site_value)
    (measurement from_date to_date : option string) (location : bool)
    (site_parameters : option (list string))
    (agg_method agg_interval alignment : option string) :
  build_url W base_url hts request site measurement from_date to_date location
            site_parameters agg_method agg_interval alignment
  = if negb (endswith hts ".hts") then
      Raise (ValueError "The hts file must end with .hts")
    else if negb (mem request available_requests) then
      Raise (ValueError
        "request must be one of ['SiteList', 'MeasurementList', 'GetData']")
    else
      let url := (if negb (endswith base_url "/") then base_url +++ "/" else base_url)
                 +++ hts +++ "?Service=Hilltop&Request=" +++ request in
      let url := common_params W url request site measurement location site_parameters in
      Ok (if String.eqb request "GetData"
          then data_params W url from_date to_date agg_method agg_interval alignment
          else url).
Proof. reflexivity. Qed.

Lemma common_params_order {Num : Type} (W : World Num) (url request : string)
    (site : site_value) (measurement : option string) (location : bool)
    (site_parameters : option (list string)) :
  common_params W url request site measurement location site_parameters
  = url +++ query_part "Site" (site_text W site)
        +++ query_part "Measurement" (option_map (quote W) measurement)
        +++ query_part "SiteParameters"
              (option_map (fun l => quote W (String.concat "," l)) site_parameters)
        +++ (if location && String.eqb request "SiteList" then "&Location=Yes" else "").
Proof.
  unfold common_params.
  destruct site, measurement, site_parameters,
           (location && String.eqb request "SiteList");
    simpl; repeat (rewrite ?append_assoc, ?append_nil_r; simpl); reflexivity.
Qed.

Lemma data_params_order {Num : Type} (W : World Num) (url : string)
    (from_date to_date agg_method agg_interval alignment : option string) :
  data_params W url from_date to_date agg_method agg_interval alignment
  = url +++ query_part "Method" (option_map (quote W) agg_method)
        +++ query_part "Interval" (option_map (quote W) agg_interval)
        +++ ("&TimeInterval=" +++ or_default "1800-01-01" from_date
               +++ "/" +++ or_default "now" to_date)
        +++ query_part "Alignment" alignment.
Proof.
  unfold data_params.
  destruct agg_method, agg_interval, from_date, to_date, alignment;
    simpl; repeat (rewrite ?append_assoc, ?append_nil_r; simpl); reflexivity.
Qed.

Lemma build_url_closed_form {Num : Type} (W : World Num)
    (base_url hts request : string) (site : site_value)
    (measurement from_date to_date : option string) (location : bool)
    (site_parameters : option (list string))
    (agg_method agg_interval alignment : option string) :
  build_url W base_url hts request site measurement from_date to_date location
            site_parameters agg_method agg_interval alignment
  = if negb (endswith hts ".hts") then
      Raise (ValueError "The hts file must end with .hts")
    else if negb (mem request available_requests) then
      Raise (ValueError
        "request must be one of ['SiteList', 'MeasurementList', 'GetData']")
    else
      Ok (url_in_order W base_url hts request site measurement from_date to_date
            location site_parameters agg_method agg_interval alignment).
Proof.
  rewrite build_url_runs.
  destruct (negb (endswith hts ".hts")); [reflexivity|].
  destruct (negb (mem request available_requests)); [reflexivity|].
  f_equal. unfold url_in_order.
  destruct (negb (endswith base_url "/")) eqn:Hb;
    [apply negb_true_iff in Hb | apply negb_false_iff in Hb]; rewrite Hb;
    rewrite common_params_order;
    (destruct (String.eqb request "GetData");
     [rewrite data_params_order|]);
    simpl; repeat (rewrite ?append_assoc, ?append_nil_r; simpl); reflexivity.
Qed.

Lemma common_params_quote {Num : Type} (W W' : World Num) (url request : string)
    (site : site_value) (measurement : option string) (location : bool)
    (site_parameters : option (list string)) :
  (forall s, quote W' s = quote W s) ->
  common_params W' url request site measurement location site_parameters
  = common_params W url request site measurement location site_parameters.
Proof.
  intros Hq. unfold common_params.
  destruct site, measurement, site_parameters; rewrite ?Hq; reflexivity.
Qed.

Lemma data_params_quote {Num : Type} (W W' : World Num) (url : string)
    (from_date to_date agg_method agg_interval alignment : option string) :
  (forall s, quote W' s = quote W s) ->
  data_params W' url from_date to_date agg_method agg_interval alignment
  = data_params W url from_date to_date agg_method agg_interval alignment.
Proof.
  intros Hq. unfold data_params.
  destruct agg_method, agg_interval; rewrite ?Hq; reflexivity.
Qed.

(** C8. [build_url] is a function of its arguments and of the world's
    [quote] alone, so equal inputs give the same URL, and whenever it
    returns the URL is the address followed by the query parameters in the
    fixed order site, measurement, site parameters, location flag and, for
    [GetData] only, method, interval, time interval (from 1800-01-01 and to
    now when the dates are not given), alignment. *)
Theorem build_url_fixed_order {Num : Type} (W : World Num)
    (base_url hts request : string) (site : site_value)
    (measurement from_date to_date : option string) (location : bool)
    (site_parameters : option (list string))
    (agg_method agg_interval alignment : option string) :
  build_url W base_url hts request site measurement from_date to_date location
            site_parameters agg_method agg_interval alignment
  = (if negb (endswith hts ".hts") then
       Raise (ValueError "The hts file must end with .hts")
     else if negb (mem request available_requests) then
       Raise (ValueError
         "request must be one of ['SiteList', 'MeasurementList', 'GetData']")
     else
       Ok (url_in_order W base_url hts request site measurement from_date to_date
             location site_parameters agg_method agg_interval alignment))
  /\ forall W' : World Num,
       (forall s, quote W' s = quote W s) ->
       build_url W' base_url hts request site measurement from_date to_date location
                 site_parameters agg_method agg_interval alignment
       = build_url W base_url hts request site measurement from_date to_date location
                   site_parameters agg_method agg_interval alignment.
Proof.
  split.
  - apply build_url_closed_form.
  - intros W' Hq. rewrite !build_url_runs. cbv zeta.
    rewrite (common_params_quote W W') by assumption.
    rewrite (data_params_quote W W') by assumption.
    reflexivity.
Qed.

Lemma build_url_witness :
  build_url (world_of (node "Hilltop" []) june_2020) "http://example.org" "data.hts"
            "GetData" (SiteStr "Site A") (Some "Flow") None None true
            (Some ["X"; "Y"]) (Some "Average") (Some "1 day") (Some "00:00")
  = Ok ("http://example.org/data.hts?Service=Hilltop&Request=GetData"
        +++ "&Site=Site%20A&Measurement=Flow&SiteParameters=X%2CY"
        +++ "&Method=Average&Interval=1%20day&TimeInterval=1800-01-01/now"
        +++ "&Alignment=00:00").
Proof.
  exact (proj1 (build_url_fixed_order (world_of (node "Hilltop" []) june_2020)
                  "http://example.org" "data.hts" "GetData" (SiteStr "Site A")
                  (Some "Flow") None None true (Some ["X"; "Y"]) (Some "Average")
                  (Some "1 day") (Some "00:00"))).
Defined.

(** The three requests the module itself builds never fail on the
    request kind: only the [.hts] suffix can be refused. *)
Lemma build_url_known_request {Num : Type} (W : World Num)
    (base_url hts request : string) (site : site_value)
    (measurement from_date to_date : option string) (location : bool)
    (site_parameters : option (list string))
    (agg_method agg_interval alignment : option string) :
  mem request available_requests = true ->
  (endswith hts ".hts" = false /\
   build_url W base_url hts request site measurement from_date to_date location
             site_parameters agg_method agg_interval alignment
   = Raise (ValueError "The hts file must end with .hts"))
  \/ (endswith hts ".hts" = true /\
      build_url W base_url hts request site measurement from_date to_date location
                site_parameters agg_method agg_interval alignment
      = Ok (url_in_order W base_url hts request site measurement from_date to_date
              location site_parameters agg_method agg_interval alignment)).
Proof.
  intros Hreq.
  rewrite build_url_closed_form.
  rewrite Hreq. destruct (endswith hts ".hts"); simpl; auto.
Qed.

(** ** Replies with an [Error] element *)

Section ErrorReplies.
Context {Num : Type} (W : World Num) (tree1 : Element).
Hypothesis reply : forall url, http_get_xml W url = Ok tree1.
Hypothesis has_error : find "Error" tree1 <> None.

Lemma measurement_list_error (base_url hts : string) (site : site_value)
    (measurement : option string) (output_bad_sites : bool) :
  (endswith hts ".hts" = false /\
   measurement_list W base_url hts site measurement output_bad_sites = suffix_error)
  \/ (endswith hts ".hts" = true /\
      measurement_list W base_url hts site measurement output_bad_sites = server_error).
Proof.
  unfold measurement_list.
  destruct (build_url_known_request W base_url hts "MeasurementList" site measurement
              None None false None None None None eq_refl) as [[Hs Hu] | [Hs Hu]];
    rewrite Hu; [left; split; [exact Hs | reflexivity] | right; split; [exact Hs|]].
  rewrite bindM_lift_ok, reply, bindM_lift_ok.
  destruct (find "Error" tree1); [reflexivity | contradiction].
Qed.

Lemma get_data_error (base_url hts : string) (site : site_value)
    (measurement from_date to_date agg_method agg_interval alignment : option string)
    (parameters : bool) :
  (endswith hts ".hts" = false /\
   get_data W base_url hts site measurement from_date to_date agg_method agg_interval
            alignment parameters = suffix_error)
  \/ (endswith hts ".hts" = true /\
      get_data W base_url hts site measurement from_date to_date agg_method agg_interval
               alignment parameters = server_error).
Proof.
  unfold get_data.
  destruct (build_url_known_request W base_url hts "GetData" site measurement
              from_date to_date false None agg_method agg_interval alignment eq_refl)
    as [[Hs Hu] | [Hs Hu]];
    rewrite Hu; [left; split; [exact Hs | reflexivity] | right; split; [exact Hs|]].
  rewrite bindM_lift_ok, reply, bindM_lift_ok.
  destruct (find "Error" tree1); [reflexivity | contradiction].
Qed.

Lemma wq_sample_parameter_list_error (base_url hts : string) (site : site_value) :
  (endswith hts ".hts" = false /\
   wq_sample_parameter_list W base_url hts site = suffix_error)
  \/ (endswith hts ".hts" = true /\
      wq_sample_parameter_list W base_url hts site = server_error).
Proof.
  unfold wq_sample_parameter_list.
  destruct (build_url_known_request W base_url hts "GetData" site (Some "WQ Sample")
              None None false None None None None eq_refl) as [[Hs Hu] | [Hs Hu]];
    rewrite Hu; [left; split; [exact Hs | reflexivity] | right; split; [exact Hs|]].
  rewrite bindM_lift_ok, reply, bindM_lift_ok.
  destruct (find "Error" tree1); [reflexivity | contradiction].
Qed.

End ErrorReplies.

(** C2. When the reply has an [Error] element, [measurement_list],
    [get_data] and [wq_sample_parameter_list] each raise without having
    printed anything, whatever else the reply holds: no table is returned.
    With a well-formed file name the exception is the [ValueError]
    'No results returned from URL request'. *)
Theorem error_element_raises {Num : Type} (W : World Num) (tree1 : Element)
    (base_url hts : string) (site : site_value)
    (measurement from_date to_date agg_method agg_interval alignment : option string)
    (output_bad_sites parameters : bool) :
  (forall url, http_get_xml W url = Ok tree1) ->
  find "Error" tree1 <> None ->
  ((exists e, measurement_list W base_url hts site measurement output_bad_sites
              = ([], Raise e))
   /\ (exists e, get_data W base_url hts site measurement from_date to_date agg_method
                   agg_interval alignment parameters = ([], Raise e))
   /\ (exists e, wq_sample_parameter_list W base_url hts site = ([], Raise e)))
  /\ (endswith hts ".hts" = true ->
      measurement_list W base_url hts site measurement output_bad_sites = server_error
      /\ get_data W base_url hts site measurement from_date to_date agg_method
                  agg_interval alignment parameters = server_error
      /\ wq_sample_parameter_list W base_url hts site = server_error).
Proof.
  intros Hreply Herr.
  pose proof (measurement_list_error W tree1 Hreply Herr base_url hts site measurement
                output_bad_sites) as Hm.
  pose proof (get_data_error W tree1 Hreply Herr base_url hts site measurement from_date
                to_date agg_method agg_interval alignment parameters) as Hg.
  pose proof (wq_sample_parameter_list_error W tree1 Hreply Herr base_url hts site) as Hw.
  split.
  - repeat split.
    + destruct Hm as [[_ ->] | [_ ->]]; eexists; reflexivity.
    + destruct Hg as [[_ ->] | [_ ->]]; eexists; reflexivity.
    + destruct Hw as [[_ ->] | [_ ->]]; eexists; reflexivity.
  - intros Hs.
    destruct Hm as [[Hm _] | [_ Hm]]; [congruence|].
    destruct Hg as [[Hg _] | [_ Hg]]; [congruence|].
    destruct Hw as [[Hw _] | [_ Hw]]; [congruence|].
    auto.
Qed.

Lemma error_element_raises_witness :
  measurement_list (world_of error_reply june_2020) "http://example.org" "data.hts"
                   (SiteStr "Site A") (Some "Flow") true = server_error
  /\ get_data (world_of error_reply june_2020) "http://example.org" "data.hts"
              (SiteStr "Site A") (Some "Flow") None None None None (Some "00:00") false
     = server_error
  /\ wq_sample_parameter_list (world_of error_reply june_2020) "http://example.org"
                              "data.hts" (SiteStr "Site A") = server_error.
Proof.
  apply (error_element_raises (world_of error_reply june_2020) error_reply
           "http://example.org" "data.hts" (SiteStr "Site A") (Some "Flow") None None
           None None (Some "00:00") true false).
  - intros url. reflexivity.
  - simpl. discriminate.
  - reflexivity.
Defined.

(** ** Replies without data *)

Section EmptyReplies.
Context {Num : Type} (W : World Num).

(** X7. No [DataSource] element: one empty table and a notice, whether or
    not the bad sites were asked for. *)
Lemma measurement_list_no_data_sources (base_url hts url : string) (site : site_value)
    (measurement : option string) (output_bad_sites : bool) (tree1 : Element) :
  build_url W base_url hts "MeasurementList" site measurement
            None None false None None None None = Ok url ->
  http_get_xml W url = Ok tree1 ->
  find "Error" tree1 = None ->
  findall "DataSource" tree1 = [] ->
  measurement_list W base_url hts site measurement output_bad_sites
  = (["No data, returning empty DataFrame"], Ok (One empty_frame)).
Proof.
  intros Hu Hr He Hd. unfold measurement_list.
  rewrite Hu, bindM_lift_ok, Hr, bindM_lift_ok, He, Hd. reflexivity.
Qed.

(** X8. A single data source named 'WQ Sample': empty tables and a notice,
    one table or a pair as asked. *)
Lemma measurement_list_only_wq_sample (base_url hts url : string) (site : site_value)
    (measurement : option string) (output_bad_sites : bool) (tree1 d : Element) :
  build_url W base_url hts "MeasurementList" site measurement
            None None false None None None None = Ok url ->
  http_get_xml W url = Ok tree1 ->
  find "Error" tree1 = None ->
  findall "DataSource" tree1 = [d] ->
  dict_get "Name" (attrib d) = Some "WQ Sample" ->
  measurement_list W base_url hts site measurement output_bad_sites
  = (["Site only has WQ Sample"],
     Ok (if output_bad_sites then Two empty_frame empty_frame else One empty_frame)).
Proof.
  intros Hu Hr He Hd Hn. unfold measurement_list.
  rewrite Hu, bindM_lift_ok, Hr, bindM_lift_ok, He, Hd.
  unfold only_wq_sample, attrib_. rewrite Hn. simpl.
  destruct output_bad_sites; reflexivity.
Qed.

(** X9. No [Measurement] element: [get_data] returns one empty table and a
    notice. *)
Lemma get_data_no_measurement (base_url hts url : string) (site : site_value)
    (measurement from_date to_date agg_method agg_interval alignment : option string)
    (parameters : bool) (tree1 : Element) :
  build_url W base_url hts "GetData" site measurement from_date to_date
            false None agg_method agg_interval alignment = Ok url ->
  http_get_xml W url = Ok tree1 ->
  find "Error" tree1 = None ->
  find "Measurement" tree1 = None ->
  get_data W base_url hts site measurement from_date to_date agg_method agg_interval
           alignment parameters
  = (["No data, returning empty DataFrame"], Ok (One empty_frame)).
Proof.
  intros Hu Hr He Hm. unfold get_data.
  rewrite Hu, bindM_lift_ok, Hr, bindM_lift_ok, He, Hm. reflexivity.
Qed.

End EmptyReplies.

(** C3. The code at the input where it departs from the claim: with the
    bad sites asked for and a reply without any [DataSource] element,
    [measurement_list] prints its notice and returns one empty table, not
    a pair of empty tables. *)
Theorem measurement_list_no_data_is_one_table :
  measurement_list (world_of no_data_reply june_2020) "http://example.org" "data.hts"
                   (SiteStr "Site A") None true
  = (["No data, returning empty DataFrame"], Ok (One empty_frame)).
Proof. reflexivity. Qed.

(** ** The parameter summary *)

(** C5. The code at the input where it departs from the claim: pH is
    observed at the first time point, yet the table has a row for
    turbidity only, the parameter of the last time point. *)
Theorem wq_sample_parameter_list_misses_parameter :
  wq_sample_parameter_list (world_of two_parameter_reply june_2020)
                           "http://example.org" "data.hts" (SiteStr "Site A")
  = ([], Ok {| df_index := ["Site"; "Parameter"];
               df_columns := ["Parameter"; "From"; "To"; "DataType"; "Site"];
               df_rows := [[CStr "Turbidity"; CTime 1580515200000000000;
                            CTime 1580515200000000000; CStr "WQSample";
                            CStr "Site A"]] |}).
Proof. vm_compute. reflexivity. Qed.

(** ** The gap counter *)

Lemma bind_assoc {A B C : Type} (r : result A) (k : A -> result B) (h : B -> result C) :
  bind (bind r k) h = bind r (fun a => bind (k a) h).
Proof. destruct r; reflexivity. Qed.

Section GapLoop.
Variable field : string.
#[local] Arguments Nat.modulo _ _ : simpl never.

(** Reading a run and then the rest is reading the whole, with the
    counter advanced by the markers of the run. *)
Lemma gap_loop_app (pre rest : list Element) :
  forall gap acc,
    gap_loop field (pre ++ rest) gap acc
    = bind (gap_loop field pre gap acc)
           (fun acc' => gap_loop field rest (gap + count_gaps pre) acc').
Proof.
  induction pre as [|d pre IH]; intros gap acc; simpl.
  - now rewrite Nat.add_0_r.
  - unfold count_gaps. simpl. fold (count_gaps pre). unfold is_gap at 1.
    destruct (String.eqb (tag d) "Gap").
    + rewrite IH. simpl. now replace (gap + 1 + count_gaps pre) with (gap + S (count_gaps pre)) by lia.
    + destruct (Nat.eqb (gap mod 2) 1); [apply IH|].
      rewrite !bind_assoc.
      destruct (find_ "T" d) as [t|e]; [simpl | reflexivity].
      destruct (find_ field d) as [v|e]; [simpl | reflexivity].
      destruct (text_ascii v) as [s|e]; [simpl | reflexivity].
      apply IH.
Qed.

(** Only the parity of the counter matters. *)
Lemma gap_loop_parity (es : list Element) :
  forall gap gap' acc,
    gap mod 2 = gap' mod 2 ->
    gap_loop field es gap acc = gap_loop field es gap' acc.
Proof.
  induction es as [|d es IH]; intros gap gap' acc Hp; simpl; [reflexivity|].
  destruct (String.eqb (tag d) "Gap").
  - apply IH.
    rewrite (Nat.Div0.add_mod gap 1 2), (Nat.Div0.add_mod gap' 1 2), Hp. reflexivity.
  - rewrite Hp. destruct (Nat.eqb (gap' mod 2) 1); [now apply IH|].
    destruct (find_ "T" d) as [t|e]; [simpl | reflexivity].
    destruct (find_ field d) as [v|e]; [simpl | reflexivity].
    destruct (text_ascii v) as [s|e]; [simpl | reflexivity].
    now apply IH.
Qed.

(** Inside an open gap a run without markers is passed over unread. *)
Lemma gap_loop_skip (mid rest : list Element) :
  forall gap acc,
    gap mod 2 = 1 ->
    count_gaps mid = 0 ->
    gap_loop field (mid ++ rest) gap acc = gap_loop field rest gap acc.
Proof.
  induction mid as [|d mid IH]; intros gap acc Hodd Hno; simpl; [reflexivity|].
  unfold count_gaps in Hno. simpl in Hno. unfold is_gap at 1 in Hno.
  destruct (String.eqb (tag d) "Gap"); [discriminate|].
  rewrite Hodd. simpl. now apply IH.
Qed.

Lemma even_mod2 (n : nat) : Nat.even n = true -> n mod 2 = 0.
Proof.
  intros H. apply Nat.even_spec in H. destruct H as [k ->].
  rewrite Nat.mul_comm. apply Nat.Div0.mod_mul.
Qed.

(** An opening marker, the run up to the closing marker, and the closing
    marker leave no trace; neither do an opening marker and a run that
    lasts to the end. *)
Lemma gap_loop_excludes (pre mid : list Element) (g1 : Element) :
  Nat.even (count_gaps pre) = true ->
  is_gap g1 = true ->
  count_gaps mid = 0 ->
  gap_loop field (pre ++ g1 :: mid) 0 [] = gap_loop field pre 0 []
  /\ forall g2 post,
       is_gap g2 = true ->
       gap_loop field (pre ++ g1 :: mid ++ g2 :: post) 0 []
       = gap_loop field (pre ++ post) 0 [].
Proof.
  intros Heven Hg1 Hmid. apply even_mod2 in Heven.
  assert (Hodd : (count_gaps pre + 1) mod 2 = 1).
  { rewrite Nat.Div0.add_mod, Heven. reflexivity. }
  unfold is_gap in Hg1. split.
  - rewrite gap_loop_app. simpl. rewrite Hg1.
    destruct (gap_loop field pre 0 []) as [acc|e]; simpl; [|reflexivity].
    rewrite <- (app_nil_r mid). now rewrite gap_loop_skip.
  - intros g2 post Hg2. unfold is_gap in Hg2.
    rewrite !gap_loop_app. simpl. rewrite Hg1.
    destruct (gap_loop field pre 0 []) as [acc|e]; simpl; [|reflexivity].
    rewrite gap_loop_skip by assumption. simpl. rewrite Hg2.
    apply gap_loop_parity.
    rewrite (Nat.Div0.add_mod (count_gaps pre + 1) 1 2), Hodd, Heven. reflexivity.
Qed.

End GapLoop.

(** Outside a gap every element is read: a run without markers, met
    with the counter even, appends one pair per element. *)
Lemma gap_loop_keeps (field : string) (es : list Element)
    (pairs : list (option string * string)) :
  Forall2 (fun d p => is_gap d = false
                      /\ exists t v s,
                           find "T" d = Some t /\ find field d = Some v
                           /\ text v = Some s /\ p = (text t, ascii_ignore s))
          es pairs ->
  forall gap acc,
    gap mod 2 = 0 ->
    gap_loop field es gap acc = Ok (acc ++ pairs).
Proof.
  induction 1 as [|d p es pairs [Hd (t & v & s & Ht & Hv & Hs & ->)] _ IH];
    intros gap acc Heven; cbn [gap_loop].
  - now rewrite app_nil_r.
  - unfold is_gap in Hd. rewrite Hd, Heven. cbn [Nat.eqb].
    unfold find_. rewrite Ht. cbn [bind]. rewrite Hv. cbn [bind].
    unfold text_ascii. rewrite Hs. cbn [bind].
    rewrite (IH gap _ Heven). now rewrite <- app_assoc.
Qed.

(** ** get_data on a reply with data *)

Section DataReplies.
Context {Num : Type} (W : World Num).

(** On a reply with data [get_data] is [data_tables] of the data type
    and the time points, and prints nothing. *)
Lemma get_data_of_reply (base_url hts url : string) (site : site_value)
    (measurement from_date to_date agg_method agg_interval alignment : option string)
    (parameters : bool) (tree1 : Element) (datatype : option string)
    (es1 : list Element) :
  build_url W base_url hts "GetData" site measurement from_date to_date
            false None agg_method agg_interval alignment = Ok url ->
  http_get_xml W url = Ok tree1 ->
  is_data_reply tree1 datatype es1 ->
  get_data W base_url hts site measurement from_date to_date agg_method agg_interval
           alignment parameters
  = lift (data_tables W site measurement datatype parameters es1).
Proof.
  intros Hu Hr [He (meas1 & source & dtype & data1 & Hm & Hs & Hd & Ht & Hdata & Hes)].
  unfold get_data.
  rewrite Hu, bindM_lift_ok, Hr, bindM_lift_ok, He, Hm.
  unfold find_. rewrite Hs, bindM_lift_ok, Hd, bindM_lift_ok, Hdata, bindM_lift_ok.
  now rewrite Ht, Hes.
Qed.

(** In the shapes read with the gap counter the tables depend on the
    time points through the gap loop alone. *)
Lemma data_tables_gap_shape (site : site_value) (measurement datatype : option string)
    (parameters : bool) (es es' : list Element) :
  gap_shape measurement datatype parameters ->
  (forall field, gap_loop field es 0 [] = gap_loop field es' 0 []) ->
  data_tables W site measurement datatype parameters es
  = data_tables W site measurement datatype parameters es'.
Proof.
  intros [Hm Hshape] Hloop. unfold data_tables, extract_data.
  destruct (eqb_spec measurement (Some "WQ Sample")) as [Heq|_]; [contradiction|].
  destruct Hshape as [-> | [-> | [-> ->]]]; simpl; now rewrite Hloop.
Qed.

End DataReplies.

(** C1. In the shapes read with the gap counter ('SimpleTimeSeries',
    'MeterReading', and 'WQData' without parameters), take an opening gap
    marker [g1], that is one with an even number of markers before it, and
    the run [mid] of elements up to the next marker.  When the payload
    ends there, [get_data] returns what it returns for the payload cut
    before [g1]; when a closing marker [g2] follows, it returns what it
    returns for the payload without [g1], [mid] and [g2].  So the markers
    give no rows, and no row between them, or after an unclosed one,
    is in the table. *)
Theorem get_data_gap_exclusion {Num : Type} (W : World Num)
    (base_url hts url : string) (site : site_value)
    (measurement from_date to_date agg_method agg_interval alignment : option string)
    (parameters : bool) (tree1 : Element) (datatype : option string)
    (pre mid rest : list Element) (g1 : Element) :
  build_url W base_url hts "GetData" site measurement from_date to_date
            false None agg_method agg_interval alignment = Ok url ->
  http_get_xml W url = Ok tree1 ->
  is_data_reply tree1 datatype (pre ++ g1 :: mid ++ rest) ->
  gap_shape measurement datatype parameters ->
  Nat.even (count_gaps pre) = true ->
  tag g1 = "Gap" ->
  count_gaps mid = 0 ->
  (rest = [] ->
   get_data W base_url hts site measurement from_date to_date agg_method agg_interval
            alignment parameters
   = lift (data_tables W site measurement datatype parameters pre))
  /\ (forall g2 post,
        rest = g2 :: post ->
        tag g2 = "Gap" ->
        get_data W base_url hts site measurement from_date to_date agg_method
                 agg_interval alignment parameters
        = lift (data_tables W site measurement datatype parameters (pre ++ post))).
Proof.
  intros Hu Hr Hreply Hshape Heven Hg1 Hmid.
  rewrite (get_data_of_reply W _ _ _ _ _ _ _ _ _ _ _ _ _ _ Hu Hr Hreply).
  assert (Hg1' : is_gap g1 = true) by (unfold is_gap; rewrite Hg1; reflexivity).
  split.
  - intros ->. f_equal. apply data_tables_gap_shape; [assumption|].
    intros field. rewrite app_nil_r.
    exact (proj1 (gap_loop_excludes field pre mid g1 Heven Hg1' Hmid)).
  - intros g2 post -> Hg2. f_equal. apply data_tables_gap_shape; [assumption|].
    intros field.
    apply (proj2 (gap_loop_excludes field pre mid g1 Heven Hg1' Hmid)).
    unfold is_gap. rewrite Hg2. reflexivity.
Qed.

Lemma get_data_gap_exclusion_witness :
  get_data (world_of gapped_reply june_2020) "http://example.org" "data.hts"
           (SiteStr "Site A") (Some "Flow") None None None None (Some "00:00") false
  = ([], Ok (One {| df_index := ["Site"; "Measurement"; "DateTime"];
                    df_columns := ["DateTime"; "Value"; "Site"; "Measurement"];
                    df_rows := [[CTime 1577836800000000000; CNum (Qmake 15 10);
                                 CStr "Site A"; CStr "Flow"];
                                [CTime 1578009600000000000; CNum (Qmake 35 10);
                                 CStr "Site A"; CStr "Flow"]] |})).
Proof.
  refine (eq_trans
            (proj2 (get_data_gap_exclusion (world_of gapped_reply june_2020)
                      "http://example.org" "data.hts" _ (SiteStr "Site A") (Some "Flow")
                      None None None None (Some "00:00") false gapped_reply
                      (Some "SimpleTimeSeries") [reading "2020-01-01" "1.5"]
                      [reading "2020-01-02" "2.5"]
                      [gap_marker; reading "2020-01-03" "3.5"] gap_marker
                      eq_refl eq_refl _ _ eq_refl eq_refl eq_refl)
                   gap_marker [reading "2020-01-03" "3.5"] eq_refl eq_refl) _).
  - split; [reflexivity|].
    do 4 eexists. repeat split; reflexivity.
  - split; [discriminate | left; reflexivity].
  - vm_compute. reflexivity.
Defined.

(** ** Lists of outcomes *)

Lemma mapM_Forall2 {A B : Type} (f : A -> result B) (l : list A) (ys : list B) :
  mapM f l = Ok ys <-> Forall2 (fun x y => f x = Ok y) l ys.
Proof.
  revert ys. induction l as [|x l IH]; intros ys; simpl.
  - split; intros H; [injection H as <-; constructor | inversion H; reflexivity].
  - split.
    + destruct (f x) as [y|e] eqn:Hx; simpl; [|discriminate].
      destruct (mapM f l) as [ys'|e] eqn:Hl; simpl; [|discriminate].
      intros H. injection H as <-. constructor; [assumption | now apply IH].
    + intros H. inversion H as [|x' y l' ys' Hx Hl]; subst.
      rewrite Hx. simpl. apply IH in Hl. rewrite Hl. reflexivity.
Qed.

Lemma mapM_total {A B : Type} (f : A -> result B) (l : list A) :
  Forall (fun x => exists y, f x = Ok y) l -> exists ys, mapM f l = Ok ys.
Proof.
  induction 1 as [|x l [y Hx] _ [ys Hl]]; simpl.
  - now exists [].
  - rewrite Hx, Hl. now exists (y :: ys).
Qed.

Lemma mapM_raise {A B : Type} (f : A -> result B) (e : exn) (l : list A) :
  (forall x e', f x = Raise e' -> e' = e) ->
  (exists x, In x l /\ exists e', f x = Raise e') ->
  mapM f l = Raise e.
Proof.
  intros Honly (x & Hin & e' & Hx).
  induction l as [|y l IH]; [contradiction|]. cbn [mapM].
  destruct (f y) as [b|e''] eqn:Hy; cbn [bind].
  - destruct Hin as [-> | Hin]; [congruence|]. now rewrite (IH Hin).
  - now rewrite (Honly y e'' Hy).
Qed.

(** ** The data sources of a catalog *)




(** ** Tables of times and values *)

Section TimeValueTables.
Context {Num : Type} (W : World Num).

Lemma frame_of_pairs_rows (l : list (option string * string)) :
  df_rows (frame_of_pairs (Num := Num) l)
  = zip_rows (map (fun tv => time_cell (fst tv)) l) (map (fun tv => CStr (snd tv)) l).
Proof.
  unfold frame_of_pairs, zip_rows. simpl.
  induction l as [|tv l IH]; simpl; [reflexivity | now rewrite IH].
Qed.

Lemma zip_rows_values (ts vs : list (cell Num)) :
  length ts = length vs -> map (cell_at 1) (zip_rows ts vs) = vs.
Proof.
  revert vs. induction ts as [|t ts IH]; intros [|v vs] H; simpl in *;
    try discriminate; [reflexivity|].
  unfold zip_rows in IH. rewrite IH by lia. reflexivity.
Qed.

Lemma zip_rows_set_values (ts vs vs' : list (cell Num)) :
  length vs = length vs' ->
  map (fun rc => set_at 1 (snd rc) (fst rc)) (combine (zip_rows ts vs) vs')
  = zip_rows ts vs'.
Proof.
  revert vs vs'. induction ts as [|t ts IH]; intros [|v vs] [|v' vs'] H; simpl in *;
    try discriminate; try reflexivity.
  unfold zip_rows in *. rewrite IH by lia. reflexivity.
Qed.

Lemma zip_rows_to_datetime (ts ts' vs : list (cell Num)) :
  mapM (to_datetime_raise W) ts = Ok ts' ->
  mapM (fun row => c <- to_datetime_raise W (cell_at 0 row) ;; Ok (set_at 0 c row))
       (zip_rows ts vs)
  = Ok (zip_rows ts' vs).
Proof.
  revert ts' vs. induction ts as [|t ts IH]; intros ts' vs H; simpl in H.
  - injection H as <-. reflexivity.
  - destruct (to_datetime_raise W t) as [c|e] eqn:Hc; simpl in H; [|discriminate].
    destruct (mapM (to_datetime_raise W) ts) as [cs|e] eqn:Hcs; simpl in H; [|discriminate].
    injection H as <-. destruct vs as [|v vs]; [reflexivity|].
    change (zip_rows (t :: ts) (v :: vs)) with ([t; v] :: zip_rows ts vs).
    change (zip_rows (c :: cs) (v :: vs)) with ([c; v] :: zip_rows cs vs).
    cbn [mapM]. change (cell_at 0 [t; v]) with t. rewrite Hc. cbn [bind].
    rewrite (IH cs vs eq_refl). reflexivity.
Qed.

(** What [pd.to_numeric(..., errors='ignore')] makes of a column of
    strings: numbers when every string reads as one, the strings
    themselves when one does not. *)
Lemma numbers_of_cells_all (vs : list string) (nums : list Num) :
  Forall2 (fun s x => number_of_string W s = Some x) vs nums ->
  numbers_of_cells W (map CStr vs) = Some (map CNum nums).
Proof.
  induction 1 as [|s x vs nums Hs _ IH]; simpl; [reflexivity|].
  now rewrite Hs, IH.
Qed.

Lemma numbers_of_cells_one_fails (vs : list string) :
  (exists s, In s vs /\ number_of_string W s = None) ->
  numbers_of_cells W (map CStr vs) = None.
Proof.
  intros (s & Hin & Hs). induction vs as [|v vs IH]; simpl in *; [contradiction|].
  destruct Hin as [-> | Hin].
  - now rewrite Hs.
  - rewrite (IH Hin). now destruct (number_of_string W v).
Qed.

Lemma all_numbers (vs : list string) :
  (forall s, In s vs -> number_of_string W s <> None) ->
  exists nums, Forall2 (fun s x => number_of_string W s = Some x) vs nums.
Proof.
  induction vs as [|v vs IH]; intros H.
  - exists []. constructor.
  - destruct IH as [nums Hn]; [intros s Hs; apply H; now right|].
    destruct (number_of_string W v) as [x|] eqn:Hv.
    + exists (x :: nums). now constructor.
    + exfalso. apply (H v); [now left | assumption].
Qed.

Lemma to_numeric_ignore_length (col : list (cell Num)) :
  length (to_numeric_ignore W col) = length col.
Proof.
  unfold to_numeric_ignore.
  destruct (numbers_of_cells W col) as [xs|] eqn:H; [|reflexivity].
  revert xs H. induction col as [|c col IH]; intros xs H; simpl in H.
  - now injection H as <-.
  - destruct c as [|s|n|x|t];
      try (destruct (numbers_of_cells W col) as [ys|]; simpl in H; [|discriminate];
           injection H as <-; simpl; now rewrite (IH ys eq_refl)).
    destruct (number_of_string W s); [|discriminate].
    destruct (numbers_of_cells W col) as [ys|]; [|discriminate].
    injection H as <-. simpl. now rewrite (IH ys eq_refl).
Qed.

(** The end of [get_data] on a table of times and values, when the
    measurement is not 'WQ Sample' and no parameter table is due. *)
Lemma finish_data_time_values (site : site_value) (measurement datatype : option string)
    (parameters : bool) (ts ts' vs : list (cell Num))
    (tsextra : option (dict (option string) (dict string string)))
    (extra : option (DataFrame Num)) :
  measurement <> Some "WQ Sample" ->
  parameters && eqb datatype (Some "WQData") = false ->
  mapM (to_datetime_raise W) ts = Ok ts' ->
  finish_data W site measurement datatype parameters
    {| data_df := Some {| df_index := []; df_columns := ["DateTime"; "Value"];
                          df_rows := zip_rows ts vs |};
       tsextra_dict := tsextra; extra_df := extra |}
  = Ok (One {| df_index := ["Site"; "Measurement"; "DateTime"];
               df_columns := ["DateTime"; "Value"; "Site"; "Measurement"];
               df_rows := map (fun row => (row ++ [cell_of_site site])
                                          ++ [cell_of_name measurement])
                              (zip_rows ts' vs) |}).
Proof.
  intros Hm Hp Hts. unfold finish_data. cbn [data_df bind].
  unfold column_to_datetime.
  cbn [df_columns df_rows df_index col_pos String.eqb Ascii.eqb Bool.eqb].
  rewrite (zip_rows_to_datetime ts ts' vs Hts). cbn [bind].
  rewrite Hp.
  destruct (eqb_spec measurement (Some "WQ Sample")) as [|_]; [contradiction|].
  unfold assign_column, set_index. simpl. rewrite map_map. reflexivity.
Qed.

End TimeValueTables.

(** ** Numeric coercion *)

Section NumericCoercion.
Context {Num : Type} (W : World Num).

Lemma column_to_numeric_pairs (l : list (option string * string)) :
  column_to_numeric W "Value" (frame_of_pairs l)
  = {| df_index := [];
       df_columns := ["DateTime"; "Value"];
       df_rows := zip_rows (map (fun tv => time_cell (fst tv)) l)
                           (to_numeric_ignore W (map CStr (map snd l))) |}.
Proof.
  unfold column_to_numeric.
  change (col_pos "Value" (df_columns (frame_of_pairs (Num := Num) l))) with (Some 1).
  cbv iota beta. rewrite frame_of_pairs_rows.
  change (df_index (frame_of_pairs (Num := Num) l)) with (@nil string).
  change (df_columns (frame_of_pairs (Num := Num) l)) with ["DateTime"; "Value"].
  rewrite zip_rows_values by (now rewrite !length_map).
  rewrite zip_rows_set_values by (now rewrite to_numeric_ignore_length).
  now rewrite map_map.
Qed.

Lemma value_column_of_rows (ts vs : list (cell Num)) (a b : cell Num) :
  length ts = length vs ->
  map (cell_at 1) (map (fun row => (row ++ [a]) ++ [b]) (zip_rows ts vs)) = vs.
Proof.
  revert vs. induction ts as [|t ts IH]; intros [|v vs] H; simpl in *;
    try discriminate; [reflexivity|].
  unfold zip_rows in IH. rewrite IH by lia. reflexivity.
Qed.

(** The table of a simple or meter-reading series: its [Value] column
    is the column of extracted strings after [pd.to_numeric]. *)
Lemma get_data_simple_series (base_url hts url : string) (site : site_value)
    (measurement from_date to_date agg_method agg_interval alignment : option string)
    (parameters : bool) (tree1 : Element) (datatype : option string)
    (es1 : list Element) (tsdata_list : list (option string * string)) :
  build_url W base_url hts "GetData" site measurement from_date to_date
            false None agg_method agg_interval alignment = Ok url ->
  http_get_xml W url = Ok tree1 ->
  is_data_reply tree1 datatype es1 ->
  measurement <> Some "WQ Sample" ->
  datatype = Some "SimpleTimeSeries" \/ datatype = Some "MeterReading" ->
  gap_loop "I1" es1 0 [] = Ok tsdata_list ->
  Forall (fun tv => readable_time W (fst tv)) tsdata_list ->
  exists df,
    get_data W base_url hts site measurement from_date to_date agg_method agg_interval
             alignment parameters = ([], Ok (One df))
    /\ length (df_rows df) = length tsdata_list
    /\ column "Value" df = Some (to_numeric_ignore W (map CStr (map snd tsdata_list))).
Proof.
  intros Hu Hr Hreply Hm Hshape Hloop Htimes.
  rewrite (get_data_of_reply W _ _ _ _ _ _ _ _ _ _ _ _ _ _ Hu Hr Hreply).
  destruct (mapM_total (to_datetime_raise W)
              (map (fun tv => time_cell (fst tv)) tsdata_list)) as [ts' Hts'].
  { apply Forall_map. exact Htimes. }
  assert (Hlen : length ts' = length tsdata_list).
  { apply mapM_Forall2, Forall2_length in Hts'. now rewrite length_map in Hts'. }
  eexists. split; [|split].
  - unfold data_tables, extract_data.
    destruct (eqb_spec measurement (Some "WQ Sample")) as [|_]; [contradiction|].
    assert (Hp : parameters && eqb datatype (Some "WQData") = false)
      by (destruct Hshape as [-> | ->]; apply andb_false_r).
    destruct Hshape as [-> | ->]; simpl; rewrite Hloop; cbn [bind];
      rewrite column_to_numeric_pairs;
      rewrite (finish_data_time_values W _ _ _ _ _ ts' _ _ _ Hm Hp Hts');
      reflexivity.
  - cbn [df_rows]. unfold zip_rows.
    rewrite !length_map, length_combine, to_numeric_ignore_length, !length_map. lia.
  - unfold column. cbn [df_columns df_rows col_pos String.eqb Ascii.eqb Bool.eqb option_map].
    rewrite value_column_of_rows; [reflexivity|].
    now rewrite to_numeric_ignore_length, !length_map.
Qed.

End NumericCoercion.

(** C9 as amended.  For the 'SimpleTimeSeries' and 'MeterReading' shapes
    [get_data] returns a table whose [Value] column is coerced as a
    whole: when every extracted string reads as a number the column holds
    the numbers; when one does not, the column holds every extracted
    string unchanged, those that read as numbers included.  The coercion
    raises nothing. *)
Theorem get_data_numeric_coercion {Num : Type} (W : World Num)
    (base_url hts url : string) (site : site_value)
    (measurement from_date to_date agg_method agg_interval alignment : option string)
    (parameters : bool) (tree1 : Element) (datatype : option string)
    (es1 : list Element) (tsdata_list : list (option string * string)) :
  build_url W base_url hts "GetData" site measurement from_date to_date
            false None agg_method agg_interval alignment = Ok url ->
  http_get_xml W url = Ok tree1 ->
  is_data_reply tree1 datatype es1 ->
  measurement <> Some "WQ Sample" ->
  datatype = Some "SimpleTimeSeries" \/ datatype = Some "MeterReading" ->
  gap_loop "I1" es1 0 [] = Ok tsdata_list ->
  Forall (fun tv => readable_time W (fst tv)) tsdata_list ->
  exists df,
    get_data W base_url hts site measurement from_date to_date agg_method agg_interval
             alignment parameters = ([], Ok (One df))
    /\ length (df_rows df) = length tsdata_list
    /\ ((forall s, In s (map snd tsdata_list) -> number_of_string W s <> None) ->
        exists nums,
          Forall2 (fun s x => number_of_string W s = Some x) (map snd tsdata_list) nums
          /\ column "Value" df = Some (map CNum nums))
    /\ ((exists s, In s (map snd tsdata_list) /\ number_of_string W s = None) ->
        column "Value" df = Some (map CStr (map snd tsdata_list))).
Proof.
  intros Hu Hr Hreply Hm Hshape Hloop Htimes.
  destruct (get_data_simple_series W base_url hts url site measurement from_date to_date
              agg_method agg_interval alignment parameters tree1 datatype es1 tsdata_list
              Hu Hr Hreply Hm Hshape Hloop Htimes) as (df & Hdf & Hlen & Hcol).
  exists df. repeat split; try assumption.
  - intros Hall. destruct (all_numbers W _ Hall) as [nums Hnums].
    exists nums. split; [assumption|].
    rewrite Hcol. unfold to_numeric_ignore.
    now rewrite (numbers_of_cells_all W _ _ Hnums).
  - intros Hone. rewrite Hcol. unfold to_numeric_ignore.
    now rewrite (numbers_of_cells_one_fails W _ Hone).
Qed.

Lemma get_data_numeric_coercion_witness :
  exists df,
    get_data (world_of mixed_reply june_2020) "http://example.org" "data.hts"
             (SiteStr "Site A") (Some "Flow") None None None None (Some "00:00") false
    = ([], Ok (One df))
    /\ column "Value" df = Some [CStr "1.5"; CStr "n/a"].
Proof.
  destruct (get_data_numeric_coercion (world_of mixed_reply june_2020)
              "http://example.org" "data.hts" _ (SiteStr "Site A") (Some "Flow")
              None None None None (Some "00:00") false mixed_reply
              (Some "SimpleTimeSeries")
              [reading "2020-01-01" "1.5"; reading "2020-01-02" "n/a"]
              [(Some "2020-01-01", "1.5"); (Some "2020-01-02", "n/a")]
              eq_refl eq_refl) as (df & Hdf & _ & _ & Hstr).
  - split; [reflexivity|]. do 4 eexists. repeat split; reflexivity.
  - discriminate.
  - left. reflexivity.
  - reflexivity.
  - repeat constructor; eexists; reflexivity.
  - exists df. split; [exact Hdf|]. apply Hstr.
    exists "n/a". split; [right; left; reflexivity | reflexivity].
Defined.

(** C9 as stated fails: "1.5" reads as a number, and it stays a string
    in the table because "n/a" in the same column does not. *)
Lemma get_data_numeric_coercion_counterexample :
  number_of_string (world_of mixed_reply june_2020) "1.5" = Some (Qmake 15 10)
  /\ get_data (world_of mixed_reply june_2020) "http://example.org" "data.hts"
              (SiteStr "Site A") (Some "Flow") None None None None (Some "00:00") false
     = ([], Ok (One {| df_index := ["Site"; "Measurement"; "DateTime"];
                       df_columns := ["DateTime"; "Value"; "Site"; "Measurement"];
                       df_rows := [[CTime 1577836800000000000; CStr "1.5";
                                    CStr "Site A"; CStr "Flow"];
                                   [CTime 1577923200000000000; CStr "n/a";
                                    CStr "Site A"; CStr "Flow"]] |})).
Proof. split; vm_compute; reflexivity. Qed.

(** ** Masks *)

Lemma select_map {A : Type} (f : A -> bool) (l : list A) :
  select l (map f l) = filter f l.
Proof.
  induction l as [|x l IH]; simpl; [reflexivity|].
  destruct (f x); now rewrite IH.
Qed.

Lemma filter_split {A : Type} (f : A -> bool) (l : list A) :
  Permutation (filter (fun x => negb (f x)) l ++ filter f l) l.
Proof.
  induction l as [|x l IH]; simpl; [constructor|].
  destruct (f x); simpl.
  - apply Permutation_sym, Permutation_cons_app, Permutation_sym, IH.
  - now constructor.
Qed.

Lemma filter_none {A : Type} (f : A -> bool) (l : list A) :
  filter f l = [] -> filter (fun x => negb (f x)) l = l.
Proof.
  induction l as [|x l IH]; simpl; [reflexivity|].
  destruct (f x); simpl; [discriminate|]. intros H. now rewrite IH.
Qed.

Section BadTimes.
Context {Num : Type}.

Lemma isnull_iff (c : cell Num) : isnull c = true <-> c = CNull.
Proof. destruct c; simpl; split; congruence. Qed.

Lemma time_lt_iff (c : cell Num) (z : Z) :
  time_lt c z = true <-> exists x, c = CTime x /\ (x < z)%Z.
Proof.
  destruct c as [| | | |x]; simpl;
    try (split; [discriminate | intros (y & Hy & _); discriminate]).
  rewrite Z.ltb_lt. split.
  - intros H. now exists x.
  - intros (y & Hy & H). now injection Hy as ->.
Qed.

Lemma time_gt_iff (c : cell Num) (z : Z) :
  time_gt c z = true <-> exists x, c = CTime x /\ (z < x)%Z.
Proof.
  destruct c as [| | | |x]; simpl;
    try (split; [discriminate | intros (y & Hy & _); discriminate]).
  rewrite Z.ltb_lt. split.
  - intros H. now exists x.
  - intros (y & Hy & H). now injection Hy as ->.
Qed.

(** The mask in words: a missing [From] or [To], a [From] before 1900,
    or a [To] after now. *)
Lemma bad_times_iff (now : Z) (from to : cell Num) :
  bad_times now from to = true
  <-> from = CNull \/ to = CNull
      \/ (exists t, from = CTime t /\ (t < ts_1900_01_01)%Z)
      \/ (exists t, to = CTime t /\ (now < t)%Z).
Proof.
  unfold bad_times.
  rewrite !orb_true_iff, !isnull_iff, time_lt_iff, time_gt_iff. tauto.
Qed.

Lemma assign_column_has (name : string) (c : cell Num) (df : DataFrame Num) :
  mem name (df_columns (assign_column name c df)) = true.
Proof.
  unfold assign_column.
  destruct (col_pos name (df_columns df)) as [i|] eqn:Hpos; cbn [df_columns].
  - revert i Hpos. induction (df_columns df) as [|x cols IH]; intros i Hpos;
      simpl in *; [discriminate|].
    destruct (String.eqb name x); [reflexivity|].
    destruct (col_pos name cols) as [k|]; [|discriminate].
    simpl. now apply (IH k).
  - unfold mem. rewrite existsb_app. simpl. rewrite String.eqb_refl.
    now rewrite orb_true_r.
Qed.

End BadTimes.

Lemma bindM_print_then {A : Type} (line : string) (m : M A) :
  (print line ;;; m) = (line :: fst m, snd m).
Proof. destruct m as [out r]. reflexivity. Qed.

Section BadSites.
Context {Num : Type} (W : World Num).

Lemma df_where_empty (df : DataFrame Num) (mask : list bool) :
  df_columns df <> [] ->
  df_empty (df_where df mask) = true <-> select (df_rows df) mask = [].
Proof.
  intros Hc. unfold df_empty, df_where. cbn [df_columns df_rows].
  destruct (df_columns df); [contradiction|].
  destruct (select (df_rows df) mask); split; congruence.
Qed.

Lemma set_index_ok (keys : list string) (df : DataFrame Num) :
  forallb (fun k => mem k (df_columns df)) keys = true ->
  set_index keys df
  = Ok {| df_index := keys; df_columns := df_columns df; df_rows := df_rows df |}.
Proof. intros H. unfold set_index. now rewrite H. Qed.

(** The two tables [measurement_list] returns when the bad sites are
    asked for and the catalog has its [From], [To] and [Measurement]
    columns. *)
Lemma measurement_list_two_tables (base_url hts url : string) (site : site_value)
    (measurement : option string) (tree1 : Element)
    (data_list : list (dict string string)) (i j : nat) :
  let mtype_df := tidy_catalog W site (frame_of_records data_list) in
  build_url W base_url hts "MeasurementList" site measurement
            None None false None None None None = Ok url ->
  http_get_xml W url = Ok tree1 ->
  find "Error" tree1 = None ->
  only_wq_sample (findall "DataSource" tree1) = Ok false ->
  collect_sources (findall "DataSource" tree1) [] = Ok data_list ->
  df_empty (frame_of_records (Num := Num) data_list) = false ->
  col_pos "From" (df_columns mtype_df) = Some i ->
  col_pos "To" (df_columns mtype_df) = Some j ->
  mem "Measurement" (df_columns mtype_df) = true ->
  exists out good bad,
    measurement_list W base_url hts site measurement true = (out, Ok (Two good bad))
    /\ df_rows bad = filter (row_is_bad (today W 0) i j) (df_rows mtype_df)
    /\ df_rows good
       = match df_rows bad with
         | [] => df_rows mtype_df
         | _ :: _ => filter (fun row => negb (row_is_bad (today W 1) i j row))
                            (df_rows mtype_df)
         end.
Proof.
  intros mtype_df Hu Hr He Hwq Hcol Hne Hi Hj Hmeas.
  assert (Hkeys : forallb (fun k => mem k (df_columns mtype_df)) ["Site"; "Measurement"]
                  = true).
  { cbn [forallb]. rewrite Hmeas. unfold mtype_df at 1, tidy_catalog.
    now rewrite assign_column_has. }
  assert (Hcols : df_columns mtype_df <> []).
  { intros Hnil. rewrite Hnil in Hi. discriminate. }
  unfold measurement_list.
  rewrite Hu, bindM_lift_ok, Hr, bindM_lift_ok, He.
  destruct (findall "DataSource" tree1) as [|d ds] eqn:Hds.
  { simpl in Hcol. injection Hcol as <-. discriminate. }
  rewrite Hwq, bindM_lift_ok. cbv beta iota.
  rewrite Hcol, bindM_lift_ok. cbv beta zeta. rewrite Hne. cbn [negb]. cbv iota.
  fold mtype_df. unfold bad_mask. rewrite Hi, Hj, !bindM_lift_ok.
  fold (row_is_bad (Num := Num) (today W 0) i j).
  fold (row_is_bad (Num := Num) (today W 1) i j).
  destruct (df_empty (df_where mtype_df (map (row_is_bad (today W 0) i j) (df_rows mtype_df))))
    eqn:Hbad.
  - apply df_where_empty in Hbad; [|assumption]. rewrite select_map in Hbad.
    rewrite set_index_ok, bindM_lift_ok by assumption.
    do 3 eexists. split; [reflexivity|].
    cbn [df_rows empty_frame]. now rewrite Hbad.
  - rewrite bindM_print_then.
    assert (Hrows : select (df_rows mtype_df)
                      (map (row_is_bad (today W 0) i j) (df_rows mtype_df)) <> []).
    { intros Hnil. apply (df_where_empty mtype_df) in Hnil; [congruence | assumption]. }
    rewrite select_map in Hrows.
    rewrite set_index_ok, bindM_lift_ok by assumption.
    do 3 eexists. split; [reflexivity|].
    cbn [df_rows df_where]. rewrite !select_map, map_map, select_map.
    split; [reflexivity|].
    destruct (filter (row_is_bad (today W 0) i j) (df_rows mtype_df));
      [contradiction | reflexivity].
Qed.

End BadSites.

(** C4 as amended.  When the bad sites are asked for and the catalog is
    not empty and has its [From], [To] and [Measurement] columns,
    [measurement_list] returns a good and a bad table.  With the two
    readings of the clock taken as one instant, a row of the catalog is in
    the bad table exactly when its [From] or [To] is missing, its [From]
    is before 1900-01-01 or its [To] is after that instant, and in the
    good table exactly when none of this holds; together the two tables
    hold every row of the catalog once.  Whether [From] is after [To]
    plays no part. *)
Theorem measurement_list_bad_sites {Num : Type} (W : World Num)
    (base_url hts url : string) (site : site_value)
    (measurement : option string) (tree1 : Element)
    (data_list : list (dict string string)) (i j : nat) :
  let mtype_df := tidy_catalog W site (frame_of_records data_list) in
  build_url W base_url hts "MeasurementList" site measurement
            None None false None None None None = Ok url ->
  http_get_xml W url = Ok tree1 ->
  find "Error" tree1 = None ->
  only_wq_sample (findall "DataSource" tree1) = Ok false ->
  collect_sources (findall "DataSource" tree1) [] = Ok data_list ->
  df_empty (frame_of_records (Num := Num) data_list) = false ->
  col_pos "From" (df_columns mtype_df) = Some i ->
  col_pos "To" (df_columns mtype_df) = Some j ->
  mem "Measurement" (df_columns mtype_df) = true ->
  today W 1 = today W 0 ->
  exists out good bad,
    measurement_list W base_url hts site measurement true = (out, Ok (Two good bad))
    /\ (forall row, In row (df_rows bad)
                    <-> In row (df_rows mtype_df) /\ implausible (today W 0) i j row)
    /\ (forall row, In row (df_rows good)
                    <-> In row (df_rows mtype_df) /\ ~ implausible (today W 0) i j row)
    /\ Permutation (df_rows good ++ df_rows bad) (df_rows mtype_df).
Proof.
  intros mtype_df Hu Hr He Hwq Hcol Hne Hi Hj Hmeas Hclock.
  destruct (measurement_list_two_tables W base_url hts url site measurement tree1
              data_list i j Hu Hr He Hwq Hcol Hne Hi Hj Hmeas)
    as (out & good & bad & Hml & Hbad & Hgood).
  fold mtype_df in Hbad, Hgood.
  assert (Hgood' : df_rows good
                   = filter (fun row => negb (row_is_bad (today W 0) i j row))
                            (df_rows mtype_df)).
  { rewrite Hgood, Hclock. destruct (df_rows bad) eqn:Hb; [|reflexivity].
    symmetry. apply filter_none. now rewrite <- Hbad. }
  assert (Hiff : forall row : list (cell Num),
             row_is_bad (today W 0) i j row = true
             <-> implausible (today W 0) i j row).
  { intros row. apply bad_times_iff. }
  exists out, good, bad. split; [exact Hml|]. split; [|split].
  - intros row. rewrite Hbad, filter_In, Hiff. reflexivity.
  - intros row. rewrite Hgood', filter_In, negb_true_iff, <- Hiff.
    now rewrite not_true_iff_false.
  - rewrite Hbad, Hgood'. apply filter_split.
Qed.

Lemma measurement_list_bad_sites_witness :
  exists out good bad,
    measurement_list (world_of future_catalog june_2020) "http://example.org" "data.hts"
                     (SiteStr "Site A") None true = (out, Ok (Two good bad))
    /\ length (df_rows good ++ df_rows bad) = 3.
Proof.
  destruct (measurement_list_bad_sites (world_of future_catalog june_2020)
              "http://example.org" "data.hts" _ (SiteStr "Site A") None future_catalog
              _ 3 4 eq_refl eq_refl eq_refl eq_refl eq_refl eq_refl eq_refl eq_refl eq_refl
              eq_refl) as (out & good & bad & Hml & _ & _ & Hperm).
  exists out, good, bad. split; [exact Hml|].
  rewrite (Permutation_length Hperm). reflexivity.
Defined.

(** C4 as stated fails: the only entry of this catalog starts in 2020
    and ends in 2010, and it is returned as good, with no bad row. *)
Lemma measurement_list_bad_sites_counterexample :
  measurement_list (world_of reversed_catalog june_2020) "http://example.org" "data.hts"
                   (SiteStr "Site A") None true
  = ([], Ok (Two {| df_index := ["Site"; "Measurement"];
                    df_columns := ["Measurement"; "Units"; "DataType"; "From"; "To";
                                   "Site"];
                    df_rows := [[CStr "Flow"; CStr "l/s"; CStr "SimpleTimeSeries";
                                 CTime 1577836800000000000; CTime 1262304000000000000;
                                 CStr "Site A"]] |}
                 empty_frame)).
Proof. vm_compute. reflexivity. Qed.

(** ** Dicts *)

Section Dicts.
Context {K V : Type} `{EqB K}.

Lemma eqb_refl (k : K) : eqb k k = true.
Proof. destruct (eqb_spec k k); congruence. Qed.

Lemma eqb_neq (k k' : K) : k <> k' -> eqb k k' = false.
Proof. intros Hne. destruct (eqb_spec k k'); congruence. Qed.

Lemma mem_In (k : K) (l : list K) : mem k l = true <-> In k l.
Proof.
  unfold mem. rewrite existsb_exists. split.
  - intros (x & Hin & Hx). destruct (eqb_spec k x); congruence.
  - intros Hin. exists k. split; [assumption | apply eqb_refl].
Qed.

Lemma mem_not_In (k : K) (l : list K) : mem k l = false <-> ~ In k l.
Proof.
  rewrite <- mem_In. destruct (mem k l); split; congruence.
Qed.

Lemma dict_get_set (k k' : K) (v : V) (d : dict K V) :
  dict_get k (dict_set k' v d) = if eqb k k' then Some v else dict_get k d.
Proof.
  induction d as [|[k0 v0] d IH]; simpl.
  - reflexivity.
  - destruct (eqb_spec k' k0) as [->|Hne]; simpl.
    + destruct (eqb k k0); reflexivity.
    + rewrite IH. destruct (eqb_spec k k0) as [->|]; [|reflexivity].
      now rewrite (eqb_neq k0 k') by congruence.
Qed.

Lemma dict_get_None (k : K) (d : dict K V) :
  dict_get k d = None <-> ~ In k (dict_keys d).
Proof.
  induction d as [|[k0 v0] d IH]; simpl.
  - tauto.
  - destruct (eqb_spec k k0) as [->|Hne].
    + split; [discriminate | intros Hn; exfalso; apply Hn; now left].
    + rewrite IH. split; [intros Hn [Heq|Hin]; congruence | tauto].
Qed.

Lemma dict_get_Some_In (k : K) (v : V) (d : dict K V) :
  dict_get k d = Some v -> In (k, v) d.
Proof.
  induction d as [|[k0 v0] d IH]; simpl; [discriminate|].
  destruct (eqb_spec k k0) as [->|Hne].
  - intros Hv. injection Hv as ->. now left.
  - intros Hv. right. now apply IH.
Qed.

Lemma dict_get_In (k : K) (v : V) (d : dict K V) :
  NoDup (dict_keys d) -> dict_get k d = Some v <-> In (k, v) d.
Proof.
  intros Hnd. split; [apply dict_get_Some_In|].
  induction d as [|[k0 v0] d IH]; simpl; [contradiction|].
  inversion Hnd as [|? ? Hnotin Hnd']; subst.
  intros [Heq | Hin].
  - injection Heq as -> ->. now rewrite eqb_refl.
  - destruct (eqb_spec k k0) as [->|Hne]; [|now apply IH].
    exfalso. apply Hnotin. unfold dict_keys.
    change k0 with (fst (k0, v)). now apply in_map.
Qed.

(** A new key goes last. *)
Lemma dict_set_new (k : K) (v : V) (d : dict K V) :
  ~ In k (dict_keys d) -> dict_set k v d = d ++ [(k, v)].
Proof.
  induction d as [|[k0 v0] d IH]; simpl; intros Hn; [reflexivity|].
  destruct (eqb_spec k k0) as [->|Hne]; [exfalso; apply Hn; now left|].
  rewrite IH; [reflexivity | tauto].
Qed.

Lemma dict_set_keys (k : K) (v : V) (d : dict K V) :
  dict_keys (dict_set k v d)
  = if mem k (dict_keys d) then dict_keys d else dict_keys d ++ [k].
Proof.
  induction d as [|[k0 v0] d IH]; simpl; [reflexivity|].
  destruct (eqb_spec k k0) as [->|Hne]; simpl; [reflexivity|].
  rewrite IH. now destruct (mem k (dict_keys d)).
Qed.

Lemma NoDup_snoc {A : Type} (l : list A) (x : A) :
  NoDup l -> ~ In x l -> NoDup (l ++ [x]).
Proof.
  intros Hnd Hx. induction Hnd as [|y l Hy Hnd IH]; simpl.
  - constructor; [tauto | constructor].
  - constructor.
    + rewrite in_app_iff. simpl. intros [Hin | [-> | []]]; [tauto|].
      apply Hx. now left.
    + apply IH. intros Hin. apply Hx. now right.
Qed.

Lemma dict_set_NoDup (k : K) (v : V) (d : dict K V) :
  NoDup (dict_keys d) -> NoDup (dict_keys (dict_set k v d)).
Proof.
  intros Hnd. rewrite dict_set_keys.
  destruct (mem k (dict_keys d)) eqn:Hm; [assumption|].
  apply NoDup_snoc; [assumption | now apply mem_not_In].
Qed.

End Dicts.

(** ** Columns of a table of records *)

Lemma add_keys_spec (keys : list string) :
  forall cols,
    NoDup cols ->
    NoDup (add_keys cols keys)
    /\ forall k, In k (add_keys cols keys) <-> In k cols \/ In k keys.
Proof.
  unfold add_keys. induction keys as [|x keys IH]; intros cols Hnd; simpl.
  - split; [assumption | tauto].
  - destruct (mem x cols) eqn:Hm.
    + destruct (IH cols Hnd) as [Hnd' Hin]. split; [assumption|].
      intros k. rewrite Hin. apply mem_In in Hm.
      split; [tauto | intros [? | [<- | ?]]; tauto].
    + apply mem_not_In in Hm.
      destruct (IH (cols ++ [x]) (NoDup_snoc cols x Hnd Hm)) as [Hnd' Hin].
      split; [assumption|].
      intros k. rewrite Hin, in_app_iff. simpl. tauto.
Qed.

Lemma union_keys_from {V : Type} (records : list (dict string V)) :
  forall cols,
    NoDup cols ->
    NoDup (fold_left (fun cols d => add_keys cols (dict_keys d)) records cols)
    /\ forall k,
         In k (fold_left (fun cols d => add_keys cols (dict_keys d)) records cols)
         <-> In k cols \/ exists d, In d records /\ In k (dict_keys d).
Proof.
  induction records as [|d records IH]; intros cols Hnd; simpl.
  - split; [assumption|]. intros k. split; [tauto | intros [? | (d & [] & _)]; assumption].
  - destruct (add_keys_spec (dict_keys d) cols Hnd) as [Hnd' Hin].
    destruct (IH _ Hnd') as [Hnd'' Hin'']. split; [assumption|].
    intros k. rewrite Hin'', Hin. split.
    + intros [[? | ?] | (d' & ? & ?)]; eauto.
    + intros [? | (d' & [<- | ?] & ?)]; eauto.
Qed.

Lemma union_keys_spec {V : Type} (records : list (dict string V)) :
  NoDup (union_keys records)
  /\ forall k, In k (union_keys records)
               <-> exists d, In d records /\ In k (dict_keys d).
Proof.
  destruct (union_keys_from records [] (NoDup_nil _)) as [Hnd Hin].
  split; [assumption|]. intros k. unfold union_keys. rewrite Hin. simpl. tauto.
Qed.

(** ** The records of a data source, field by field *)











(** ** The water-quality loop *)

Lemma param_dict_ok (params : list Element) :
  Forall param_well_formed params ->
  forall acc,
    NoDup (dict_keys acc) ->
    exists p_dict, param_dict params acc = Ok p_dict /\ NoDup (dict_keys p_dict).
Proof.
  induction 1 as [|i params [Hn Hv] _ IH]; intros acc Hacc; simpl.
  - now exists acc.
  - unfold attrib_.
    destruct (dict_get "Name" (attrib i)) as [n|]; [|contradiction].
    destruct (dict_get "Value" (attrib i)) as [v|]; [|contradiction].
    simpl. apply IH. now apply dict_set_NoDup.
Qed.

Lemma params_of_ok (d : Element) :
  wq_point d ->
  param_dict (findall "Parameter" d) [] = Ok (params_of d)
  /\ NoDup (dict_keys (params_of d)).
Proof.
  intros [_ Hps]. unfold params_of.
  destruct (param_dict_ok _ Hps [] (NoDup_nil _)) as (p_dict & -> & Hnd).
  now split.
Qed.

(** One turn of the loop on a time point it can read. *)
Lemma wq_sample_loop_step (d : Element) (rest : list Element)
    (acc : dict (option string) (dict string string)) :
  wq_point d ->
  wq_sample_loop (d :: rest) acc
  = wq_sample_loop rest
      (if has_parameters d then dict_set (time_of d) (params_of d) acc else acc).
Proof.
  intros Hd. destruct (params_of_ok d Hd) as [Hp _]. destruct Hd as [Ht _].
  cbn [wq_sample_loop]. unfold find_, time_of, has_parameters in *.
  destruct (find "T" d) as [t|]; [cbn [bind] | contradiction].
  destruct (findall "Parameter" d) as [|i ps]; [reflexivity|].
  now rewrite Hp.
Qed.

Lemma last_point_none (t : option string) (es : list Element) :
  last_point t es = None
  <-> Forall (fun d => time_of d = t -> has_parameters d = false) es.
Proof.
  induction es as [|d es IH]; cbn [last_point].
  - split; [constructor | reflexivity].
  - destruct (last_point t es) as [d'|].
    + split; [discriminate|]. intros Hall. inversion Hall as [|? ? _ Hes]; subst.
      now apply IH in Hes.
    + destruct (has_parameters d) eqn:Hp; cbn [andb].
      * destruct (eqb_spec (time_of d) t) as [Heq|Hne].
        -- split; [discriminate|]. intros Hall. inversion Hall as [|? ? Hd _]; subst.
           specialize (Hd eq_refl). congruence.
        -- split; [|reflexivity]. intros _. constructor; [tauto | now apply IH].
      * split; [|reflexivity]. intros _. constructor; [tauto | now apply IH].
Qed.

Lemma last_point_some (t : option string) (es : list Element) (d : Element) :
  last_point t es = Some d
  <-> exists pre post,
        es = pre ++ d :: post
        /\ time_of d = t
        /\ has_parameters d = true
        /\ Forall (fun d' => time_of d' = t -> has_parameters d' = false) post.
Proof.
  split.
  - revert d. induction es as [|x es IH]; intros d; cbn [last_point]; [discriminate|].
    destruct (last_point t es) as [d'|] eqn:Hlast.
    + intros Hd. injection Hd as ->.
      destruct (IH d eq_refl) as (pre & post & -> & Ht & Hp & Hpost).
      exists (x :: pre), post. repeat split; assumption.
    + destruct (has_parameters x) eqn:Hp; cbn [andb]; [|discriminate].
      destruct (eqb_spec (time_of x) t) as [Heq|Hne]; [|discriminate].
      intros Hd. injection Hd as <-.
      exists [], es. repeat split; try assumption. now apply last_point_none.
  - intros (pre & post & -> & Ht & Hp & Hpost).
    apply last_point_none in Hpost.
    induction pre as [|x pre IH]; cbn [last_point app].
    + rewrite Hpost, Hp, Ht. cbn [andb]. now rewrite eqb_refl.
    + now rewrite IH.
Qed.

(** The mapping the loop builds: under each timestamp, the parameter set
    of the last time point that has this timestamp and parameters. *)
Lemma wq_sample_loop_spec (es : list Element) :
  Forall wq_point es ->
  forall acc,
    NoDup (dict_keys acc) ->
    exists tsdata_dict,
      wq_sample_loop es acc = Ok tsdata_dict
      /\ NoDup (dict_keys tsdata_dict)
      /\ forall t, dict_get t tsdata_dict
                   = match last_point t es with
                     | Some d => Some (params_of d)
                     | None => dict_get t acc
                     end.
Proof.
  induction 1 as [|d es Hd _ IH]; intros acc Hacc.
  - exists acc. repeat split; assumption.
  - rewrite (wq_sample_loop_step d es acc Hd).
    destruct (IH (if has_parameters d then dict_set (time_of d) (params_of d) acc else acc))
      as (tsdata_dict & Hloop & Hnd & Hget).
    { destruct (has_parameters d); [now apply dict_set_NoDup | assumption]. }
    exists tsdata_dict. repeat split; try assumption.
    intros t. rewrite Hget. cbn [last_point].
    destruct (last_point t es); [reflexivity|].
    destruct (has_parameters d); cbn [andb]; [|reflexivity].
    rewrite dict_get_set.
    destruct (eqb_spec t (time_of d)) as [->|Hne].
    + now rewrite eqb_refl.
    + now rewrite eqb_neq by congruence.
Qed.

(** ** From the mapping to the table *)

Lemma flat_map_pointwise {A B : Type} (f g : A -> list B) (l : list A) :
  (forall x, In x l -> Permutation (f x) (g x)) ->
  Permutation (flat_map f l) (flat_map g l).
Proof.
  induction l as [|x l IH]; intros Hfg; simpl; [constructor|].
  apply Permutation_app; [apply Hfg; now left|].
  apply IH. intros y Hy. apply Hfg. now right.
Qed.

Lemma flat_map_of_map {A B C : Type} (f : B -> list C) (g : A -> B) (l : list A) :
  flat_map f (map g l) = flat_map (fun x => f (g x)) l.
Proof.
  induction l as [|x l IH]; simpl; [reflexivity | now rewrite IH].
Qed.

Lemma wide_index_column {V : Type} (keep : option string * V -> bool)
    (d : dict (option string) V) :
  forall index,
    NoDup index ->
    let index' := fold_left (fun index tp =>
                               if keep tp && negb (mem (fst tp) index)
                               then index ++ [fst tp] else index) d index in
    NoDup index'
    /\ forall t, In t index' <-> In t index \/ exists tp, In tp d /\ keep tp = true /\ fst tp = t.
Proof.
  induction d as [|tp d IH]; intros index Hnd; cbn [fold_left].
  - split; [assumption|]. intros t. split; [tauto | intros [? | (tp & [] & _)]; assumption].
  - destruct (keep tp) eqn:Hkeep; cbn [andb].
    + destruct (mem (fst tp) index) eqn:Hmem; cbn [negb].
      * destruct (IH index Hnd) as [Hnd' Hin]. split; [assumption|].
        intros t. rewrite Hin. apply mem_In in Hmem. split.
        -- intros [? | (tp' & ? & ? & ?)]; [tauto | right; exists tp'; cbn [In]; tauto].
        -- intros [? | (tp' & [<- | ?] & ? & <-)]; [tauto | tauto | right; exists tp'; cbn [In]; tauto].
      * apply mem_not_In in Hmem.
        destruct (IH (index ++ [fst tp]) (NoDup_snoc _ _ Hnd Hmem)) as [Hnd' Hin].
        split; [assumption|]. intros t. rewrite Hin, in_app_iff. cbn [In]. split.
        -- intros [[? | [<- | []]] | (tp' & ? & ? & ?)];
             [tauto | right; exists tp; cbn [In]; tauto | right; exists tp'; cbn [In]; tauto].
        -- intros [? | (tp' & [<- | ?] & ? & <-)]; [tauto | tauto | right; exists tp'; cbn [In]; tauto].
    + destruct (IH index Hnd) as [Hnd' Hin]. split; [assumption|].
      intros t. rewrite Hin. split.
      * intros [? | (tp' & ? & ? & ?)]; [tauto | right; exists tp'; cbn [In]; tauto].
      * intros [? | (tp' & [<- | ?] & ? & ?)]; [tauto | congruence | right; exists tp'; cbn [In]; tauto].
Qed.

(** The index of the wide table: each key of the mapping that has a
    parameter, once. *)
Lemma wide_index_spec (d : dict (option string) (dict string string))
    (columns : list string) :
  NoDup (wide_index d columns)
  /\ forall t, In t (wide_index d columns)
               <-> exists c tp, In c columns /\ In tp d
                                /\ mem c (dict_keys (snd tp)) = true /\ fst tp = t.
Proof.
  unfold wide_index.
  assert (Hgen : forall index,
            NoDup index ->
            NoDup (fold_left (fun index c =>
                                fold_left (fun index tp =>
                                             if mem c (dict_keys (snd tp))
                                                && negb (mem (fst tp) index)
                                             then index ++ [fst tp] else index) d index)
                             columns index)
            /\ forall t,
                 In t (fold_left (fun index c =>
                                    fold_left (fun index tp =>
                                                 if mem c (dict_keys (snd tp))
                                                    && negb (mem (fst tp) index)
                                                 then index ++ [fst tp] else index) d index)
                                 columns index)
                 <-> In t index
                     \/ exists c tp, In c columns /\ In tp d
                                     /\ mem c (dict_keys (snd tp)) = true /\ fst tp = t).
  { induction columns as [|c columns IH]; intros index Hnd; cbn [fold_left].
    - split; [assumption|]. intros t.
      split; [tauto | intros [? | (c & tp & [] & _)]; assumption].
    - destruct (wide_index_column (fun tp => mem c (dict_keys (snd tp))) d index Hnd)
        as [Hnd1 Hin1].
      destruct (IH _ Hnd1) as [Hnd2 Hin2]. split; [exact Hnd2|].
      intros t. rewrite Hin2, Hin1. split.
      + intros [[? | (tp & ? & ? & ?)] | (c' & tp & ? & ? & ? & ?)];
          [tauto | right; exists c, tp; cbn [In]; tauto
                 | right; exists c', tp; cbn [In]; tauto].
      + intros [? | (c' & tp & [<- | ?] & ? & ? & ?)];
          [tauto | left; right; exists tp; tauto | right; exists c', tp; tauto]. }
  destruct (Hgen [] (NoDup_nil _)) as [Hnd Hin]. split; [assumption|].
  intros t. rewrite Hin. cbn [In]. tauto.
Qed.

Lemma flat_map_filter_nil {A B : Type} (keep : A -> bool) (f : A -> list B) (l : list A) :
  (forall x, In x l -> keep x = false -> f x = []) ->
  flat_map f (filter keep l) = flat_map f l.
Proof.
  induction l as [|x l IH]; intros Hnil; cbn [filter flat_map]; [reflexivity|].
  destruct (keep x) eqn:Hx; cbn [flat_map].
  - rewrite IH; [reflexivity|]. intros y Hy. apply Hnil. now right.
  - rewrite (Hnil x (or_introl eq_refl) Hx), IH; [reflexivity|].
    intros y Hy. apply Hnil. now right.
Qed.

Lemma NoDup_keys_filter {K V : Type} (keep : K * V -> bool) (d : dict K V) :
  NoDup (dict_keys d) -> NoDup (dict_keys (filter keep d)).
Proof.
  unfold dict_keys. induction d as [|kv d IH]; cbn [filter map]; intros Hnd; [constructor|].
  inversion Hnd as [|? ? Hk Hnd']; subst.
  destruct (keep kv); cbn [map]; [|now apply IH].
  constructor; [|now apply IH].
  intros Hin. apply Hk. apply in_map_iff in Hin. destruct Hin as (x & Hx & Hin).
  apply filter_In in Hin. apply in_map_iff. exists x. tauto.
Qed.

(** Stacking gives the rows of every entry of the mapping, each once. *)
Lemma stack_frame_by_point {Num : Type} (d : dict (option string) (dict string string)) :
  NoDup (dict_keys d) ->
  Permutation (df_rows (stack_frame (Num := Num) d)) (rows_by_point d).
Proof.
  intros Hnd. unfold stack_frame, rows_by_point. cbn [df_rows].
  set (columns := union_keys (map snd d)).
  set (stack_row := fun (t : option string) (p_dict : dict string string) =>
                      flat_map (fun c => match dict_get c p_dict with
                                         | Some v => [[time_cell (Num := Num) t; CStr c; CStr v]]
                                         | None => []
                                         end) columns).
  set (keep := fun tp : option string * dict string string =>
                 existsb (fun c => mem c (dict_keys (snd tp))) columns).
  destruct (wide_index_spec d columns) as [Hidx Hin].
  transitivity (flat_map (fun t => match dict_get t d with
                                   | Some p_dict => stack_row t p_dict
                                   | None => []
                                   end) (dict_keys (filter keep d))).
  - apply Permutation_flat_map.
    apply NoDup_Permutation; [assumption | now apply NoDup_keys_filter |].
    intros t. rewrite Hin. unfold dict_keys. rewrite in_map_iff. split.
    + intros (c & tp & Hc & Htp & Hmem & <-). exists tp. split; [reflexivity|].
      apply filter_In. split; [assumption|]. unfold keep. apply existsb_exists. eauto.
    + intros (tp & <- & Htp). apply filter_In in Htp. destruct Htp as [Htp Hkeep].
      unfold keep in Hkeep. apply existsb_exists in Hkeep. destruct Hkeep as (c & Hc & Hmem).
      now exists c, tp.
  - transitivity (flat_map (fun tp => stack_row (fst tp) (snd tp)) (filter keep d)).
    { unfold dict_keys. rewrite flat_map_of_map.
      apply flat_map_pointwise. intros [t p_dict] Htp. cbn [fst snd].
      apply filter_In in Htp. destruct Htp as [Htp _].
      apply (dict_get_In _ _ _ Hnd) in Htp. now rewrite Htp. }
    rewrite flat_map_filter_nil; [apply Permutation_refl|].
    intros [t p_dict] _ Hkeep. cbn [fst snd]. unfold stack_row.
    unfold keep in Hkeep. cbn [snd] in Hkeep.
    assert (Hnone : forall c, In c columns -> dict_get c p_dict = None).
    { intros c Hc. apply dict_get_None. apply mem_not_In.
      destruct (mem c (dict_keys p_dict)) eqn:Hmem; [|reflexivity].
      assert (Htrue : existsb (fun c => mem c (dict_keys p_dict)) columns = true)
        by (apply existsb_exists; eauto).
      congruence. }
    clear Hkeep Hidx Hin keep. induction columns as [|c cols IH]; cbn [flat_map]; [reflexivity|].
    rewrite (Hnone c (or_introl eq_refl)). cbn [app]. apply IH.
    intros c' Hc'. apply Hnone. now right.
Qed.

Section Stacking.
Context {Num : Type} (W : World Num).

(** The stacked rows: one for each parameter of each entry. *)
Lemma stack_frame_rows (d : dict (option string) (dict string string))
    (r : list (cell Num)) :
  NoDup (dict_keys d) ->
  In r (df_rows (stack_frame d))
  <-> exists t p_dict p v,
        In (t, p_dict) d /\ dict_get p p_dict = Some v
        /\ r = [time_cell t; CStr p; CStr v].
Proof.
  intros Hnd.
  assert (Hrows : In r (df_rows (stack_frame d)) <-> In r (rows_by_point d)).
  { pose proof (stack_frame_by_point (Num := Num) d Hnd) as Hperm.
    split; apply Permutation_in; [assumption | now apply Permutation_sym]. }
  rewrite Hrows. clear Hrows Hnd.
  unfold rows_by_point. rewrite in_flat_map. split.
  - intros ([t p_dict] & Hin & Hr). apply in_flat_map in Hr.
    destruct Hr as (c & _ & Hr). cbn [fst snd] in Hr.
    destruct (dict_get c p_dict) as [v|] eqn:Hc; [|contradiction].
    destruct Hr as [<- | []]. now exists t, p_dict, c, v.
  - intros (t & p_dict & p & v & Hin & Hp & ->).
    exists (t, p_dict). split; [assumption|]. apply in_flat_map.
    exists p. cbn [fst snd]. rewrite Hp. split; [|now left].
    apply (proj2 (union_keys_spec (map snd d))).
    exists p_dict. split.
    + change p_dict with (snd (t, p_dict)). now apply in_map.
    + destruct (in_dec string_dec p (dict_keys p_dict)) as [|Hn]; [assumption|].
      apply dict_get_None in Hn. congruence.
Qed.

Lemma stacked_to_datetime (stacked : list (list (cell Num))) :
  Forall (fun r => exists t p v, r = [time_cell t; CStr p; CStr v]
                                 /\ readable_time W t) stacked ->
  exists rows,
    mapM (fun row => c <- to_datetime_raise W (cell_at 0 row) ;; Ok (set_at 0 c row))
         stacked = Ok rows
    /\ Forall2 (fun r r' => exists t p v c,
                  r = [time_cell t; CStr p; CStr v]
                  /\ to_datetime_raise W (time_cell t) = Ok c
                  /\ r' = [c; CStr p; CStr v])
               stacked rows.
Proof.
  induction 1 as [|r stacked (t & p & v & -> & c & Hc) _ (rows & Hrows & Hall)].
  - exists []. split; [reflexivity | constructor].
  - exists ([c; CStr p; CStr v] :: rows). split.
    + cbn [mapM]. change (cell_at 0 [time_cell t; CStr p; CStr v]) with (time_cell (Num := Num) t).
      rewrite Hc. cbn [bind]. rewrite Hrows. reflexivity.
    + constructor; [|assumption]. now exists t, p, v, c.
Qed.

(** The end of [get_data] on the stacked rows of the 'WQ Sample' branch. *)
Lemma finish_data_stacked (site : site_value) (datatype : option string)
    (parameters : bool) (stacked : list (list (cell Num))) :
  parameters && eqb datatype (Some "WQData") = false ->
  Forall (fun r => exists t p v, r = [time_cell t; CStr p; CStr v]
                                 /\ readable_time W t) stacked ->
  exists rows,
    finish_data W site (Some "WQ Sample") datatype parameters
      {| data_df := Some {| df_index := [];
                            df_columns := ["DateTime"; "Parameter"; "Value"];
                            df_rows := stacked |};
         tsextra_dict := None; extra_df := None |}
    = Ok (One {| df_index := ["Site"; "Parameter"; "DateTime"];
                 df_columns := ["DateTime"; "Parameter"; "Value"; "Site"];
                 df_rows := rows |})
    /\ finished_rows W site stacked rows.
Proof.
  intros Hp Hall. destruct (stacked_to_datetime stacked Hall) as (rows & Hrows & Hrel).
  exists (map (fun row => row ++ [cell_of_site site]) rows). split.
  - unfold finish_data. cbn [data_df bind]. unfold column_to_datetime.
    cbn [df_columns df_rows df_index col_pos String.eqb Ascii.eqb Bool.eqb].
    rewrite Hrows. cbn [bind]. rewrite Hp.
    unfold assign_column, set_index. reflexivity.
  - unfold finished_rows. clear Hrows Hall.
    induction Hrel as [|r r' stacked rows (t & p & v & c & -> & Hc & ->) _ IH];
      constructor; [|assumption].
    now exists t, p, v, c.
Qed.

(** [get_data] for the measurement 'WQ Sample' on time points it can
    read: the mapping of the loop, stacked and finished. *)
Lemma get_data_wq_sample (base_url hts url : string) (site : site_value)
    (from_date to_date agg_method agg_interval alignment : option string)
    (parameters : bool) (tree1 : Element) (datatype : option string)
    (es1 : list Element) :
  build_url W base_url hts "GetData" site (Some "WQ Sample") from_date to_date
            false None agg_method agg_interval alignment = Ok url ->
  http_get_xml W url = Ok tree1 ->
  is_data_reply tree1 datatype es1 ->
  parameters && eqb datatype (Some "WQData") = false ->
  Forall wq_point es1 ->
  Forall (fun d => has_parameters d = true -> readable_time W (time_of d)) es1 ->
  exists tsdata_dict df,
    wq_sample_loop es1 [] = Ok tsdata_dict
    /\ NoDup (dict_keys tsdata_dict)
    /\ (forall t, dict_get t tsdata_dict = option_map params_of (last_point t es1))
    /\ get_data W base_url hts site (Some "WQ Sample") from_date to_date agg_method
                agg_interval alignment parameters = ([], Ok (One df))
    /\ finished_rows W site (df_rows (stack_frame tsdata_dict)) (df_rows df).
Proof.
  intros Hu Hr Hreply Hp Hpoints Htimes.
  destruct (wq_sample_loop_spec es1 Hpoints [] (NoDup_nil _))
    as (tsdata_dict & Hloop & Hnd & Hget).
  assert (Hget' : forall t, dict_get t tsdata_dict
                            = option_map params_of (last_point t es1)).
  { intros t. rewrite Hget. now destruct (last_point t es1). }
  destruct (finish_data_stacked site datatype parameters
              (df_rows (stack_frame tsdata_dict)) Hp) as (rows & Hfin & Hrel).
  { apply Forall_forall. intros r Hr'. apply (stack_frame_rows _ _ Hnd) in Hr'.
    destruct Hr' as (t & p_dict & p & v & Hin & Hpv & ->).
    exists t, p, v. split; [reflexivity|].
    apply dict_get_In in Hin; [|assumption]. rewrite Hget' in Hin.
    destruct (last_point t es1) as [d|] eqn:Hlast; [|discriminate].
    apply last_point_some in Hlast.
    destruct Hlast as (pre & post & -> & <- & Hhas & _).
    apply Forall_app in Htimes. destruct Htimes as [_ Htimes].
    inversion Htimes as [|? ? Hd _]; subst. now apply Hd. }
  exists tsdata_dict,
         {| df_index := ["Site"; "Parameter"; "DateTime"];
            df_columns := ["DateTime"; "Parameter"; "Value"; "Site"];
            df_rows := rows |}.
  repeat split; try assumption.
  rewrite (get_data_of_reply W _ _ _ _ _ _ _ _ _ _ _ _ _ _ Hu Hr Hreply).
  unfold data_tables, extract_data.
  change (eqb (Some "WQ Sample") (Some "WQ Sample")) with true. cbv iota.
  rewrite Hloop. cbn [bind]. unfold set_columns.
  change (Nat.eqb _ _) with true. cbv iota. cbn [bind].
  change (df_index (stack_frame (Num := Num) tsdata_dict)) with (@nil string).
  rewrite Hfin. reflexivity.
Qed.

End Stacking.

Lemma time_cell_inj {Num : Type} (t t' : option string) :
  time_cell (Num := Num) t = time_cell t' -> t = t'.
Proof. destruct t, t'; simpl; congruence. Qed.

(** C10 as amended.  For the measurement 'WQ Sample' on time points the
    loop can read, the table comes row for row from the stacked rows of
    the mapping, and a row of the timestamp string [t] with the parameter
    [p] and the value [v] is among them exactly when [p] has the value [v]
    in the parameter set of the last time point that has the timestamp
    [t] and at least one parameter.  So of several time points with one
    timestamp and parameters only the last one is seen; a later time
    point without parameters replaces nothing. *)
Theorem get_data_wq_repeated_timestamp {Num : Type} (W : World Num)
    (base_url hts url : string) (site : site_value)
    (from_date to_date agg_method agg_interval alignment : option string)
    (parameters : bool) (tree1 : Element) (datatype : option string)
    (es1 : list Element) :
  build_url W base_url hts "GetData" site (Some "WQ Sample") from_date to_date
            false None agg_method agg_interval alignment = Ok url ->
  http_get_xml W url = Ok tree1 ->
  is_data_reply tree1 datatype es1 ->
  parameters && eqb datatype (Some "WQData") = false ->
  Forall wq_point es1 ->
  Forall (fun d => has_parameters d = true -> readable_time W (time_of d)) es1 ->
  exists stacked df,
    get_data W base_url hts site (Some "WQ Sample") from_date to_date agg_method
             agg_interval alignment parameters = ([], Ok (One df))
    /\ finished_rows W site stacked (df_rows df)
    /\ forall t p v,
         In [time_cell t; CStr p; CStr v] stacked
         <-> exists pre d post p_dict,
               es1 = pre ++ d :: post
               /\ time_of d = t
               /\ has_parameters d = true
               /\ Forall (fun d' => time_of d' = t -> has_parameters d' = false) post
               /\ param_dict (findall "Parameter" d) [] = Ok p_dict
               /\ dict_get p p_dict = Some v.
Proof.
  intros Hu Hr Hreply Hp Hpoints Htimes.
  destruct (get_data_wq_sample W base_url hts url site from_date to_date agg_method
              agg_interval alignment parameters tree1 datatype es1
              Hu Hr Hreply Hp Hpoints Htimes)
    as (tsdata_dict & df & _ & Hnd & Hget & Hdata & Hrel).
  exists (df_rows (stack_frame tsdata_dict)), df.
  split; [exact Hdata|]. split; [exact Hrel|].
  intros t p v. rewrite (stack_frame_rows _ _ Hnd). split.
  - intros (t' & p_dict & p' & v' & Hin & Hpv & Heq).
    injection Heq as Ht <- <-. apply time_cell_inj in Ht. subst t'.
    apply dict_get_In in Hin; [|assumption]. rewrite Hget in Hin.
    destruct (last_point t es1) as [d|] eqn:Hlast; [|discriminate].
    injection Hin as <-. apply last_point_some in Hlast.
    destruct Hlast as (pre & post & -> & Ht & Hhas & Hpost).
    exists pre, d, post, (params_of d). repeat split; try assumption.
    apply params_of_ok. apply Forall_app in Hpoints. destruct Hpoints as [_ Hd].
    now inversion Hd.
  - intros (pre & d & post & p_dict & -> & Ht & Hhas & Hpost & Hdict & Hpv).
    exists t, p_dict, p, v. repeat split; [|assumption].
    apply dict_get_In; [assumption|]. rewrite Hget.
    assert (Hlast : last_point t (pre ++ d :: post) = Some d).
    { apply last_point_some. now exists pre, post. }
    rewrite Hlast. cbn [option_map]. unfold params_of. now rewrite Hdict.
Qed.

Lemma get_data_wq_repeated_timestamp_witness :
  exists stacked df,
    get_data (world_of repeated_reply june_2020) "http://example.org" "data.hts"
             (SiteStr "Site A") (Some "WQ Sample") None None None None (Some "00:00")
             false = ([], Ok (One df))
    /\ finished_rows (world_of repeated_reply june_2020) (SiteStr "Site A") stacked
                     (df_rows df)
    /\ In [time_cell (Some "2020-01-01"); CStr "Turbidity"; CStr "3"] stacked.
Proof.
  destruct (get_data_wq_repeated_timestamp (world_of repeated_reply june_2020)
              "http://example.org" "data.hts" _ (SiteStr "Site A") None None None None
              (Some "00:00") false repeated_reply (Some "WQSample")
              [sample "2020-01-01" [parameter "pH" "7.1"];
               sample "2020-01-01" [parameter "Turbidity" "3"]]
              eq_refl eq_refl) as (stacked & df & Hdata & Hrel & Hrows).
  - split; [reflexivity|]. do 4 eexists. repeat split; reflexivity.
  - reflexivity.
  - repeat constructor; simpl; discriminate.
  - repeat constructor; intros _; eexists; reflexivity.
  - exists stacked, df. split; [exact Hdata|]. split; [exact Hrel|].
    apply Hrows.
    exists [sample "2020-01-01" [parameter "pH" "7.1"]],
           (sample "2020-01-01" [parameter "Turbidity" "3"]), [],
           [("Turbidity", "3")].
    repeat split; try reflexivity. constructor.
Defined.

(** C10 as stated fails: the last time point with the timestamp has no
    parameter, and the row of the earlier one is in the table. *)
Lemma get_data_wq_repeated_timestamp_counterexample :
  get_data (world_of repeated_bare_reply june_2020) "http://example.org" "data.hts"
           (SiteStr "Site A") (Some "WQ Sample") None None None None (Some "00:00") false
  = ([], Ok (One {| df_index := ["Site"; "Parameter"; "DateTime"];
                    df_columns := ["DateTime"; "Parameter"; "Value"; "Site"];
                    df_rows := [[CTime 1577836800000000000; CStr "pH"; CStr "7.1";
                                 CStr "Site A"]] |})).
Proof. vm_compute. reflexivity. Qed.

(** ** The pivot when timestamps and names do not repeat *)

Lemma param_dict_fresh (params : list Element) :
  Forall param_well_formed params ->
  NoDup (map param_name params) ->
  forall acc,
    (forall i, In i params -> ~ In (param_name i) (dict_keys acc)) ->
    param_dict params acc
    = Ok (acc ++ map (fun i => (param_name i, param_value i)) params).
Proof.
  induction 1 as [|i params [Hn Hv] _ IH]; intros Hnd acc Hfresh; simpl.
  - now rewrite app_nil_r.
  - inversion Hnd as [|? ? Hi Hnd']; subst.
    assert (Hname : ~ In (param_name i) (dict_keys acc)) by (apply Hfresh; now left).
    destruct (dict_get "Name" (attrib i)) as [n|] eqn:En; [|contradiction].
    destruct (dict_get "Value" (attrib i)) as [v|] eqn:Ev; [|contradiction].
    assert (Hpn : param_name i = ascii_ignore n)
      by (unfold param_name; now rewrite En).
    assert (Hpv : param_value i = ascii_ignore (str_take 299 v))
      by (unfold param_value; now rewrite Ev).
    unfold attrib_. rewrite En, Ev. cbn [bind]. rewrite <- Hpn, <- Hpv.
    rewrite dict_set_new by assumption.
    rewrite IH; [now rewrite <- app_assoc | assumption |].
    intros i' Hi'. unfold dict_keys. rewrite map_app, in_app_iff.
    intros [Hin | [Heq | []]].
    + apply (Hfresh i'); [now right | assumption].
    + apply Hi. cbn [fst map] in Heq. rewrite Heq. now apply in_map.
Qed.

Lemma params_of_fresh (d : Element) :
  wq_point d ->
  NoDup (map param_name (findall "Parameter" d)) ->
  params_of d = map (fun i => (param_name i, param_value i)) (findall "Parameter" d).
Proof.
  intros [_ Hps] Hnd. unfold params_of.
  now rewrite (param_dict_fresh _ Hps Hnd []) by (intros i _ []).
Qed.

Lemma wq_sample_loop_fresh (es : list Element) :
  Forall wq_point es ->
  NoDup (map time_of (filter has_parameters es)) ->
  forall acc,
    (forall d, In d (filter has_parameters es) -> ~ In (time_of d) (dict_keys acc)) ->
    wq_sample_loop es acc
    = Ok (acc ++ map (fun d => (time_of d, params_of d)) (filter has_parameters es)).
Proof.
  induction 1 as [|d es Hd _ IH]; intros Hnd acc Hfresh.
  - simpl. now rewrite app_nil_r.
  - rewrite (wq_sample_loop_step d es acc Hd). cbn [filter] in *.
    destruct (has_parameters d).
    + cbn [map] in Hnd. inversion Hnd as [|? ? Hnew Hnd']; subst.
      rewrite dict_set_new by (apply Hfresh; now left).
      rewrite IH; [cbn [map]; now rewrite <- app_assoc | assumption |].
      intros d' Hd'. unfold dict_keys. rewrite map_app, in_app_iff.
      intros [Hin | [Heq | []]].
      * apply (Hfresh d'); [now right | assumption].
      * apply Hnew. cbn [fst] in Heq. rewrite Heq. now apply in_map.
    + now apply IH.
Qed.

Section Pivot.
Context {Num : Type}.

(** Stacking one entry of the wide table gives one row per parameter of
    the entry, in the order of the columns. *)
Lemma stack_entry (t : cell Num) (p_dict : dict string string) (columns : list string) :
  NoDup (dict_keys p_dict) ->
  NoDup columns ->
  incl (dict_keys p_dict) columns ->
  Permutation
    (flat_map (fun c => match dict_get c p_dict with
                        | Some v => [[t; CStr c; CStr v]]
                        | None => []
                        end) columns)
    (map (fun kv => [t; CStr (fst kv); CStr (snd kv)]) p_dict).
Proof.
  intros Hkeys Hcols Hincl.
  set (picked := flat_map (fun c => match dict_get c p_dict with
                                    | Some v => [(c, v)]
                                    | None => []
                                    end) columns).
  assert (Hrows : flat_map (fun c => match dict_get c p_dict with
                                     | Some v => [[t; CStr c; CStr v]]
                                     | None => []
                                     end) columns
                  = map (fun kv => [t; CStr (fst kv); CStr (snd kv)]) picked).
  { unfold picked. clear. induction columns as [|c columns IH]; simpl; [reflexivity|].
    rewrite map_app, <- IH. now destruct (dict_get c p_dict). }
  rewrite Hrows. apply Permutation_map.
  assert (Hin : forall kv, In kv picked <-> In kv p_dict).
  { intros [c v]. unfold picked. rewrite in_flat_map. split.
    - intros (c' & _ & Hc). destruct (dict_get c' p_dict) as [v'|] eqn:Hget; [|contradiction].
      destruct Hc as [Heq | []]. injection Heq as <- <-. now apply dict_get_In.
    - intros Hcv. exists c. split.
      + apply Hincl. unfold dict_keys. change c with (fst (c, v)). now apply in_map.
      + apply dict_get_In in Hcv; [|assumption]. rewrite Hcv. now left. }
  apply NoDup_Permutation; [| |exact Hin].
  - apply (NoDup_map_inv fst).
    assert (Hfst : map fst picked
                   = filter (fun c => match dict_get c p_dict with
                                      | Some _ => true
                                      | None => false
                                      end) columns).
    { unfold picked. clear. induction columns as [|c columns IH]; simpl; [reflexivity|].
      rewrite map_app, IH. now destruct (dict_get c p_dict). }
    rewrite Hfst. now apply NoDup_filter.
  - now apply (NoDup_map_inv fst).
Qed.

Lemma point_rows_without_parameters (es : list Element) :
  flat_map (point_rows (Num := Num)) (filter has_parameters es)
  = flat_map point_rows es.
Proof.
  induction es as [|d es IH]; simpl; [reflexivity|].
  destruct (has_parameters d) eqn:Hd; simpl; [now rewrite IH|].
  rewrite IH. unfold has_parameters in Hd. unfold point_rows at 2.
  now destruct (findall "Parameter" d).
Qed.

(** The stacked rows of the mapping of distinct timestamps: one row per
    parameter of each time point. *)
Lemma stack_frame_fresh (es : list Element) :
  Forall wq_point es ->
  NoDup (map time_of (filter has_parameters es)) ->
  Forall (fun d => NoDup (map param_name (findall "Parameter" d))) es ->
  Permutation
    (df_rows (stack_frame (Num := Num)
                (map (fun d => (time_of d, params_of d)) (filter has_parameters es))))
    (flat_map point_rows es).
Proof.
  intros Hpoints Htimes Hnames.
  rewrite <- point_rows_without_parameters.
  etransitivity.
  { apply stack_frame_by_point. unfold dict_keys. rewrite map_map. exact Htimes. }
  unfold rows_by_point.
  set (tsdata_dict := map (fun d => (time_of d, params_of d)) (filter has_parameters es)).
  destruct (union_keys_spec (map snd tsdata_dict)) as [Hcols Hin].
  transitivity
    (flat_map (fun tp : option string * dict string string =>
                 map (fun kv => [time_cell (Num := Num) (fst tp);
                                 CStr (fst kv); CStr (snd kv)]) (snd tp))
              tsdata_dict).
  - apply flat_map_pointwise. intros [t p_dict] Htp. cbn [fst snd].
    apply stack_entry; [| exact Hcols |].
    + unfold tsdata_dict in Htp. apply in_map_iff in Htp.
      destruct Htp as (d & Heq & Hd). injection Heq as _ <-.
      apply params_of_ok. apply filter_In in Hd.
      eapply Forall_forall in Hpoints; [eassumption | tauto].
    + intros k Hk. apply Hin. exists p_dict. split; [|assumption].
      change p_dict with (snd (t, p_dict)). now apply in_map.
  - unfold tsdata_dict. rewrite flat_map_of_map. cbn [fst snd].
    apply flat_map_pointwise. intros d Hd. apply filter_In in Hd.
    rewrite params_of_fresh.
    + unfold point_rows. rewrite map_map. reflexivity.
    + eapply Forall_forall in Hpoints; [eassumption | tauto].
    + eapply Forall_forall in Hnames; [eassumption | tauto].
Qed.

End Pivot.

Lemma wq_sample_loop_app (pre rest : list Element) :
  forall acc,
    wq_sample_loop (pre ++ rest) acc
    = bind (wq_sample_loop pre acc) (fun acc' => wq_sample_loop rest acc').
Proof.
  induction pre as [|d pre IH]; intros acc; cbn [app wq_sample_loop]; [reflexivity|].
  rewrite bind_assoc.
  destruct (find_ "T" d) as [t|e]; cbn [bind]; [|reflexivity].
  destruct (findall "Parameter" d) as [|i ps]; [apply IH|].
  rewrite bind_assoc.
  destruct (param_dict (i :: ps) []) as [p_dict|e]; cbn [bind]; [apply IH | reflexivity].
Qed.

(** A time point with a [T] child and no parameter leaves the mapping
    as it is. *)
Lemma wq_sample_loop_skip (pre post : list Element) (d : Element) :
  find "T" d <> None ->
  findall "Parameter" d = [] ->
  wq_sample_loop (pre ++ d :: post) [] = wq_sample_loop (pre ++ post) [].
Proof.
  intros Ht Hps. rewrite !wq_sample_loop_app.
  destruct (wq_sample_loop pre []) as [acc|e]; cbn [bind]; [|reflexivity].
  cbn [wq_sample_loop]. unfold find_.
  destruct (find "T" d); [|contradiction]. cbn [bind]. now rewrite Hps.
Qed.

Lemma data_tables_wq_sample {Num : Type} (W : World Num) (site : site_value)
    (datatype : option string) (parameters : bool) (es es' : list Element) :
  wq_sample_loop es [] = wq_sample_loop es' [] ->
  data_tables W site (Some "WQ Sample") datatype parameters es
  = data_tables W site (Some "WQ Sample") datatype parameters es'.
Proof.
  intros Hloop. unfold data_tables, extract_data.
  change (eqb (Some "WQ Sample") (Some "WQ Sample")) with true. cbv iota.
  now rewrite Hloop.
Qed.

Lemma point_rows_length {Num : Type} (es : list Element) :
  length (flat_map (point_rows (Num := Num)) es)
  = length (flat_map (findall "Parameter") es).
Proof.
  induction es as [|d es IH]; simpl; [reflexivity|].
  rewrite !length_app, IH. unfold point_rows. now rewrite length_map.
Qed.

(** C6 as amended.  For the measurement 'WQ Sample': a time point with
    no [Parameter] element (and a [T] child) gives no row, [get_data]
    returns what it returns for the payload without it; and when no
    timestamp string is shared by two time points with parameters and no
    time point names a parameter twice, the rows of the table are, one for
    one, the rows [(DateTime, Parameter, Value)] of every parameter of
    every time point: as many rows as there are [Parameter] elements. *)
Theorem get_data_wq_pivot {Num : Type} (W : World Num)
    (base_url hts url : string) (site : site_value)
    (from_date to_date agg_method agg_interval alignment : option string)
    (parameters : bool) (tree1 : Element) (datatype : option string)
    (es1 : list Element) :
  build_url W base_url hts "GetData" site (Some "WQ Sample") from_date to_date
            false None agg_method agg_interval alignment = Ok url ->
  http_get_xml W url = Ok tree1 ->
  is_data_reply tree1 datatype es1 ->
  (forall pre d post,
     es1 = pre ++ d :: post ->
     find "T" d <> None ->
     findall "Parameter" d = [] ->
     get_data W base_url hts site (Some "WQ Sample") from_date to_date agg_method
              agg_interval alignment parameters
     = lift (data_tables W site (Some "WQ Sample") datatype parameters (pre ++ post)))
  /\ (parameters && eqb datatype (Some "WQData") = false ->
      Forall wq_point es1 ->
      Forall (fun d => has_parameters d = true -> readable_time W (time_of d)) es1 ->
      NoDup (map time_of (filter has_parameters es1)) ->
      Forall (fun d => NoDup (map param_name (findall "Parameter" d))) es1 ->
      exists stacked df,
        get_data W base_url hts site (Some "WQ Sample") from_date to_date agg_method
                 agg_interval alignment parameters = ([], Ok (One df))
        /\ finished_rows W site stacked (df_rows df)
        /\ Permutation stacked (flat_map point_rows es1)
        /\ length (df_rows df) = length (flat_map (findall "Parameter") es1)).
Proof.
  intros Hu Hr Hreply. split.
  - intros pre d post -> Ht Hps.
    rewrite (get_data_of_reply W _ _ _ _ _ _ _ _ _ _ _ _ _ _ Hu Hr Hreply).
    f_equal. apply data_tables_wq_sample. now apply wq_sample_loop_skip.
  - intros Hp Hpoints Htimes Hfresh Hnames.
    destruct (get_data_wq_sample W base_url hts url site from_date to_date agg_method
                agg_interval alignment parameters tree1 datatype es1
                Hu Hr Hreply Hp Hpoints Htimes)
      as (tsdata_dict & df & Hloop & _ & _ & Hdata & Hrel).
    rewrite (wq_sample_loop_fresh es1 Hpoints Hfresh []) in Hloop by (intros d _ []).
    injection Hloop as <-. cbn [app] in Hrel.
    pose proof (stack_frame_fresh (Num := Num) es1 Hpoints Hfresh Hnames) as Hperm.
    eexists. exists df. repeat split; [exact Hdata | exact Hrel | exact Hperm |].
    rewrite <- (Forall2_length Hrel), (Permutation_length Hperm).
    apply point_rows_length.
Qed.

Lemma get_data_wq_pivot_witness :
  exists stacked df,
    get_data (world_of pivot_reply june_2020) "http://example.org" "data.hts"
             (SiteStr "Site A") (Some "WQ Sample") None None None None (Some "00:00")
             false = ([], Ok (One df))
    /\ Permutation stacked
         [[time_cell (Num := Q) (Some "2020-01-01"); CStr "pH"; CStr "7.1"];
          [time_cell (Some "2020-01-01"); CStr "Turbidity"; CStr "3"]]
    /\ length (df_rows df) = 2.
Proof.
  destruct (proj2 (get_data_wq_pivot (world_of pivot_reply june_2020)
                     "http://example.org" "data.hts" _ (SiteStr "Site A") None None
                     None None (Some "00:00") false pivot_reply (Some "WQSample")
                     [sample "2020-01-01" [parameter "pH" "7.1"; parameter "Turbidity" "3"];
                      sample "2020-02-01" []]
                     eq_refl eq_refl
                     (conj eq_refl
                        (ex_intro _ _ (ex_intro _ _ (ex_intro _ _ (ex_intro _ _
                           (conj eq_refl (conj eq_refl (conj eq_refl (conj eq_refl
                              (conj eq_refl eq_refl)))))))))))
                  eq_refl)
    as (stacked & df & Hdata & _ & Hperm & Hlen).
  - repeat constructor; simpl; discriminate.
  - repeat constructor; intros _; eexists; reflexivity.
  - repeat constructor; simpl; intuition discriminate.
  - repeat constructor; simpl; intuition discriminate.
  - exists stacked, df. split; [exact Hdata|]. split; [exact Hperm | exact Hlen].
Defined.

(** C6 as stated fails: the first time point has a parameter and gives
    no row, because the second has the same timestamp; and a time point
    with two [Parameter] elements of one name gives one row, the last. *)
Lemma get_data_wq_pivot_counterexample :
  get_data (world_of repeated_reply june_2020) "http://example.org" "data.hts"
           (SiteStr "Site A") (Some "WQ Sample") None None None None (Some "00:00") false
  = ([], Ok (One {| df_index := ["Site"; "Parameter"; "DateTime"];
                    df_columns := ["DateTime"; "Parameter"; "Value"; "Site"];
                    df_rows := [[CTime 1577836800000000000; CStr "Turbidity"; CStr "3";
                                 CStr "Site A"]] |}))
  /\ get_data (world_of repeated_name_reply june_2020) "http://example.org" "data.hts"
              (SiteStr "Site A") (Some "WQ Sample") None None None None (Some "00:00")
              false
     = ([], Ok (One {| df_index := ["Site"; "Parameter"; "DateTime"];
                       df_columns := ["DateTime"; "Parameter"; "Value"; "Site"];
                       df_rows := [[CTime 1577836800000000000; CStr "pH"; CStr "7.3";
                                    CStr "Site A"]] |})).
Proof. split; vm_compute; reflexivity. Qed.

(** * Further properties *)

(** ** build_url: the address and the parameters left out *)

Lemma length_append (a b : string) :
  String.length (a +++ b) = String.length a + String.length b.
Proof.
  induction a as [|c a IH]; simpl; [reflexivity | now rewrite IH].
Qed.

Lemma substring_all (b : string) : substring 0 (String.length b) b = b.
Proof.
  induction b as [|c b IH]; simpl; [reflexivity | now rewrite IH].
Qed.

Lemma substring_append (a b : string) :
  substring (String.length a) (String.length b) (a +++ b) = b.
Proof.
  induction a as [|c a IH]; simpl; [apply substring_all | exact IH].
Qed.

Lemma endswith_append (a b : string) : endswith (a +++ b) b = true.
Proof.
  unfold endswith. rewrite length_append.
  replace (String.length a + String.length b - String.length b)
    with (String.length a) by lia.
  rewrite substring_append, String.eqb_refl, andb_true_r.
  apply Nat.leb_le. lia.
Qed.

(** X1. A base address without its final separator and the same address
    with it give the same outcome: the same URL or the same exception. *)
Theorem build_url_trailing_slash {Num : Type} (W : World Num)
    (base_url hts request : string) (site : site_value)
    (measurement from_date to_date : option string) (location : bool)
    (site_parameters : option (list string))
    (agg_method agg_interval alignment : option string) :
  endswith base_url "/" = false ->
  build_url W (base_url +++ "/") hts request site measurement from_date to_date
            location site_parameters agg_method agg_interval alignment
  = build_url W base_url hts request site measurement from_date to_date
              location site_parameters agg_method agg_interval alignment.
Proof.
  intros Hb. rewrite !build_url_runs. rewrite endswith_append, Hb. reflexivity.
Qed.

Lemma build_url_trailing_slash_witness :
  build_url (world_of no_data_reply june_2020) ("http://example.org" +++ "/") "data.hts"
            "SiteList" SiteNone None None None true None None None None
  = Ok "http://example.org/data.hts?Service=Hilltop&Request=SiteList&Location=Yes".
Proof.
  rewrite (build_url_trailing_slash (world_of no_data_reply june_2020)
             "http://example.org" "data.hts" "SiteList" SiteNone None None None true
             None None None None eq_refl).
  reflexivity.
Defined.

(** X2. What a request does not carry: unless the request is 'GetData'
    the dates, the aggregation and the alignment leave no trace in the
    outcome, and unless it is 'SiteList' the location flag leaves none. *)
Theorem build_url_unused_arguments {Num : Type} (W : World Num)
    (base_url hts request : string) (site : site_value)
    (measurement from_date to_date : option string) (location : bool)
    (site_parameters : option (list string))
    (agg_method agg_interval alignment : option string) :
  (request <> "GetData" ->
   build_url W base_url hts request site measurement from_date to_date
             location site_parameters agg_method agg_interval alignment
   = build_url W base_url hts request site measurement None None
               location site_parameters None None None)
  /\ (request <> "SiteList" ->
      build_url W base_url hts request site measurement from_date to_date
                location site_parameters agg_method agg_interval alignment
      = build_url W base_url hts request site measurement from_date to_date
                  false site_parameters agg_method agg_interval alignment).
Proof.
  split; intros Hreq; rewrite !build_url_runs.
  - apply String.eqb_neq in Hreq. now rewrite Hreq.
  - apply String.eqb_neq in Hreq. unfold common_params.
    now rewrite Hreq, andb_false_r.
Qed.

Lemma build_url_unused_arguments_witness :
  build_url (world_of no_data_reply june_2020) "http://example.org" "data.hts"
            "MeasurementList" (SiteStr "Site A") None (Some "2001-01-01")
            (Some "2002-01-01") true None (Some "Average") (Some "1 day") (Some "00:00")
  = Ok "http://example.org/data.hts?Service=Hilltop&Request=MeasurementList&Site=Site%20A".
Proof.
  rewrite (proj1 (build_url_unused_arguments (world_of no_data_reply june_2020)
                    "http://example.org" "data.hts" "MeasurementList" (SiteStr "Site A")
                    None (Some "2001-01-01") (Some "2002-01-01") true None
                    (Some "Average") (Some "1 day") (Some "00:00")))
    by discriminate.
  reflexivity.
Defined.

(** ** site_list *)

(** X3. [site_list] returns the names of the [Site] children of the
    reply, one per child and in document order, and returns them only
    then; it does not look for an [Error] element, so a reply that holds
    one is read like any other. *)
Theorem site_list_names {Num : Type} (W : World Num) (base_url hts url : string)
    (tree1 : Element) (names : list string) :
  build_url W base_url hts "SiteList" SiteNone None None None false
            None None None None = Ok url ->
  http_get_xml W url = Ok tree1 ->
  site_list W base_url hts = Ok names
  <-> Forall2 (fun s name => dict_get "Name" (attrib s) = Some name)
              (findall "Site" tree1) names.
Proof.
  intros Hu Hr. unfold site_list. rewrite Hu. cbn [bind]. rewrite Hr. cbn [bind].
  rewrite mapM_Forall2. split; intros H; (eapply Forall2_impl; [|exact H]);
    intros s name; unfold attrib_; destruct (dict_get "Name" (attrib s));
    congruence.
Qed.

Lemma site_list_names_witness :
  site_list (world_of sites_error_reply june_2020) "http://example.org" "data.hts"
  = Ok ["Site A"].
Proof.
  apply (site_list_names (world_of sites_error_reply june_2020) "http://example.org"
           "data.hts" _ sites_error_reply ["Site A"] eq_refl eq_refl).
  repeat constructor.
Defined.

(** X4. A [Site] child without a [Name] attribute makes [site_list]
    raise [KeyError]: no partial list is returned. *)
Theorem site_list_missing_name {Num : Type} (W : World Num) (base_url hts url : string)
    (tree1 s : Element) :
  build_url W base_url hts "SiteList" SiteNone None None None false
            None None None None = Ok url ->
  http_get_xml W url = Ok tree1 ->
  In s (findall "Site" tree1) ->
  dict_get "Name" (attrib s) = None ->
  site_list W base_url hts = Raise KeyError.
Proof.
  intros Hu Hr Hin Hname. unfold site_list. rewrite Hu. cbn [bind]. rewrite Hr. cbn [bind].
  apply mapM_raise.
  - intros x e'. unfold attrib_. destruct (dict_get "Name" (attrib x)); congruence.
  - exists s. split; [assumption|]. exists KeyError. unfold attrib_. now rewrite Hname.
Qed.

Lemma site_list_missing_name_witness :
  site_list (world_of nameless_site_reply june_2020) "http://example.org" "data.hts"
  = Raise KeyError.
Proof.
  apply (site_list_missing_name (world_of nameless_site_reply june_2020)
           "http://example.org" "data.hts" _ nameless_site_reply (Elem "Site" [] None [])
           eq_refl eq_refl).
  - right. left. reflexivity.
  - reflexivity.
Defined.

(** ** measurement_list_all *)

Section AllSites.
Context {Num : Type} (W : World Num).
Variable concat : list (tables Num) -> result (DataFrame Num).

Lemma bindM_pair {A B : Type} (out : list string) (a : A) (k : A -> M B) :
  bindM (out, Ok a) k = (out ++ fst (k a), snd (k a)).
Proof. unfold bindM. now destruct (k a). Qed.

(** The loop over sites that all answer: the tables in the order of the
    sites, after those it started with, and everything printed. *)
Lemma all_sites_loop_ok (base_url hts : string) (sites : list string)
    (answers : list (list string * tables Num)) :
  Forall2 (fun s a => measurement_list W base_url hts (SiteStr s) None false
                      = (fst a, Ok (snd a))) sites answers ->
  forall mtype_list,
    all_sites_loop W base_url hts sites mtype_list
    = (List.concat (map fst answers), Ok (mtype_list ++ map snd answers)).
Proof.
  induction 1 as [|s a sites answers Hs _ IH]; intros mtype_list; cbn [all_sites_loop].
  - unfold ret. now rewrite app_nil_r.
  - rewrite Hs, bindM_pair, IH. cbn [fst snd map List.concat].
    now rewrite <- app_assoc.
Qed.

(** The loop stops at the first site whose request raises. *)
Lemma all_sites_loop_raise (base_url hts : string) (pre post : list string) (s : string)
    (answers : list (list string * tables Num)) (out : list string) (e : exn) :
  Forall2 (fun s a => measurement_list W base_url hts (SiteStr s) None false
                      = (fst a, Ok (snd a))) pre answers ->
  measurement_list W base_url hts (SiteStr s) None false = (out, Raise e) ->
  forall mtype_list,
    all_sites_loop W base_url hts (pre ++ s :: post) mtype_list
    = (List.concat (map fst answers) ++ out, Raise e).
Proof.
  intros Hpre Hs. induction Hpre as [|s' a pre answers Hs' _ IH]; intros mtype_list;
    cbn [app all_sites_loop].
  - rewrite Hs. reflexivity.
  - rewrite Hs', bindM_pair, IH. cbn [fst snd map List.concat].
    now rewrite <- app_assoc.
Qed.

End AllSites.

(** X5. When every site of the list answers, [measurement_list_all] is
    [pd.concat] of the tables of the sites in the order of the list, each
    asked for without a measurement and without the bad sites, and it has
    printed what the requests printed, in that order. *)
Theorem measurement_list_all_concat {Num : Type} (W : World Num)
    (concat : list (tables Num) -> result (DataFrame Num))
    (base_url hts : string) (sites : list string)
    (answers : list (list string * tables Num)) :
  site_list W base_url hts = Ok sites ->
  Forall2 (fun s a => measurement_list W base_url hts (SiteStr s) None false
                      = (fst a, Ok (snd a))) sites answers ->
  measurement_list_all W concat base_url hts
  = (List.concat (map fst answers), concat (map snd answers)).
Proof.
  intros Hsites Hall. unfold measurement_list_all.
  rewrite Hsites, bindM_lift_ok, (all_sites_loop_ok W base_url hts sites answers Hall).
  rewrite bindM_pair. cbn [fst snd lift app]. now rewrite app_nil_r.
Qed.

Lemma measurement_list_all_concat_witness :
  exists df,
    measurement_list_all one_site_world concat_at_most_one "http://example.org" "data.hts"
    = ([], Ok df)
    /\ length (df_rows df) = 3.
Proof.
  eexists. split.
  - apply (measurement_list_all_concat one_site_world concat_at_most_one
             "http://example.org" "data.hts" ["Site A"]
             [(fst (measurement_list one_site_world "http://example.org" "data.hts"
                      (SiteStr "Site A") None false),
               match snd (measurement_list one_site_world "http://example.org" "data.hts"
                            (SiteStr "Site A") None false) with
               | Ok t => t
               | Raise _ => One empty_frame
               end)]).
    + reflexivity.
    + repeat constructor.
  - reflexivity.
Defined.

(** X6. One failure aborts the whole: when the request of a site
    raises, after the sites before it have answered, [measurement_list_all]
    raises the same exception, nothing is asked of the sites after it and
    nothing is concatenated. *)
Theorem measurement_list_all_aborts {Num : Type} (W : World Num)
    (concat : list (tables Num) -> result (DataFrame Num))
    (base_url hts : string) (pre post : list string) (s : string)
    (answers : list (list string * tables Num)) (out : list string) (e : exn) :
  site_list W base_url hts = Ok (pre ++ s :: post) ->
  Forall2 (fun s a => measurement_list W base_url hts (SiteStr s) None false
                      = (fst a, Ok (snd a))) pre answers ->
  measurement_list W base_url hts (SiteStr s) None false = (out, Raise e) ->
  measurement_list_all W concat base_url hts
  = (List.concat (map fst answers) ++ out, Raise e).
Proof.
  intros Hsites Hpre Hs. unfold measurement_list_all.
  rewrite Hsites, bindM_lift_ok.
  now rewrite (all_sites_loop_raise W base_url hts pre post s answers out e Hpre Hs).
Qed.

Lemma measurement_list_all_aborts_witness :
  measurement_list_all two_site_world concat_at_most_one "http://example.org" "data.hts"
  = ([], Raise (ValueError "No results returned from URL request")).
Proof.
  apply (measurement_list_all_aborts two_site_world concat_at_most_one
           "http://example.org" "data.hts" ["Site A"] [] "Site B"
           [(fst (measurement_list two_site_world "http://example.org" "data.hts"
                    (SiteStr "Site A") None false),
             match snd (measurement_list two_site_world "http://example.org" "data.hts"
                          (SiteStr "Site A") None false) with
             | Ok t => t
             | Raise _ => One empty_frame
             end)] []
           (ValueError "No results returned from URL request")).
  - reflexivity.
  - repeat constructor.
  - reflexivity.
Defined.

(** ** Instances of the replies without data *)

Lemma measurement_list_no_data_sources_witness :
  measurement_list (world_of no_data_reply june_2020) "http://example.org" "data.hts"
                   (SiteStr "Site A") (Some "Flow") false
  = (["No data, returning empty DataFrame"], Ok (One empty_frame)).
Proof.
  exact (measurement_list_no_data_sources (world_of no_data_reply june_2020)
           "http://example.org" "data.hts" _ (SiteStr "Site A") (Some "Flow") false
           no_data_reply eq_refl eq_refl eq_refl eq_refl).
Defined.

Lemma measurement_list_only_wq_sample_witness :
  measurement_list (world_of wq_only_catalog june_2020) "http://example.org" "data.hts"
                   (SiteStr "Site A") None true
  = (["Site only has WQ Sample"], Ok (Two empty_frame empty_frame)).
Proof.
  exact (measurement_list_only_wq_sample (world_of wq_only_catalog june_2020)
           "http://example.org" "data.hts" _ (SiteStr "Site A") None true
           wq_only_catalog _ eq_refl eq_refl eq_refl eq_refl eq_refl).
Defined.

Lemma get_data_no_measurement_witness :
  get_data (world_of no_data_reply june_2020) "http://example.org" "data.hts"
           (SiteStr "Site A") (Some "Flow") None None None None (Some "00:00") true
  = (["No data, returning empty DataFrame"], Ok (One empty_frame)).
Proof.
  exact (get_data_no_measurement (world_of no_data_reply june_2020)
           "http://example.org" "data.hts" _ (SiteStr "Site A") (Some "Flow") None None
           None None (Some "00:00") true no_data_reply eq_refl eq_refl eq_refl eq_refl).
Defined.

(** ** The shape of what measurement_list returns *)

Lemma lift_bind_ok {A B : Type} (r : result A) (k : A -> M B) (out : list string) (b : B) :
  bindM (lift r) k = (out, Ok b) -> exists a, r = Ok a /\ k a = (out, Ok b).
Proof.
  destruct r as [a|e]; [|discriminate].
  rewrite bindM_lift_ok. intros H. now exists a.
Qed.

(** X10. What [measurement_list] returns is a pair of tables exactly
    when the bad sites were asked for and the reply has a data source: it
    is one table when they were not asked for, and also when the reply has
    no data source at all. *)
Theorem measurement_list_return_shape {Num : Type} (W : World Num)
    (base_url hts url : string) (site : site_value) (measurement : option string)
    (output_bad_sites : bool) (tree1 : Element) (out : list string) (t : tables Num) :
  build_url W base_url hts "MeasurementList" site measurement
            None None false None None None None = Ok url ->
  http_get_xml W url = Ok tree1 ->
  measurement_list W base_url hts site measurement output_bad_sites = (out, Ok t) ->
  match t with
  | One _ => output_bad_sites = false \/ findall "DataSource" tree1 = []
  | Two _ _ => output_bad_sites = true /\ findall "DataSource" tree1 <> []
  end.
Proof.
  intros Hu Hr. unfold measurement_list.
  rewrite Hu, bindM_lift_ok, Hr, bindM_lift_ok.
  destruct (find "Error" tree1); [discriminate|].
  destruct (findall "DataSource" tree1) as [|d ds].
  { rewrite bindM_print. intros H. injection H as _ <-. now right. }
  intros H. apply lift_bind_ok in H. destruct H as (wq_only & _ & H).
  destruct wq_only.
  { rewrite bindM_print_then in H.
    destruct output_bad_sites; injection H as _ <-; [split; [reflexivity | discriminate]
                                                    | now left]. }
  apply lift_bind_ok in H. destruct H as (data_list & _ & H). cbv zeta in H.
  destruct (negb (df_empty (frame_of_records (Num := Num) data_list))).
  - destruct output_bad_sites.
    + apply lift_bind_ok in H. destruct H as (mask & _ & H). cbv zeta in H.
      destruct (df_empty _).
      * apply lift_bind_ok in H. destruct H as (good & _ & H).
        injection H as _ <-. split; [reflexivity | discriminate].
      * rewrite bindM_print_then in H.
        destruct (lift (bad_mask _ _) ) as [o [mask'|e]] eqn:Hmask;
          unfold lift in Hmask; injection Hmask as <- Hmask'.
        -- cbn [bindM] in H.
           destruct (set_index _ _) as [good|e]; cbn in H; [|discriminate].
           injection H as _ <-. split; [reflexivity | discriminate].
        -- discriminate.
    + apply lift_bind_ok in H. destruct H as (good & _ & H).
      injection H as _ <-. now left.
  - destruct output_bad_sites; injection H as _ <-;
      [split; [reflexivity | discriminate] | now left].
Qed.

Lemma measurement_list_return_shape_witness :
  true = true /\ findall "DataSource" future_catalog <> [].
Proof.
  exact (measurement_list_return_shape (world_of future_catalog june_2020)
           "http://example.org" "data.hts" _ (SiteStr "Site A") None true future_catalog
           _ (Two _ _) eq_refl eq_refl eq_refl).
Defined.

(** ** The columns and the rows of a catalog *)

Lemma col_pos_None (name : string) (cols : list string) :
  col_pos name cols = None <-> ~ In name cols.
Proof.
  induction cols as [|c cols IH]; simpl; [tauto|].
  destruct (String.eqb_spec name c) as [->|Hne].
  - split; [discriminate | intros H; exfalso; apply H; now left].
  - destruct (col_pos name cols); simpl.
    + split; [discriminate|]. intros H. exfalso. apply H. right.
      destruct (in_dec string_dec name cols) as [|Hn]; [assumption|].
      now apply IH in Hn.
    + split; [|reflexivity]. intros _ [Heq | Hin]; [congruence|]. now apply IH.
Qed.

Section CatalogTables.
Context {Num : Type} (W : World Num).

Lemma map_column_columns (name : string) (f : cell Num -> cell Num) (df : DataFrame Num) :
  df_columns (map_column name f df) = df_columns df.
Proof. unfold map_column. now destruct (col_pos name (df_columns df)). Qed.

Lemma map_column_length (name : string) (f : cell Num -> cell Num) (df : DataFrame Num) :
  length (df_rows (map_column name f df)) = length (df_rows df).
Proof.
  unfold map_column. destruct (col_pos name (df_columns df)); [|reflexivity].
  cbn [df_rows]. apply length_map.
Qed.

Lemma assign_column_length (name : string) (c : cell Num) (df : DataFrame Num) :
  length (df_rows (assign_column name c df)) = length (df_rows df).
Proof.
  unfold assign_column. destruct (col_pos name (df_columns df)); cbn [df_rows];
    apply length_map.
Qed.

(** Tidying keeps the number of rows. *)
Lemma tidy_catalog_length (site : site_value) (df : DataFrame Num) :
  length (df_rows (tidy_catalog W site df)) = length (df_rows df).
Proof.
  unfold tidy_catalog. rewrite assign_column_length.
  repeat match goal with
         | |- context [if ?b then _ else _] => destruct b
         end; rewrite ?map_column_length; reflexivity.
Qed.

(** Tidying makes no column but 'Measurement' and 'Site'. *)
Lemma tidy_catalog_columns (site : site_value) (df : DataFrame Num) (name : string) :
  name <> "Measurement" ->
  name <> "Site" ->
  In name (df_columns (tidy_catalog W site df)) ->
  In name (df_columns df).
Proof.
  intros Hm Hs. unfold tidy_catalog.
  set (renamed := rename_column "RequestAs" "Measurement" df).
  assert (Hren : In name (df_columns renamed) -> In name (df_columns df)).
  { unfold renamed, rename_column. cbn [df_columns]. rewrite in_map_iff.
    intros (c & Hc & Hin). destruct (String.eqb c "RequestAs"); congruence. }
  intros Hin. apply Hren. clear Hren.
  unfold assign_column in Hin.
  match type of Hin with
  | context [col_pos "Site" (df_columns ?d)] =>
      assert (Hd : df_columns d = df_columns renamed)
        by (repeat match goal with
                   | |- context [if ?b then _ else _] => destruct b
                   end; rewrite ?map_column_columns; reflexivity);
      destruct (col_pos "Site" (df_columns d)); cbn [df_columns] in Hin;
      rewrite Hd in Hin
  end.
  - assumption.
  - apply in_app_iff in Hin. destruct Hin as [Hin | [Heq | []]]; [assumption | congruence].
Qed.

End CatalogTables.

(** ** The records of the data sources *)

Lemma dict_update_keys {V : Type} (other d : dict string V) (k : string) :
  In k (dict_keys (dict_update d other)) -> In k (dict_keys d) \/ In k (dict_keys other).
Proof.
  unfold dict_update. revert d. induction other as [|[k' v'] other IH]; intros d; simpl.
  - tauto.
  - intros Hin. apply IH in Hin. destruct Hin as [Hin | Hin]; [|tauto].
    rewrite dict_set_keys in Hin. cbn [fst] in Hin.
    destruct (mem k' (dict_keys d)); [tauto|].
    apply in_app_iff in Hin. destruct Hin as [Hin | [<- | []]]; tauto.
Qed.

Lemma tag_text_dict_keys (types : list string) (cs : list Element) :
  forall acc d k,
    tag_text_dict types cs acc = Ok d ->
    In k (dict_keys d) ->
    In k (dict_keys acc) \/ (In k types /\ exists c, In c cs /\ tag c = k).
Proof.
  induction cs as [|c cs IH]; intros acc d k; cbn [tag_text_dict].
  - intros H. injection H as <-. tauto.
  - destruct (mem (tag c) types) eqn:Hmem.
    + destruct (text_ascii c) as [s|e]; cbn [bind]; [|discriminate].
      intros Hd Hk. destruct (IH _ _ _ Hd Hk) as [Hin | (Ht & c' & Hc' & Htag)].
      * rewrite dict_set_keys in Hin.
        destruct (mem (tag c) (dict_keys acc)); [tauto|].
        apply in_app_iff in Hin. destruct Hin as [Hin | [<- | []]]; [tauto|].
        right. split; [now apply mem_In|]. exists c. split; [now left | reflexivity].
      * right. split; [assumption|]. exists c'. split; [now right | assumption].
    + intros Hd Hk. destruct (IH _ _ _ Hd Hk) as [Hin | (Ht & c' & Hc' & Htag)]; [tauto|].
      right. split; [assumption|]. exists c'. split; [now right | assumption].
Qed.

(** A field of a record is a field of its measurement or a child of its
    data source. *)
Lemma source_rows_keys (d : Element) (rows : list (dict string string))
    (r : dict string string) (k : string) :
  source_rows d = Ok rows ->
  In r rows ->
  In k (dict_keys r) ->
  In k m_types \/ (In k ds_types /\ find k d <> None).
Proof.
  intros Hrows Hr Hk.
  assert (Hrec : source_records d = Ok rows \/ rows = []).
  { unfold source_rows in Hrows. destruct (find "TSType" d); [|now left].
    destruct (negb _); [right; congruence | now left]. }
  destruct Hrec as [Hrec | ->]; [|contradiction].
  unfold source_records in Hrec.
  destruct (tag_text_dict ds_types (children d) []) as [ds_dict|e] eqn:Hds;
    cbn [bind] in Hrec; [|discriminate].
  apply mapM_Forall2 in Hrec.
  assert (Hex : exists m m_dict,
                  tag_text_dict m_types (children m) [] = Ok m_dict
                  /\ r = dict_update m_dict ds_dict).
  { clear Hk Hrows. revert Hr. induction Hrec as [|m r' ms rs Hm _ IH]; intros Hr;
      [contradiction|].
    destruct Hr as [-> | Hr]; [|now apply IH].
    exists m. destruct (tag_text_dict m_types (children m) []) as [m_dict|e];
      cbn [bind] in Hm; [|discriminate].
    exists m_dict. split; [reflexivity | congruence]. }
  destruct Hex as (m & m_dict & Hm & ->).
  apply dict_update_keys in Hk. destruct Hk as [Hk | Hk].
  - destruct (tag_text_dict_keys _ _ _ _ _ Hm Hk) as [[] | [Ht _]]. now left.
  - destruct (tag_text_dict_keys _ _ _ _ _ Hds Hk) as [[] | (Ht & c & Hc & Htag)].
    right. split; [assumption|]. unfold find. intros Hnone.
    apply (find_none _ _ Hnone c) in Hc. rewrite Htag, String.eqb_refl in Hc. discriminate.
Qed.

Lemma collect_sources_records (data_sources : list Element) :
  forall acc data_list r,
    collect_sources data_sources acc = Ok data_list ->
    In r data_list ->
    In r acc \/ exists d rows, In d data_sources /\ source_rows d = Ok rows /\ In r rows.
Proof.
  induction data_sources as [|d ds IH]; intros acc data_list r; cbn [collect_sources].
  - intros H. injection H as <-. tauto.
  - destruct (source_rows d) as [rows|e] eqn:Hd; cbn [bind]; [|discriminate].
    intros Hc Hr. destruct (IH _ _ _ Hc Hr) as [Hin | (d' & rows' & Hd' & Hrows' & Hin)].
    + apply in_app_iff in Hin. destruct Hin as [Hin | Hin]; [tauto|].
      right. exists d, rows. repeat split; [now left | assumption..].
    + right. exists d', rows'. repeat split; [now right | assumption..].
Qed.

Lemma source_rows_length (d : Element) (rows : list (dict string string)) :
  source_rows d = Ok rows ->
  length rows = if is_retained d then length (findall "Measurement" d) else 0.
Proof.
  unfold source_rows, is_retained.
  assert (Hrec : source_records d = Ok rows ->
                 length rows = length (findall "Measurement" d)).
  { unfold source_records.
    destruct (tag_text_dict ds_types (children d) []); cbn [bind]; [|discriminate].
    intros H. apply mapM_Forall2, Forall2_length in H. congruence. }
  destruct (find "TSType" d) as [ts|]; [|exact Hrec].
  destruct (eqb (text ts) (Some "StdSeries")); cbn [negb]; [exact Hrec|].
  intros H. now injection H as <-.
Qed.

(** The catalog has one record per [Measurement] child of every data
    source that is read. *)
Lemma collect_sources_length (data_sources : list Element) :
  forall acc data_list,
    collect_sources data_sources acc = Ok data_list ->
    length data_list
    = length acc
      + length (flat_map (findall "Measurement") (filter is_retained data_sources)).
Proof.
  induction data_sources as [|d ds IH]; intros acc data_list; cbn [collect_sources].
  - intros H. injection H as <-. simpl. lia.
  - destruct (source_rows d) as [rows|e] eqn:Hd; cbn [bind]; [|discriminate].
    intros Hc. rewrite (IH _ _ Hc), length_app, (source_rows_length d rows Hd).
    cbn [filter]. destruct (is_retained d); cbn [flat_map]; rewrite ?length_app; lia.
Qed.

Section CatalogEdges.
Context {Num : Type} (W : World Num).

(** A column of the tidied catalog other than 'Measurement' and 'Site'
    is a child of some data source or a field of a measurement. *)
Lemma catalog_column_source (site : site_value) (data_sources : list Element)
    (data_list : list (dict string string)) (name : string) :
  collect_sources data_sources [] = Ok data_list ->
  name <> "Measurement" ->
  name <> "Site" ->
  In name (df_columns (tidy_catalog W site (frame_of_records data_list))) ->
  In name m_types
  \/ (In name ds_types /\ exists d, In d data_sources /\ find name d <> None).
Proof.
  intros Hcol Hm Hs Hin.
  apply tidy_catalog_columns in Hin; [|assumption..].
  cbn [frame_of_records df_columns] in Hin.
  apply (proj2 (union_keys_spec data_list)) in Hin.
  destruct Hin as (r & Hr & Hk).
  destruct (collect_sources_records _ _ _ _ Hcol Hr) as [[] | (d & rows & Hd & Hrows & Hin)].
  destruct (source_rows_keys d rows r name Hrows Hin Hk) as [|[Ht Hf]]; [now left|].
  right. split; [assumption|]. now exists d.
Qed.

End CatalogEdges.

(** X11. When the bad sites are asked for and no data source of the
    reply has a [From] child, or none has a [To] child, the catalog has no
    such column and [measurement_list] raises [KeyError] instead of
    returning the rows as bad. *)
Theorem measurement_list_missing_dates {Num : Type} (W : World Num)
    (base_url hts url : string) (site : site_value) (measurement : option string)
    (tree1 : Element) (data_list : list (dict string string)) :
  build_url W base_url hts "MeasurementList" site measurement
            None None false None None None None = Ok url ->
  http_get_xml W url = Ok tree1 ->
  find "Error" tree1 = None ->
  only_wq_sample (findall "DataSource" tree1) = Ok false ->
  collect_sources (findall "DataSource" tree1) [] = Ok data_list ->
  df_empty (frame_of_records (Num := Num) data_list) = false ->
  Forall (fun d => find "From" d = None) (findall "DataSource" tree1)
  \/ Forall (fun d => find "To" d = None) (findall "DataSource" tree1) ->
  measurement_list W base_url hts site measurement true = ([], Raise KeyError).
Proof.
  intros Hu Hr He Hwq Hcol Hne Hmiss.
  assert (Hpos : col_pos "From" (df_columns (tidy_catalog W site (frame_of_records data_list)))
                 = None
                 \/ col_pos "To" (df_columns (tidy_catalog W site (frame_of_records data_list)))
                    = None).
  { destruct Hmiss as [Hall | Hall]; [left | right]; apply col_pos_None; intros Hin;
      (apply (catalog_column_source W site _ _ _ Hcol) in Hin; [|discriminate..]);
      (destruct Hin as [Hin | (_ & d & Hd & Hf)];
       [cbn in Hin; intuition discriminate|]);
      apply Hf; eapply Forall_forall in Hall; eassumption. }
  unfold measurement_list.
  rewrite Hu, bindM_lift_ok, Hr, bindM_lift_ok, He.
  destruct (findall "DataSource" tree1) as [|d ds] eqn:Hds.
  { simpl in Hcol. injection Hcol as <-. discriminate. }
  rewrite Hwq, bindM_lift_ok. cbv beta iota.
  rewrite Hcol, bindM_lift_ok. cbv beta zeta. rewrite Hne. cbn [negb]. cbv iota.
  unfold bad_mask at 1.
  destruct Hpos as [-> | ->]; [reflexivity|].
  now destruct (col_pos "From" _).
Qed.

Lemma measurement_list_missing_dates_witness :
  measurement_list (world_of no_from_catalog june_2020) "http://example.org" "data.hts"
                   (SiteStr "Site A") None true = ([], Raise KeyError).
Proof.
  apply (measurement_list_missing_dates (world_of no_from_catalog june_2020)
           "http://example.org" "data.hts" _ (SiteStr "Site A") None no_from_catalog _
           eq_refl eq_refl eq_refl eq_refl eq_refl eq_refl).
  left. repeat constructor.
Defined.

(** X13. When the bad sites are not asked for, nothing is tested or
    filtered: [measurement_list] returns the whole tidied catalog, indexed
    by site and measurement, with one row per [Measurement] child of every
    data source that has no [TSType] child or a standard one, whatever the
    dates of the rows. *)
Theorem measurement_list_unfiltered {Num : Type} (W : World Num)
    (base_url hts url : string) (site : site_value) (measurement : option string)
    (tree1 : Element) (data_list : list (dict string string)) :
  let mtype_df := tidy_catalog W site (frame_of_records data_list) in
  build_url W base_url hts "MeasurementList" site measurement
            None None false None None None None = Ok url ->
  http_get_xml W url = Ok tree1 ->
  find "Error" tree1 = None ->
  only_wq_sample (findall "DataSource" tree1) = Ok false ->
  collect_sources (findall "DataSource" tree1) [] = Ok data_list ->
  df_empty (frame_of_records (Num := Num) data_list) = false ->
  mem "Measurement" (df_columns mtype_df) = true ->
  measurement_list W base_url hts site measurement false
  = ([], Ok (One {| df_index := ["Site"; "Measurement"];
                    df_columns := df_columns mtype_df;
                    df_rows := df_rows mtype_df |}))
  /\ length (df_rows mtype_df)
     = length (flat_map (findall "Measurement")
                        (filter is_retained (findall "DataSource" tree1))).
Proof.
  intros mtype_df Hu Hr He Hwq Hcol Hne Hmeas. split.
  - assert (Hkeys : forallb (fun k => mem k (df_columns mtype_df)) ["Site"; "Measurement"]
                    = true).
    { cbn [forallb]. rewrite Hmeas. unfold mtype_df at 1, tidy_catalog.
      now rewrite assign_column_has. }
    unfold measurement_list.
    rewrite Hu, bindM_lift_ok, Hr, bindM_lift_ok, He.
    destruct (findall "DataSource" tree1) as [|d ds] eqn:Hds.
    { simpl in Hcol. injection Hcol as <-. discriminate. }
    rewrite Hwq, bindM_lift_ok. cbv beta iota.
    rewrite Hcol, bindM_lift_ok. cbv beta zeta. rewrite Hne. cbn [negb]. cbv iota.
    fold mtype_df. now rewrite set_index_ok, bindM_lift_ok by assumption.
  - unfold mtype_df. rewrite tidy_catalog_length.
    cbn [frame_of_records df_rows]. rewrite length_map.
    now rewrite (collect_sources_length _ _ _ Hcol).
Qed.

Lemma measurement_list_unfiltered_witness :
  exists df,
    measurement_list (world_of future_catalog june_2020) "http://example.org" "data.hts"
                     (SiteStr "Site A") None false = ([], Ok (One df))
    /\ length (df_rows df) = 3.
Proof.
  destruct (measurement_list_unfiltered (world_of future_catalog june_2020)
              "http://example.org" "data.hts" _ (SiteStr "Site A") None future_catalog _
              eq_refl eq_refl eq_refl eq_refl eq_refl eq_refl eq_refl) as [Hml Hlen].
  eexists. split; [exact Hml | exact Hlen].
Defined.

(** ** get_data: the other data types *)

(** X14. For a measurement other than 'WQ Sample' and a data type other
    than 'WQData', 'SimpleTimeSeries' and 'MeterReading' (or a [DataType]
    element without text), no branch binds the table and [get_data] raises
    [NameError], whatever the time points are. *)
Theorem get_data_unknown_data_type {Num : Type} (W : World Num)
    (base_url hts url : string) (site : site_value)
    (measurement from_date to_date agg_method agg_interval alignment : option string)
    (parameters : bool) (tree1 : Element) (datatype : option string)
    (es1 : list Element) :
  build_url W base_url hts "GetData" site measurement from_date to_date
            false None agg_method agg_interval alignment = Ok url ->
  http_get_xml W url = Ok tree1 ->
  is_data_reply tree1 datatype es1 ->
  measurement <> Some "WQ Sample" ->
  datatype <> Some "WQData" ->
  datatype <> Some "SimpleTimeSeries" ->
  datatype <> Some "MeterReading" ->
  get_data W base_url hts site measurement from_date to_date agg_method agg_interval
           alignment parameters = ([], Raise NameError).
Proof.
  intros Hu Hr Hreply Hm Hw Hs Hmr.
  rewrite (get_data_of_reply W _ _ _ _ _ _ _ _ _ _ _ _ _ _ Hu Hr Hreply).
  unfold data_tables, extract_data.
  destruct (eqb_spec measurement (Some "WQ Sample")) as [|_]; [contradiction|].
  destruct (eqb_spec datatype (Some "WQData")) as [|_]; [contradiction|].
  unfold mem. cbn [existsb].
  destruct (eqb_spec datatype (Some "SimpleTimeSeries")) as [|_]; [contradiction|].
  destruct (eqb_spec datatype (Some "MeterReading")) as [|_]; [contradiction|].
  reflexivity.
Qed.

Lemma get_data_unknown_data_type_witness :
  get_data (world_of section_reply june_2020) "http://example.org" "data.hts"
           (SiteStr "Site A") (Some "Cross Section") None None None None (Some "00:00")
           false = ([], Raise NameError).
Proof.
  apply (get_data_unknown_data_type (world_of section_reply june_2020)
           "http://example.org" "data.hts" _ (SiteStr "Site A") (Some "Cross Section")
           None None None None (Some "00:00") false section_reply (Some "HydSection")
           [reading "2020-01-01" "1.5"] eq_refl eq_refl);
    try discriminate.
  split; [reflexivity|]. do 4 eexists. repeat split; reflexivity.
Defined.

(** ** get_data: a series without gaps *)

Lemma gap_loop_reads (field : string) (es : list Element)
    (pairs : list (option string * string)) :
  Forall2 (fun d p => tag d <> "Gap" /\ reads_as field d p) es pairs ->
  gap_loop field es 0 [] = Ok pairs.
Proof.
  intros Hall. apply (gap_loop_keeps field es pairs); [|reflexivity].
  eapply Forall2_impl; [|exact Hall].
  intros d p [Hg (t & v & s & Ht & Hv & Hs & ->)]. split.
  - unfold is_gap. now apply String.eqb_neq.
  - now exists t, v, s.
Qed.

(** X15. A simple or meter-reading series without gap markers loses no
    reading: when every element has its [T] and [I1] children and every
    timestamp can be read, [get_data] returns one table with one row per
    element, and its [Value] column is the column of the [I1] texts after
    [pd.to_numeric(errors='ignore')]. *)
Theorem get_data_keeps_readings {Num : Type} (W : World Num)
    (base_url hts url : string) (site : site_value)
    (measurement from_date to_date agg_method agg_interval alignment : option string)
    (parameters : bool) (tree1 : Element) (datatype : option string)
    (es1 : list Element) (pairs : list (option string * string)) :
  build_url W base_url hts "GetData" site measurement from_date to_date
            false None agg_method agg_interval alignment = Ok url ->
  http_get_xml W url = Ok tree1 ->
  is_data_reply tree1 datatype es1 ->
  measurement <> Some "WQ Sample" ->
  datatype = Some "SimpleTimeSeries" \/ datatype = Some "MeterReading" ->
  Forall2 (fun d p => tag d <> "Gap" /\ reads_as "I1" d p) es1 pairs ->
  Forall (fun p => readable_time W (fst p)) pairs ->
  exists df,
    get_data W base_url hts site measurement from_date to_date agg_method agg_interval
             alignment parameters = ([], Ok (One df))
    /\ length (df_rows df) = length es1
    /\ column "Value" df = Some (to_numeric_ignore W (map CStr (map snd pairs))).
Proof.
  intros Hu Hr Hreply Hm Hshape Hall Htimes.
  destruct (get_data_simple_series W base_url hts url site measurement from_date to_date
              agg_method agg_interval alignment parameters tree1 datatype es1 pairs
              Hu Hr Hreply Hm Hshape (gap_loop_reads "I1" es1 pairs Hall) Htimes)
    as (df & Hdf & Hlen & Hcol).
  exists df. repeat split; try assumption.
  rewrite Hlen. symmetry. eapply Forall2_length. exact Hall.
Qed.

Lemma get_data_keeps_readings_witness :
  exists df,
    get_data (world_of numeric_reply june_2020) "http://example.org" "data.hts"
             (SiteStr "Site A") (Some "Flow") None None None None (Some "00:00") false
    = ([], Ok (One df))
    /\ length (df_rows df) = 2
    /\ column "Value" df = Some [CNum (Qmake 15 10); CNum (Qmake 25 10)].
Proof.
  destruct (get_data_keeps_readings (world_of numeric_reply june_2020)
              "http://example.org" "data.hts" _ (SiteStr "Site A") (Some "Flow")
              None None None None (Some "00:00") false numeric_reply
              (Some "SimpleTimeSeries")
              [reading "2020-01-01" "1.5"; reading "2020-01-02" "2.5"]
              [(Some "2020-01-01", "1.5"); (Some "2020-01-02", "2.5")]
              eq_refl eq_refl) as (df & Hdf & Hlen & Hcol).
  - split; [reflexivity|]. do 4 eexists. repeat split; reflexivity.
  - discriminate.
  - left. reflexivity.
  - repeat constructor; try discriminate; do 3 eexists; repeat split; reflexivity.
  - repeat constructor; eexists; reflexivity.
  - exists df. repeat split; assumption.
Defined.

(** ** get_data: 'WQData' with parameters *)

Lemma param_dict_raises (params : list Element) :
  forall acc e, param_dict params acc = Raise e -> e = KeyError.
Proof.
  induction params as [|i params IH]; intros acc e; cbn [param_dict]; [discriminate|].
  unfold attrib_.
  destruct (dict_get "Name" (attrib i)); cbn [bind]; [|congruence].
  destruct (dict_get "Value" (attrib i)); cbn [bind]; [|congruence].
  apply IH.
Qed.

(** The loop has no test for gap markers: an element without a [T]
    child stops it, if nothing before has. *)
Lemma wqdata_params_loop_without_time (pre post : list Element) (g : Element) :
  find "T" g = None ->
  forall tsdata_list tsextra_dict,
    exists e,
      wqdata_params_loop (pre ++ g :: post) tsdata_list tsextra_dict = Raise e
      /\ (e = AttributeError \/ e = KeyError).
Proof.
  intros Hg. induction pre as [|d pre IH]; intros tsdata_list tsextra_dict;
    cbn [app wqdata_params_loop].
  - unfold find_. rewrite Hg. exists AttributeError. split; [reflexivity | now left].
  - unfold find_, text_ascii.
    destruct (find "T" d) as [t|]; cbn [bind]; [|eexists; split; [reflexivity | now left]].
    destruct (find "Value" d) as [v|]; cbn [bind];
      [|eexists; split; [reflexivity | now left]].
    destruct (text v) as [s|]; cbn [bind]; [|eexists; split; [reflexivity | now left]].
    destruct (findall "Parameter" d) as [|i ps]; [apply IH|].
    destruct (param_dict (i :: ps) []) as [p_dict|e] eqn:Hp; cbn [bind]; [apply IH|].
    exists e. split; [reflexivity|]. right. now apply param_dict_raises in Hp.
Qed.

(** X16. With the parameters asked for, the 'WQData' branch does not
    skip gap markers: a payload with an element that has no [T] child,
    such as a gap marker, makes [get_data] raise ([AttributeError], or the
    [KeyError] of a parameter without name or value met before it), and no
    table is returned. *)
Theorem get_data_wqdata_parameters_gap {Num : Type} (W : World Num)
    (base_url hts url : string) (site : site_value)
    (measurement from_date to_date agg_method agg_interval alignment : option string)
    (tree1 : Element) (pre post : list Element) (g : Element) :
  build_url W base_url hts "GetData" site measurement from_date to_date
            false None agg_method agg_interval alignment = Ok url ->
  http_get_xml W url = Ok tree1 ->
  is_data_reply tree1 (Some "WQData") (pre ++ g :: post) ->
  measurement <> Some "WQ Sample" ->
  find "T" g = None ->
  exists e,
    get_data W base_url hts site measurement from_date to_date agg_method agg_interval
             alignment true = ([], Raise e)
    /\ (e = AttributeError \/ e = KeyError).
Proof.
  intros Hu Hr Hreply Hm Hg.
  rewrite (get_data_of_reply W _ _ _ _ _ _ _ _ _ _ _ _ _ _ Hu Hr Hreply).
  destruct (wqdata_params_loop_without_time pre post g Hg [] []) as (e & Hloop & He).
  exists e. split; [|assumption].
  unfold data_tables, extract_data.
  destruct (eqb_spec measurement (Some "WQ Sample")) as [|_]; [contradiction|].
  change (eqb (Some "WQData") (Some "WQData")) with true. cbv iota.
  now rewrite Hloop.
Qed.

Lemma get_data_wqdata_parameters_gap_witness :
  exists e,
    get_data (world_of wqdata_gap_reply june_2020) "http://example.org" "data.hts"
             (SiteStr "Site A") (Some "pH") None None None None (Some "00:00") true
    = ([], Raise e)
    /\ (e = AttributeError \/ e = KeyError).
Proof.
  apply (get_data_wqdata_parameters_gap (world_of wqdata_gap_reply june_2020)
           "http://example.org" "data.hts" _ (SiteStr "Site A") (Some "pH") None None
           None None (Some "00:00") wqdata_gap_reply [wq_value "2020-01-01" "7.1" []]
           [wq_value "2020-02-01" "7.3" []] gap_marker eq_refl eq_refl).
  - split; [reflexivity|]. do 4 eexists. repeat split; reflexivity.
  - discriminate.
  - reflexivity.
Defined.

Section WQDataParameters.
Context {Num : Type} (W : World Num).

(** The loop on time points it can read: one pair per time point, and
    the mapping the 'WQ Sample' loop builds from the same time points. *)
Lemma wqdata_params_loop_spec (es : list Element) (pairs : list (option string * string)) :
  Forall2 (reads_as "Value") es pairs ->
  Forall wq_point es ->
  forall tsdata_list acc,
    exists tsextra_dict,
      wq_sample_loop es acc = Ok tsextra_dict
      /\ wqdata_params_loop es tsdata_list acc = Ok (tsdata_list ++ pairs, tsextra_dict).
Proof.
  induction 1 as [|d p es pairs (t & v & s & Ht & Hv & Hs & ->) _ IH];
    intros Hpoints tsdata_list acc.
  - exists acc. cbn. now rewrite app_nil_r.
  - inversion Hpoints as [|? ? Hd Hes]; subst.
    rewrite (wq_sample_loop_step d es acc Hd).
    destruct (params_of_ok d Hd) as [Hp _].
    cbn [wqdata_params_loop]. unfold find_, text_ascii.
    rewrite Ht. cbn [bind]. rewrite Hv. cbn [bind]. rewrite Hs. cbn [bind].
    assert (Htime : time_of d = text t) by (unfold time_of; now rewrite Ht).
    unfold has_parameters. destruct (findall "Parameter" d) as [|i ps] eqn:Hps.
    + destruct (IH Hes (tsdata_list ++ [(text t, ascii_ignore s)]) acc)
        as (tsextra_dict & Hwq & Hloop).
      exists tsextra_dict. split; [assumption|]. rewrite Hloop. now rewrite <- app_assoc.
    + rewrite Hp. cbn [bind]. rewrite <- Htime.
      destruct (IH Hes (tsdata_list ++ [(time_of d, ascii_ignore s)])
                  (dict_set (time_of d) (params_of d) acc))
        as (tsextra_dict & Hwq & Hloop).
      exists tsextra_dict. split; [assumption|]. rewrite Hloop. now rewrite <- app_assoc.
Qed.

Lemma reads_as_time (field : string) (es : list Element)
    (pairs : list (option string * string)) (d : Element) :
  Forall2 (reads_as field) es pairs ->
  In d es ->
  exists p, In p pairs /\ fst p = time_of d.
Proof.
  induction 1 as [|d' p es pairs (t & v & s & Ht & _ & _ & ->) _ IH]; [contradiction|].
  intros [-> | Hin].
  - eexists. split; [now left|]. unfold time_of. now rewrite Ht.
  - destruct (IH Hin) as (p' & Hp' & Hfst). exists p'. split; [now right | assumption].
Qed.

Lemma stacked_extra_to_datetime (site : site_value) (measurement : option string)
    (stacked : list (list (cell Num))) :
  Forall (fun r => exists t p v, r = [time_cell t; CStr p; CStr v]
                                 /\ readable_time W t) stacked ->
  exists rows,
    mapM (fun row => c <- to_datetime_raise W (cell_at 0 row) ;; Ok (set_at 0 c row))
         stacked = Ok rows
    /\ finished_extra_rows W site measurement stacked
         (map (fun row => (row ++ [cell_of_name measurement]) ++ [cell_of_site site]) rows).
Proof.
  intros Hall. destruct (stacked_to_datetime W stacked Hall) as (rows & Hrows & Hrel).
  exists rows. split; [assumption|]. unfold finished_extra_rows. clear Hrows Hall.
  induction Hrel as [|r r' stacked rows (t & p & v & c & -> & Hc & ->) _ IH];
    constructor; [|assumption].
  now exists t, p, v, c.
Qed.

End WQDataParameters.

(** X17. With the parameters asked for, the 'WQData' branch returns a
    pair of tables when every element has its [T] and [Value] children,
    every parameter its name and value, and every timestamp can be read.
    The first table has one row per element and holds the values as the
    strings they are.  The rows of the second are stacked rows with the
    date read and the measurement and the site added, and a stacked row
    of the timestamp string [t] with the parameter [p] and the value [v]
    is among them exactly when [p] has the value [v] in the parameter set
    of the last element that has the timestamp [t] and at least one
    parameter; the order of the rows is left open.  When no element has a
    parameter the second table is the empty one with its four index
    columns. *)
Theorem get_data_wqdata_parameters {Num : Type} (W : World Num)
    (base_url hts url : string) (site : site_value)
    (measurement from_date to_date agg_method agg_interval alignment : option string)
    (tree1 : Element) (es1 : list Element) (pairs : list (option string * string)) :
  build_url W base_url hts "GetData" site measurement from_date to_date
            false None agg_method agg_interval alignment = Ok url ->
  http_get_xml W url = Ok tree1 ->
  is_data_reply tree1 (Some "WQData") es1 ->
  measurement <> Some "WQ Sample" ->
  Forall2 (reads_as "Value") es1 pairs ->
  Forall wq_point es1 ->
  Forall (fun p => readable_time W (fst p)) pairs ->
  exists df extra stacked,
    get_data W base_url hts site measurement from_date to_date agg_method agg_interval
             alignment true = ([], Ok (Two df extra))
    /\ length (df_rows df) = length es1
    /\ column "Value" df = Some (map (fun p => CStr (snd p)) pairs)
    /\ df_index extra = ["Site"; "Measurement"; "Parameter"; "DateTime"]
    /\ finished_extra_rows W site measurement stacked (df_rows extra)
    /\ (forall t p v,
          In [time_cell t; CStr p; CStr v] stacked
          <-> exists pre d post p_dict,
                es1 = pre ++ d :: post
                /\ time_of d = t
                /\ has_parameters d = true
                /\ Forall (fun d' => time_of d' = t -> has_parameters d' = false) post
                /\ param_dict (findall "Parameter" d) [] = Ok p_dict
                /\ dict_get p p_dict = Some v)
    /\ (Forall (fun d => has_parameters d = false) es1 -> extra = empty_extra).
Proof.
  intros Hu Hr Hreply Hm Hreads Hpoints Htimes.
  rewrite (get_data_of_reply W _ _ _ _ _ _ _ _ _ _ _ _ _ _ Hu Hr Hreply).
  destruct (wqdata_params_loop_spec es1 pairs Hreads Hpoints [] [])
    as (mapping & Hwq & Hloop).
  destruct (wq_sample_loop_spec es1 Hpoints [] (NoDup_nil _))
    as (mapping' & Hwq' & Hnd & Hget).
  rewrite Hwq in Hwq'. injection Hwq' as <-.
  assert (Hget' : forall t, dict_get t mapping
                            = option_map params_of (last_point t es1)).
  { intros t. rewrite Hget. now destruct (last_point t es1). }
  assert (Hmembers : forall t p v,
            In [time_cell (Num := Num) t; CStr p; CStr v] (df_rows (stack_frame mapping))
            <-> exists pre d post p_dict,
                  es1 = pre ++ d :: post
                  /\ time_of d = t
                  /\ has_parameters d = true
                  /\ Forall (fun d' => time_of d' = t -> has_parameters d' = false) post
                  /\ param_dict (findall "Parameter" d) [] = Ok p_dict
                  /\ dict_get p p_dict = Some v).
  { intros t p v. rewrite (stack_frame_rows _ _ Hnd). split.
    - intros (t' & p_dict & p' & v' & Hin & Hpv & Heq).
      injection Heq as Ht <- <-. apply time_cell_inj in Ht. subst t'.
      apply dict_get_In in Hin; [|assumption]. rewrite Hget' in Hin.
      destruct (last_point t es1) as [d|] eqn:Hlast; [|discriminate].
      injection Hin as <-. apply last_point_some in Hlast.
      destruct Hlast as (pre & post & Hes & Ht & Hhas & Hpost).
      exists pre, d, post, (params_of d). repeat split; try assumption.
      apply params_of_ok. rewrite Hes in Hpoints.
      apply Forall_app in Hpoints. destruct Hpoints as [_ Hd]. now inversion Hd.
    - intros (pre & d & post & p_dict & Hes & Ht & Hhas & Hpost & Hdict & Hpv).
      exists t, p_dict, p, v. repeat split; [|assumption].
      apply dict_get_In; [assumption|]. rewrite Hget'.
      assert (Hlast : last_point t es1 = Some d).
      { apply last_point_some. now exists pre, post. }
      rewrite Hlast. cbn [option_map]. unfold params_of. now rewrite Hdict. }
  destruct (mapM_total (to_datetime_raise W) (map (fun tv => time_cell (fst tv)) pairs))
    as [ts' Hts'].
  { apply Forall_map. exact Htimes. }
  assert (Hlen : length ts' = length pairs).
  { apply mapM_Forall2, Forall2_length in Hts'. now rewrite length_map in Hts'. }
  assert (Hstacked : Forall (fun r => exists t p v, r = [time_cell t; CStr p; CStr v]
                                                    /\ readable_time W t)
                            (df_rows (stack_frame (Num := Num) mapping))).
  { apply Forall_forall. intros r Hr'. apply (stack_frame_rows _ _ Hnd) in Hr'.
    destruct Hr' as (t & p_dict & p & v & Hin & _ & ->).
    exists t, p, v. split; [reflexivity|].
    apply dict_get_In in Hin; [|assumption]. rewrite Hget in Hin.
    destruct (last_point t es1) as [d|] eqn:Hlast; [|discriminate].
    apply last_point_some in Hlast. destruct Hlast as (pre & post & Hes & <- & _ & _).
    destruct (reads_as_time "Value" es1 pairs d Hreads) as (p' & Hp' & Hfst).
    { rewrite Hes. apply in_app_iff. right. now left. }
    rewrite <- Hfst. eapply Forall_forall in Htimes; eassumption. }
  destruct (stacked_extra_to_datetime W site measurement _ Hstacked)
    as (rows & Hrows & Hrel).
  set (data := {| df_index := ["Site"; "Measurement"; "DateTime"];
                  df_columns := ["DateTime"; "Value"; "Site"; "Measurement"];
                  df_rows := map (fun row => (row ++ [cell_of_site site])
                                             ++ [cell_of_name measurement])
                                 (zip_rows ts' (map (fun tv => CStr (snd tv)) pairs)) |}).
  assert (Hdata : length (df_rows data) = length es1
                  /\ column "Value" data = Some (map (fun p => CStr (snd p)) pairs)).
  { split.
    - cbn [df_rows data]. unfold zip_rows.
      rewrite !length_map, length_combine, length_map, Hlen, Nat.min_id.
      symmetry. eapply Forall2_length. exact Hreads.
    - unfold column. cbn [df_columns df_rows data col_pos String.eqb Ascii.eqb Bool.eqb
                          option_map].
      rewrite value_column_of_rows; [reflexivity|]. now rewrite length_map. }
  assert (Hextract :
            extract_data W measurement (Some "WQData") true es1
            = Ok {| data_df := Some (frame_of_pairs pairs);
                    tsextra_dict := Some mapping;
                    extra_df := match mapping with
                                | [] => None
                                | _ :: _ =>
                                    Some {| df_index := [];
                                            df_columns := ["DateTime"; "Parameter"; "Value"];
                                            df_rows := df_rows (stack_frame mapping) |}
                                end |}).
  { unfold extract_data.
    destruct (eqb_spec measurement (Some "WQ Sample")) as [|_]; [contradiction|].
    change (eqb (Some "WQData") (Some "WQData")) with true. cbv iota.
    rewrite Hloop. cbn [bind fst snd app]. now destruct mapping. }
  assert (Hfinish_data :
            forall x, data_df x = Some (frame_of_pairs pairs) ->
                      finish_data W site measurement (Some "WQData") true x
                      = (tsextra <- match tsextra_dict x with
                                    | Some d => Ok d
                                    | None => Raise NameError
                                    end ;;
                         match tsextra with
                         | _ :: _ =>
                             extra_df <- match extra_df x with
                                         | Some df => Ok df
                                         | None => Raise NameError
                                         end ;;
                             extra_df <- column_to_datetime W "DateTime" extra_df ;;
                             let extra_df := assign_column "Measurement"
                                               (cell_of_name measurement) extra_df in
                             let extra_df := assign_column "Site" (cell_of_site site)
                                               extra_df in
                             extra_df <- set_index ["Site"; "Measurement"; "Parameter";
                                                    "DateTime"] extra_df ;;
                             Ok (Two data extra_df)
                         | [] => Ok (Two data empty_extra)
                         end)).
  { intros x Hx. unfold finish_data. rewrite Hx. cbn [bind].
    unfold column_to_datetime at 1.
    change (col_pos "DateTime" (df_columns (frame_of_pairs (Num := Num) pairs)))
      with (Some 0).
    cbv iota beta. rewrite frame_of_pairs_rows.
    rewrite (zip_rows_to_datetime W _ ts' _ Hts'). cbn [bind].
    destruct (eqb_spec measurement (Some "WQ Sample")) as [|_]; [contradiction|].
    change (eqb (Some "WQData") (Some "WQData")) with true. cbn [andb].
    unfold assign_column at 1 2, set_index at 1.
    cbn [df_columns df_rows df_index frame_of_pairs col_pos String.eqb Ascii.eqb Bool.eqb
         option_map app forallb mem existsb eqb EqB_string orb andb bind].
    rewrite map_map. reflexivity. }
  unfold data_tables. rewrite Hextract. cbn [bind].
  rewrite Hfinish_data by reflexivity. cbn [tsextra_dict extra_df bind].
  destruct mapping as [|entry rest] eqn:Hdict.
  - exists data, empty_extra, (df_rows (stack_frame (Num := Num) [])).
    destruct Hdata as [Hl Hc].
    split; [reflexivity|]. split; [assumption|]. split; [assumption|].
    split; [reflexivity|]. split; [constructor|]. split; [exact Hmembers | reflexivity].
  - cbn [bind]. unfold column_to_datetime.
    cbn [df_columns df_rows df_index col_pos String.eqb Ascii.eqb Bool.eqb].
    rewrite Hrows. cbn [bind]. unfold assign_column, set_index. cbn.
    eexists data, _, (df_rows (stack_frame (Num := Num) (entry :: rest))).
    destruct Hdata as [Hl Hc].
    split; [reflexivity|]. split; [assumption|]. split; [assumption|].
    split; [reflexivity|]. split; [|split; [exact Hmembers|]].
    + cbn [df_rows]. rewrite ?map_map. exact Hrel.
    + intros Hnone. exfalso.
      pose proof (Hget (fst entry)) as Hfirst.
      destruct entry as [k v]. cbn [dict_get fst] in Hfirst.
      rewrite eqb_refl in Hfirst.
      assert (Hlast : last_point k es1 = None).
      { apply last_point_none. eapply Forall_impl; [|exact Hnone]. intros d Hd _. exact Hd. }
      rewrite Hlast in Hfirst. discriminate.
Qed.

Lemma get_data_wqdata_parameters_witness :
  exists df extra stacked,
    get_data (world_of wqdata_reply june_2020) "http://example.org" "data.hts"
             (SiteStr "Site A") (Some "pH") None None None None (Some "00:00") true
    = ([], Ok (Two df extra))
    /\ column "Value" df = Some [CStr "7.1"; CStr "7.3"]
    /\ finished_extra_rows (world_of wqdata_reply june_2020) (SiteStr "Site A")
                           (Some "pH") stacked (df_rows extra)
    /\ In [time_cell (Some "2020-01-01"); CStr "Method"; CStr "Probe"] stacked.
Proof.
  destruct (get_data_wqdata_parameters (world_of wqdata_reply june_2020)
              "http://example.org" "data.hts" _ (SiteStr "Site A") (Some "pH")
              None None None None (Some "00:00") wqdata_reply
              [wq_value "2020-01-01" "7.1" [parameter "Method" "Probe"];
               wq_value "2020-02-01" "7.3" []]
              [(Some "2020-01-01", "7.1"); (Some "2020-02-01", "7.3")]
              eq_refl eq_refl)
    as (df & extra & stacked & Hdata & _ & Hcol & _ & Hrel & Hrows & _).
  - split; [reflexivity|]. do 4 eexists. repeat split; reflexivity.
  - discriminate.
  - repeat constructor; do 3 eexists; repeat split; reflexivity.
  - repeat constructor; simpl; discriminate.
  - repeat constructor; eexists; reflexivity.
  - exists df, extra, stacked.
    split; [exact Hdata|]. split; [exact Hcol|]. split; [exact Hrel|].
    apply Hrows.
    exists [], (wq_value "2020-01-01" "7.1" [parameter "Method" "Probe"]),
           [wq_value "2020-02-01" "7.3" []], [("Method", "Probe")].
    repeat split; try reflexivity. repeat constructor.
Defined.

(** ** Sanitised and truncated text *)

Lemma ascii_ignore_all_ascii (s : string) : all_ascii (ascii_ignore s) = true.
Proof.
  induction s as [|c s IH]; simpl; [reflexivity|].
  destruct (is_ascii c) eqn:Hc; simpl; [now rewrite Hc | assumption].
Qed.

Lemma ascii_ignore_length (s : string) :
  String.length (ascii_ignore s) <= String.length s.
Proof.
  induction s as [|c s IH]; simpl; [lia|].
  destruct (is_ascii c); simpl; lia.
Qed.

Lemma ascii_ignore_id (s : string) : all_ascii s = true -> ascii_ignore s = s.
Proof.
  induction s as [|c s IH]; simpl; [reflexivity|].
  intros H. apply andb_true_iff in H. destruct H as [Hc Hs].
  now rewrite Hc, IH.
Qed.

Lemma str_take_length (n : nat) (s : string) : String.length (str_take n s) <= n.
Proof.
  unfold str_take. revert s. induction n as [|n IH]; intros [|c s]; simpl; try lia.
  specialize (IH s). lia.
Qed.

Lemma str_take_id (n : nat) (s : string) : String.length s <= n -> str_take n s = s.
Proof.
  unfold str_take. revert s. induction n as [|n IH]; intros [|c s]; simpl;
    try reflexivity; try lia.
  intros H. rewrite IH; [reflexivity | lia].
Qed.

Lemma dict_set_In {K V : Type} `{EqB K} (k : K) (v : V) (d : dict K V) (x : K * V) :
  In x (dict_set k v d) -> x = (k, v) \/ In x d.
Proof.
  induction d as [|[k0 v0] d IH]; simpl.
  - intros [<- | []]. now left.
  - destruct (eqb_spec k k0) as [->|Hne]; simpl.
    + intros [<- | Hin]; [now left | right; now right].
    + intros [<- | Hin]; [right; now left|].
      destruct (IH Hin) as [-> | Hin']; [now left | right; now right].
Qed.

Lemma param_dict_entries (P : string * string -> Prop) (params : list Element) :
  (forall n v, P (ascii_ignore n, ascii_ignore (str_take 299 v))) ->
  forall acc p_dict,
    Forall P acc ->
    param_dict params acc = Ok p_dict ->
    Forall P p_dict.
Proof.
  intros HP. induction params as [|i params IH]; intros acc p_dict Hacc; cbn [param_dict].
  - intros H. now injection H as <-.
  - destruct (attrib_ "Name" i) as [n|e]; cbn [bind]; [|discriminate].
    destruct (attrib_ "Value" i) as [v|e]; cbn [bind]; [|discriminate].
    apply IH. apply Forall_forall. intros x Hx.
    apply dict_set_In in Hx. destruct Hx as [-> | Hx]; [apply HP|].
    eapply Forall_forall in Hacc; eassumption.
Qed.

Lemma tag_text_dict_entries (P : string * string -> Prop) (types : list string)
    (cs : list Element) :
  (forall k s, In k types -> P (k, ascii_ignore s)) ->
  forall acc d,
    Forall P acc ->
    tag_text_dict types cs acc = Ok d ->
    Forall P d.
Proof.
  intros HP. induction cs as [|c cs IH]; intros acc d Hacc; cbn [tag_text_dict].
  - intros H. now injection H as <-.
  - destruct (mem (tag c) types) eqn:Hmem; [|now apply IH].
    unfold text_ascii. destruct (text c) as [s|]; cbn [bind]; [|discriminate].
    apply IH. apply Forall_forall. intros x Hx.
    apply dict_set_In in Hx. destruct Hx as [-> | Hx]; [apply HP; now apply mem_In|].
    eapply Forall_forall in Hacc; eassumption.
Qed.

(** X18. What the extraction keeps of a text is sanitised: every name
    and value of a parameter set is made of ASCII characters only and no
    value is longer than 299 characters, and every field of a catalog
    record is one of the listed tags with a text of ASCII characters only.
    A parameter whose name and value are ASCII already, with a value of at
    most 299 characters, is kept as it is. *)
Theorem extracted_text_sanitized (params : list Element) (p_dict : dict string string)
    (types : list string) (cs : list Element) (fields : dict string string) :
  (param_dict params [] = Ok p_dict ->
   forall name value,
     In (name, value) p_dict ->
     all_ascii name = true /\ all_ascii value = true /\ String.length value <= 299)
  /\ (tag_text_dict types cs [] = Ok fields ->
      forall k s, In (k, s) fields -> In k types /\ all_ascii s = true)
  /\ (forall i name value,
        dict_get "Name" (attrib i) = Some name ->
        dict_get "Value" (attrib i) = Some value ->
        all_ascii name = true ->
        all_ascii value = true ->
        String.length value <= 299 ->
        param_dict [i] [] = Ok [(name, value)]).
Proof.
  split; [|split].
  - intros Hp name value Hin.
    pose proof (param_dict_entries
                  (fun nv => all_ascii (fst nv) = true /\ all_ascii (snd nv) = true
                             /\ String.length (snd nv) <= 299) params) as H.
    assert (Hall : Forall (fun nv => all_ascii (fst nv) = true /\ all_ascii (snd nv) = true
                             /\ String.length (snd nv) <= 299) p_dict).
    { apply (H (fun n v => conj (ascii_ignore_all_ascii n)
                            (conj (ascii_ignore_all_ascii (str_take 299 v))
                               (Nat.le_trans _ _ _ (ascii_ignore_length (str_take 299 v))
                                  (str_take_length 299 v)))) [] p_dict);
        [constructor | exact Hp]. }
    exact (proj1 (Forall_forall _ _) Hall (name, value) Hin).
  - intros Ht k s Hin.
    pose proof (tag_text_dict_entries
                  (fun ks => In (fst ks) types /\ all_ascii (snd ks) = true) types cs) as H.
    assert (Hall : Forall (fun ks => In (fst ks) types /\ all_ascii (snd ks) = true) fields).
    { apply (H (fun k' s' Hk' => conj Hk' (ascii_ignore_all_ascii s')) [] fields);
        [constructor | exact Ht]. }
    exact (proj1 (Forall_forall _ _) Hall (k, s) Hin).
  - intros i name value Hn Hv Han Hav Hlen. cbn [param_dict]. unfold attrib_.
    rewrite Hn, Hv. cbn [bind dict_set].
    now rewrite (str_take_id 299 value Hlen), (ascii_ignore_id name Han),
      (ascii_ignore_id value Hav).
Qed.

Lemma extracted_text_sanitized_witness :
  all_ascii "Temp" = true /\ all_ascii "21C" = true /\ String.length "21C" <= 299.
Proof.
  apply (proj1 (extracted_text_sanitized [temperature_parameter] [("Temp", "21C")]
                  [] [] []) eq_refl "Temp" "21C").
  left. reflexivity.
Defined.

(** ** wq_sample_parameter_list: the ways out before the table *)

(** X19. The parameter summary has three ways out before it reads a time
    point: a reply with an [Error] element raises the [ValueError],
    whatever else the reply holds; a reply without a measurement prints
    the notice and returns the empty table, which has no index; a
    measurement without a [Data] element raises [AttributeError]. *)
Theorem wq_sample_parameter_list_early_exits {Num : Type} (W : World Num)
    (base_url hts url : string) (site : site_value) (tree1 : Element) :
  build_url W base_url hts "GetData" site (Some "WQ Sample")
            None None false None None None None = Ok url ->
  http_get_xml W url = Ok tree1 ->
  (find "Error" tree1 <> None ->
   wq_sample_parameter_list W base_url hts site
   = ([], Raise (ValueError "No results returned from URL request")))
  /\ (find "Error" tree1 = None ->
      find "Measurement" tree1 = None ->
      wq_sample_parameter_list W base_url hts site
      = (["No data, returning empty DataFrame"], Ok empty_frame))
  /\ (forall meas1,
        find "Error" tree1 = None ->
        find "Measurement" tree1 = Some meas1 ->
        find "Data" meas1 = None ->
        wq_sample_parameter_list W base_url hts site = ([], Raise AttributeError)).
Proof.
  intros Hu Hr. unfold wq_sample_parameter_list.
  rewrite Hu, bindM_lift_ok, Hr, bindM_lift_ok.
  split; [|split].
  - intros He. destruct (find "Error" tree1); [reflexivity | contradiction].
  - intros He Hm. now rewrite He, Hm.
  - intros meas1 He Hm Hd. rewrite He, Hm. unfold find_. now rewrite Hd.
Qed.

Lemma wq_sample_parameter_list_early_exits_witness :
  wq_sample_parameter_list (world_of no_payload_reply june_2020)
                           "http://example.org" "data.hts" (SiteStr "Site A")
  = ([], Raise AttributeError).
Proof.
  apply (proj2 (proj2 (wq_sample_parameter_list_early_exits
                         (world_of no_payload_reply june_2020)
                         "http://example.org" "data.hts" _ (SiteStr "Site A")
                         no_payload_reply eq_refl eq_refl))
           (node "Measurement" [node "DataSource" [leaf "DataType" "WQSample"]]));
    reflexivity.
Defined.

(** ** wq_sample_parameter_list: no parameter at all *)

Lemma wq_param_loop_without_parameters (es1 : list Element) (st : wq_state) :
  Forall (fun d => has_parameters d = false) es1 ->
  wq_param_loop es1 st = Ok st.
Proof.
  induction 1 as [|d es1 Hd _ IH]; cbn [wq_param_loop]; [reflexivity|].
  unfold has_parameters in Hd.
  destruct (findall "Parameter" d); [exact IH | discriminate].
Qed.

(** X20. When the measurement is found but no time point carries a
    parameter (an empty payload included), the parameter summary does not
    return an empty table: the name [p_tup] was never bound and the
    function raises [NameError]. *)
Theorem wq_sample_parameter_list_no_parameters {Num : Type} (W : World Num)
    (base_url hts url : string) (site : site_value) (tree1 meas1 data1 : Element) :
  build_url W base_url hts "GetData" site (Some "WQ Sample")
            None None false None None None None = Ok url ->
  http_get_xml W url = Ok tree1 ->
  find "Error" tree1 = None ->
  find "Measurement" tree1 = Some meas1 ->
  find "Data" meas1 = Some data1 ->
  Forall (fun d => has_parameters d = false) (children data1) ->
  wq_sample_parameter_list W base_url hts site = ([], Raise NameError).
Proof.
  intros Hu Hr He Hm Hd Hnone. unfold wq_sample_parameter_list.
  rewrite Hu, bindM_lift_ok, Hr, bindM_lift_ok, He, Hm.
  unfold find_. rewrite Hd, bindM_lift_ok.
  unfold parameter_table. now rewrite (wq_param_loop_without_parameters _ _ Hnone).
Qed.

Lemma wq_sample_parameter_list_no_parameters_witness :
  wq_sample_parameter_list (world_of no_parameter_reply june_2020)
                           "http://example.org" "data.hts" (SiteStr "Site A")
  = ([], Raise NameError).
Proof.
  apply (wq_sample_parameter_list_no_parameters
           (world_of no_parameter_reply june_2020)
           "http://example.org" "data.hts" _ (SiteStr "Site A") no_parameter_reply
           (node "Measurement"
              [node "DataSource" [leaf "DataType" "WQSample"];
               node "Data" [node "E" [leaf "T" "2020-01-01"];
                            node "E" [leaf "T" "2020-02-01"]]])
           (node "Data" [node "E" [leaf "T" "2020-01-01"];
                         node "E" [leaf "T" "2020-02-01"]])
           eq_refl eq_refl eq_refl eq_refl eq_refl).
  repeat constructor.
Defined.

(** ** wq_sample_parameter_list: the table *)

Lemma dict_set_In_self {K V : Type} `{EqB K} (k : K) (v : V) (d : dict K V) :
  In (k, v) (dict_set k v d).
Proof.
  induction d as [|[k0 v0] d IH]; simpl; [now left|].
  destruct (eqb_spec k k0) as [->|Hne]; simpl; [now left | now right].
Qed.

Lemma fold_dict_set_keys {V : Type} (f : string -> V) (l : list string) :
  forall acc : dict string V,
    dict_keys (fold_left (fun acc p => dict_set p (f p) acc) l acc)
    = add_keys (dict_keys acc) l.
Proof.
  induction l as [|p l IH]; intros acc; [reflexivity|].
  cbn [fold_left]. rewrite IH, dict_set_keys. reflexivity.
Qed.

Lemma fold_dict_set_entries {V : Type} (f : string -> V) (Q : string * V -> Prop)
    (l : list string) :
  (forall p, In p l -> Q (p, f p)) ->
  forall acc : dict string V,
    Forall Q acc ->
    Forall Q (fold_left (fun acc p => dict_set p (f p) acc) l acc).
Proof.
  induction l as [|p l IH]; intros HQ acc Hacc; [assumption|].
  cbn [fold_left]. apply IH; [intros q Hq; apply HQ; now right|].
  apply Forall_forall. intros x Hx. apply dict_set_In in Hx.
  destruct Hx as [-> | Hx]; [apply HQ; now left|].
  eapply Forall_forall in Hacc; eassumption.
Qed.

Lemma mapM_related {A B : Type} (f : A -> result B) (R : A -> B -> Prop) (l : list A) :
  Forall (fun x => exists y, f x = Ok y /\ R x y) l ->
  exists ys, mapM f l = Ok ys /\ Forall2 R l ys.
Proof.
  induction 1 as [|x l (y & Hx & Hy) _ (ys & Hl & Hys)]; cbn [mapM].
  - exists []. split; [reflexivity | constructor].
  - rewrite Hx, Hl. exists (y :: ys). split; [reflexivity | now constructor].
Qed.

Lemma mapM_of_map {A B C : Type} (f : B -> result C) (g : A -> B) (h : A -> C)
    (l : list A) :
  Forall (fun x => f (g x) = Ok (h x)) l ->
  mapM f (map g l) = Ok (map h l).
Proof.
  induction 1 as [|x l Hx _ IH]; cbn [mapM map]; [reflexivity|].
  now rewrite Hx, IH.
Qed.

Lemma min_from_In (rest : list (option string)) :
  forall cur,
    Forall (fun x => x <> None) (cur :: rest) ->
    exists m, min_from cur rest = Ok m /\ In m (cur :: rest).
Proof.
  induction rest as [|x rest IH]; intros cur Hall; cbn [min_from].
  - exists cur. split; [reflexivity | now left].
  - inversion Hall as [|? ? Hcur Hrest]; subst.
    inversion Hrest as [|? ? Hx Hrest']; subst.
    destruct x as [x|]; [|congruence]. destruct cur as [cur|]; [|congruence].
    cbn [py_lt bind].
    destruct (IH (if String.ltb x cur then Some x else Some cur)) as (m & Hm & Hin).
    { constructor; [now destruct (String.ltb x cur) | assumption]. }
    exists m. split; [assumption|].
    destruct Hin as [<- | Hin]; [|right; now right].
    destruct (String.ltb x cur); [right; now left | now left].
Qed.

Lemma max_from_In (rest : list (option string)) :
  forall cur,
    Forall (fun x => x <> None) (cur :: rest) ->
    exists m, max_from cur rest = Ok m /\ In m (cur :: rest).
Proof.
  induction rest as [|x rest IH]; intros cur Hall; cbn [max_from].
  - exists cur. split; [reflexivity | now left].
  - inversion Hall as [|? ? Hcur Hrest]; subst.
    inversion Hrest as [|? ? Hx Hrest']; subst.
    destruct x as [x|]; [|congruence]. destruct cur as [cur|]; [|congruence].
    cbn [py_lt bind].
    destruct (IH (if String.ltb cur x then Some x else Some cur)) as (m & Hm & Hin).
    { constructor; [now destruct (String.ltb cur x) | assumption]. }
    exists m. split; [assumption|].
    destruct Hin as [<- | Hin]; [|right; now right].
    destruct (String.ltb cur x); [right; now left | now left].
Qed.

Lemma times_of_In (tsdata_dict : dict (option string) (list string)) (p : string)
    (t : option string) :
  In t (times_of tsdata_dict p)
  <-> exists names, In (t, names) tsdata_dict /\ In p names.
Proof.
  unfold times_of. rewrite in_map_iff. split.
  - intros ([t' names] & <- & Hin). apply filter_In in Hin. destruct Hin as [Hin Hmem].
    exists names. split; [assumption | now apply mem_In].
  - intros (names & Hin & Hp). exists (t, names). split; [reflexivity|].
    apply filter_In. split; [assumption|]. cbn [snd].
    destruct (mem p names) eqn:Hm; [reflexivity|].
    apply mem_not_In in Hm. contradiction.
Qed.

Section ParameterSummary.
Context {Num : Type} (W : World Num).

Lemma to_datetime_raise_coerce (c c' : cell Num) :
  to_datetime_raise W c = Ok c' -> c' = to_datetime_coerce W c.
Proof.
  destruct c as [|s| | |t]; cbn [to_datetime_raise to_datetime_coerce];
    try discriminate; try (intros H; now injection H as <-).
  destruct (datetime_of_string W s) as [[t|]|]; try discriminate;
    intros H; now injection H as <-.
Qed.

Lemma column_to_datetime_ok (name : string) (df : DataFrame Num) (i : nat) :
  col_pos name (df_columns df) = Some i ->
  Forall (fun row => exists c, to_datetime_raise W (cell_at i row) = Ok c) (df_rows df) ->
  column_to_datetime W name df
  = Ok {| df_index := df_index df;
          df_columns := df_columns df;
          df_rows := map (fun row => set_at i (to_datetime_coerce W (cell_at i row)) row)
                         (df_rows df) |}.
Proof.
  intros Hpos Hrows. unfold column_to_datetime. rewrite Hpos.
  replace (df_rows df) with (map (fun row : list (cell Num) => row) (df_rows df)) at 1
    by apply map_id.
  rewrite (mapM_of_map _ _
             (fun row => set_at i (to_datetime_coerce W (cell_at i row)) row));
    [reflexivity|].
  eapply Forall_impl; [|exact Hrows]. cbv beta. intros row [c Hc].
  rewrite Hc. cbn [bind]. now rewrite (to_datetime_raise_coerce _ _ Hc).
Qed.

Lemma names_of_ok (params1 : list Element) :
  Forall (fun i => dict_get "Name" (attrib i) <> None) params1 ->
  mapM (fun i => name <- attrib_ "Name" i ;; Ok (ascii_ignore name)) params1
  = Ok (map param_name params1).
Proof.
  induction 1 as [|i params1 Hi _ IH]; cbn [mapM map]; [reflexivity|].
  unfold attrib_, param_name.
  destruct (dict_get "Name" (attrib i)) as [n|]; [|contradiction].
  cbn [bind]. unfold attrib_ in IH. now rewrite IH.
Qed.

(** The loop on time points it can read: every entry of the mapping
    comes from a time point with parameters, and [p_tup] holds the names
    of the last of them. *)
Lemma wq_param_loop_spec (P : option string * list string -> Prop) (es : list Element) :
  (forall d, In d es -> has_parameters d = true ->
     Forall (fun i => dict_get "Name" (attrib i) <> None) (findall "Parameter" d)
     /\ exists t, find "T" d = Some t /\ P (text t, names_of d)) ->
  forall st,
    Forall P (st_tsdata_dict st) ->
    (forall pt, st_p_tup st = Some pt -> exists k, In (k, pt) (st_tsdata_dict st)) ->
    exists st',
      wq_param_loop es st = Ok st'
      /\ Forall P (st_tsdata_dict st')
      /\ (forall pt, st_p_tup st' = Some pt -> exists k, In (k, pt) (st_tsdata_dict st'))
      /\ st_p_tup st' = match last_with_parameters es with
                        | Some d => Some (names_of d)
                        | None => st_p_tup st
                        end.
Proof.
  induction es as [|d es IH]; intros Hes st HP Hpt; cbn [wq_param_loop last_with_parameters].
  - exists st. repeat split; assumption.
  - assert (Hes' : forall d', In d' es -> has_parameters d' = true ->
              Forall (fun i => dict_get "Name" (attrib i) <> None) (findall "Parameter" d')
              /\ exists t, find "T" d' = Some t /\ P (text t, names_of d')).
    { intros d' Hin. apply Hes. now right. }
    specialize (Hes d (or_introl eq_refl)).
    unfold has_parameters in *. unfold names_of in Hes.
    destruct (findall "Parameter" d) as [|i params1] eqn:Hf.
    + destruct (IH Hes' st HP Hpt) as (st' & Hloop & HP' & Hpt' & Hlast).
      exists st'. repeat split; try assumption.
      rewrite Hlast. now destruct (last_with_parameters es).
    + destruct (Hes eq_refl) as (Hnames & t & Ht & HPt).
      rewrite (names_of_ok _ Hnames). cbn [bind]. unfold find_. rewrite Ht. cbn [bind].
      destruct (IH Hes' {| st_tsdata_dict := dict_set (text t) (map param_name (i :: params1))
                                               (st_tsdata_dict st);
                           st_p_set := add_keys (st_p_set st) (map param_name (i :: params1));
                           st_p_tup := Some (map param_name (i :: params1)) |})
        as (st' & Hloop & HP' & Hpt' & Hlast).
      * cbn [st_tsdata_dict]. apply Forall_forall. intros x Hx.
        apply dict_set_In in Hx. destruct Hx as [-> | Hx]; [exact HPt|].
        eapply Forall_forall in HP; eassumption.
      * cbn [st_tsdata_dict st_p_tup]. intros pt Hsome. injection Hsome as <-.
        exists (text t). apply dict_set_In_self.
      * exists st'. repeat split; try assumption.
        rewrite Hlast. cbn [st_p_tup].
        destruct (last_with_parameters es); [reflexivity|].
        unfold names_of. now rewrite Hf.
Qed.

End ParameterSummary.

Lemma last_with_parameters_Some (es : list Element) (d : Element) :
  last_with_parameters es = Some d -> In d es /\ has_parameters d = true.
Proof.
  induction es as [|d0 es IH]; cbn [last_with_parameters]; [discriminate|].
  destruct (last_with_parameters es) as [d'|].
  - intros H. injection H as <-. destruct (IH eq_refl). split; [now right | assumption].
  - destruct (has_parameters d0) eqn:Hd0; [|discriminate].
    intros H. injection H as <-. split; [now left | assumption].
Qed.

Lemma Forall2_right {A B : Type} (R : A -> B -> Prop) (Q : B -> Prop)
    (l : list A) (ys : list B) :
  (forall x y, R x y -> Q y) -> Forall2 R l ys -> Forall Q ys.
Proof. intros HRQ. induction 1; constructor; eauto. Qed.

Lemma Forall2_map_eq {A B C : Type} (f : A -> C) (g : B -> C)
    (l : list A) (ys : list B) :
  Forall2 (fun x y => g y = f x) l ys -> map g ys = map f l.
Proof. induction 1 as [|x y l ys Hxy _ IH]; cbn [map]; [reflexivity | now rewrite Hxy, IH]. Qed.

Section ParameterTable.
Context {Num : Type} (W : World Num).

(** From the first and last timestamps to the finished table. *)
Lemma ranges_table (site : site_value)
    (min_max_dict : dict string (option string * option string)) :
  min_max_dict <> [] ->
  Forall (fun ik => readable_time W (fst (snd ik)) /\ readable_time W (snd (snd ik)))
         min_max_dict ->
  (mtype_df <-
     (if negb (df_empty (frame_of_ranges (Num := Num) min_max_dict)) then
        mtype_df <- set_columns ["Parameter"; "From"; "To"] (frame_of_ranges min_max_dict) ;;
        mtype_df <- column_to_datetime W "To" mtype_df ;;
        mtype_df <- column_to_datetime W "From" mtype_df ;;
        let mtype_df := assign_column "DataType" (CStr "WQSample") mtype_df in
        Ok (assign_column "Site" (cell_of_site site) mtype_df)
      else Ok (frame_of_ranges min_max_dict)) ;;
   set_index ["Site"; "Parameter"] mtype_df)
  = Ok {| df_index := ["Site"; "Parameter"];
          df_columns := ["Parameter"; "From"; "To"; "DataType"; "Site"];
          df_rows := map (fun ik => range_row W site (fst ik) (fst (snd ik)) (snd (snd ik)))
                         min_max_dict |}.
Proof.
  intros Hne Hread.
  replace (df_empty (frame_of_ranges (Num := Num) min_max_dict)) with false
    by (destruct min_max_dict; [contradiction | reflexivity]).
  cbn [negb]. unfold set_columns, frame_of_ranges.
  cbn [df_columns df_index df_rows length Nat.eqb bind].
  erewrite (column_to_datetime_ok W "To" _ 2); [|reflexivity|].
  2:{ cbn [df_rows]. apply Forall_map. eapply Forall_impl; [|exact Hread].
      cbv beta. intros ik [_ Hhi]. exact Hhi. }
  cbn [df_columns df_index df_rows bind].
  erewrite (column_to_datetime_ok W "From" _ 1); [|reflexivity|].
  2:{ cbn [df_rows]. rewrite map_map. apply Forall_map. eapply Forall_impl; [|exact Hread].
      cbv beta. intros ik [Hlo _]. exact Hlo. }
  cbn [df_columns df_index df_rows bind].
  unfold assign_column, set_index. cbn. rewrite !map_map. reflexivity.
Qed.

End ParameterTable.

Section ParameterRows.
Context {Num : Type} (W : World Num).

(** The table from the time points: one row per key of [min_max_dict],
    whose keys are the distinct names of the last time point with
    parameters and whose timestamps are those of time points at which the
    parameter occurs. *)
Lemma parameter_table_spec (site : site_value) (es1 : list Element) (d : Element) :
  Forall (summary_point W) es1 ->
  last_with_parameters es1 = Some d ->
  exists min_max_dict : dict string (option string * option string),
    parameter_table W site es1
    = Ok {| df_index := ["Site"; "Parameter"];
            df_columns := ["Parameter"; "From"; "To"; "DataType"; "Site"];
            df_rows := map (fun ik => range_row W site (fst ik) (fst (snd ik))
                                                (snd (snd ik))) min_max_dict |}
    /\ map fst min_max_dict = add_keys [] (names_of d)
    /\ Forall (fun ik => observed_at (fst ik) es1 (fst (snd ik))
                         /\ observed_at (fst ik) es1 (snd (snd ik))) min_max_dict.
Proof.
  intros Hall Hlast.
  set (P := fun kv : option string * list string =>
              (exists s, fst kv = Some s /\ datetime_of_string W s <> None)
              /\ exists d0, In d0 es1 /\ names_of d0 = snd kv /\ time_of d0 = fst kv).
  destruct (wq_param_loop_spec P es1) with
    (st := {| st_tsdata_dict := []; st_p_set := []; st_p_tup := None |})
    as (st & Hloop & HP & Hpt & Hp_tup).
  { intros d0 Hin Hhas.
    destruct (proj1 (Forall_forall _ _) Hall d0 Hin Hhas) as (Hnames & t & s & Ht & Hs & Hdt).
    split; [assumption|]. exists t. split; [assumption|]. split; cbn [fst snd].
    - now exists s.
    - exists d0. repeat split; [assumption|]. unfold time_of. now rewrite Ht. }
  { constructor. }
  { discriminate. }
  rewrite Hlast in Hp_tup. destruct (Hpt _ Hp_tup) as (k & Hk).
  destruct (last_with_parameters_Some _ _ Hlast) as [_ Hhas].
  set (good := fun (p : string) (t : option string) =>
                 readable_time W t /\ observed_at p es1 t).
  assert (Hgood : forall p t, In t (times_of (st_tsdata_dict st) p) -> good p t).
  { intros p t Hin. apply times_of_In in Hin. destruct Hin as (names & Hin & Hp).
    destruct (proj1 (Forall_forall _ _) HP _ Hin) as [(s & Hs & Hdt) (d0 & Hd0 & Hn & Ht)].
    cbn [fst snd] in *. split.
    - subst t. unfold readable_time. cbn [time_cell to_datetime_raise].
      destruct (datetime_of_string W s) as [[x|]|]; [eauto | eauto | contradiction].
    - exists d0. repeat split; [assumption | now rewrite Hn | assumption]. }
  assert (Hsome : forall p t, In t (times_of (st_tsdata_dict st) p) -> t <> None).
  { intros p t Hin. apply times_of_In in Hin. destruct Hin as (names & Hin & _).
    destruct (proj1 (Forall_forall _ _) HP _ Hin) as [(s & Hs & _) _].
    cbn [fst] in Hs. congruence. }
  destruct (mapM_related
              (fun ik : string * list (option string) =>
                 lo <- py_min (snd ik) ;; hi <- py_max (snd ik) ;; Ok (fst ik, (lo, hi)))
              (fun ik out => fst out = fst ik
                             /\ good (fst out) (fst (snd out))
                             /\ good (fst out) (snd (snd out)))
              (p_t_dict_of (st_tsdata_dict st) (names_of d)))
    as (min_max_dict & Hmm & Hrel).
  { unfold p_t_dict_of. apply fold_dict_set_entries; [|constructor].
    intros p Hp. cbn [fst snd].
    assert (Hin : In k (times_of (st_tsdata_dict st) p))
      by (apply times_of_In; eauto).
    assert (Hnn : Forall (fun x => x <> None) (times_of (st_tsdata_dict st) p))
      by (apply Forall_forall; intros t; apply Hsome).
    pose proof (Hgood p) as Hg.
    destruct (times_of (st_tsdata_dict st) p) as [|x rest]; [contradiction|].
    cbn [py_min py_max].
    destruct (min_from_In rest x Hnn) as (lo & -> & Hlo).
    destruct (max_from_In rest x Hnn) as (hi & -> & Hhi).
    cbn [bind]. eexists. split; [reflexivity|]. cbn [fst snd]. auto. }
  assert (Hkeys : map fst min_max_dict = add_keys [] (names_of d)).
  { transitivity (map fst (p_t_dict_of (st_tsdata_dict st) (names_of d))).
    - apply Forall2_map_eq. eapply Forall2_impl; [|exact Hrel].
      cbv beta. intros ? ? [? _]. assumption.
    - unfold p_t_dict_of. apply (fold_dict_set_keys _ (names_of d) []). }
  exists min_max_dict.
  unfold parameter_table. rewrite Hloop. cbn [bind]. rewrite Hp_tup. cbn [bind].
  unfold min_max_dict_of. rewrite Hmm. cbn [bind].
  split; [|split; [assumption|]].
  - apply ranges_table.
    + intros ->. cbn [map] in Hkeys.
      unfold names_of, has_parameters in *.
      destruct (findall "Parameter" d) as [|i params1]; [discriminate|].
      destruct (add_keys_spec (map param_name (i :: params1)) [] (NoDup_nil _)) as [_ Hin].
      rewrite <- Hkeys in Hin. apply (Hin (param_name i)). right. now left.
    + eapply Forall2_right; [|exact Hrel]. cbv beta.
      intros ik out (_ & [Hlo _] & [Hhi _]). now split.
  - eapply Forall2_right; [|exact Hrel]. cbv beta.
    intros ik out (_ & [_ Hlo] & [_ Hhi]). now split.
Qed.

End ParameterRows.

(** X21. The table of the parameter summary. When every time point
    with parameters has named parameters and a timestamp that reads as a
    date, and [d] is the last time point with parameters, the summary
    returns a table indexed by [Site] and [Parameter] with one row for
    each distinct parameter name of [d], in the order of [d], and for no
    other parameter; each row holds the site, the data type 'WQSample',
    and as [From] and [To] the dates of two time points at which that
    parameter occurs. *)
Theorem wq_sample_parameter_list_last_point {Num : Type} (W : World Num)
    (base_url hts url : string) (site : site_value)
    (tree1 meas1 data1 d : Element) :
  build_url W base_url hts "GetData" site (Some "WQ Sample")
            None None false None None None None = Ok url ->
  http_get_xml W url = Ok tree1 ->
  find "Error" tree1 = None ->
  find "Measurement" tree1 = Some meas1 ->
  find "Data" meas1 = Some data1 ->
  Forall (summary_point W) (children data1) ->
  last_with_parameters (children data1) = Some d ->
  exists df,
    wq_sample_parameter_list W base_url hts site = ([], Ok df)
    /\ df_index df = ["Site"; "Parameter"]
    /\ df_columns df = ["Parameter"; "From"; "To"; "DataType"; "Site"]
    /\ column "Parameter" df = Some (map CStr (add_keys [] (names_of d)))
    /\ Forall (fun row => exists p lo hi,
                 row = range_row W site p lo hi
                 /\ observed_at p (children data1) lo
                 /\ observed_at p (children data1) hi) (df_rows df).
Proof.
  intros Hu Hr He Hm Hd Hall Hlast.
  destruct (parameter_table_spec W site _ _ Hall Hlast) as (mm & Htable & Hkeys & Hobs).
  eexists. split; [|split; [|split; [|split]]].
  - unfold wq_sample_parameter_list.
    rewrite Hu, bindM_lift_ok, Hr, bindM_lift_ok, He, Hm.
    unfold find_. rewrite Hd, bindM_lift_ok, Htable. reflexivity.
  - reflexivity.
  - reflexivity.
  - unfold column. cbn [df_columns df_rows col_pos String.eqb Ascii.eqb Bool.eqb option_map].
    rewrite map_map. cbn [range_row cell_at nth]. now rewrite <- Hkeys, map_map.
  - cbn [df_rows]. apply Forall_map. eapply Forall_impl; [|exact Hobs].
    cbv beta. intros [p [lo hi]] [Hlo Hhi]. now exists p, lo, hi.
Qed.

Lemma wq_sample_parameter_list_last_point_witness :
  exists df,
    wq_sample_parameter_list (world_of two_parameter_reply june_2020)
                             "http://example.org" "data.hts" (SiteStr "Site A")
    = ([], Ok df)
    /\ column "Parameter" df = Some [CStr "Turbidity"].
Proof.
  destruct (wq_sample_parameter_list_last_point
              (world_of two_parameter_reply june_2020)
              "http://example.org" "data.hts" _ (SiteStr "Site A") two_parameter_reply
              (node "Measurement"
                 [node "DataSource" [leaf "DataType" "WQSample"];
                  node "Data"
                    [node "E" [leaf "T" "2020-01-01"; parameter "pH" "7.1"];
                     node "E" [leaf "T" "2020-02-01"; parameter "Turbidity" "3"]]])
              (node "Data"
                 [node "E" [leaf "T" "2020-01-01"; parameter "pH" "7.1"];
                  node "E" [leaf "T" "2020-02-01"; parameter "Turbidity" "3"]])
              (node "E" [leaf "T" "2020-02-01"; parameter "Turbidity" "3"])
              eq_refl eq_refl eq_refl eq_refl eq_refl)
    as (df & Hdf & _ & _ & Hcol & _).
  - repeat constructor; try discriminate;
      do 2 eexists; repeat split; try reflexivity; discriminate.
  - reflexivity.
  - exists df. split; assumption.
Defined.

(** ** measurement_list: the cells of the catalog *)

Lemma col_pos_nth {B : Type} (h : string -> B) (d : B) (name : string) (cols : list string) :
  forall i, col_pos name cols = Some i -> nth i (map h cols) d = h name.
Proof.
  induction cols as [|c cols IH]; intros i; cbn [col_pos map]; [discriminate|].
  destruct (String.eqb_spec name c) as [->|Hne].
  - intros H. now injection H as <-.
  - destruct (col_pos name cols) as [k|]; cbn [option_map]; [|discriminate].
    intros H. injection H as <-. cbn [nth]. now apply IH.
Qed.

Lemma col_pos_mem (name : string) (cols : list string) :
  mem name cols = true -> exists i, col_pos name cols = Some i.
Proof.
  intros Hmem. destruct (col_pos name cols) as [i|] eqn:Hpos; [now exists i|].
  apply col_pos_None in Hpos. apply mem_In in Hmem. contradiction.
Qed.

Lemma set_at_map {Num : Type} (h : string -> cell Num) (v : cell Num) (name : string)
    (cols : list string) :
  NoDup cols ->
  forall i,
    col_pos name cols = Some i ->
    set_at i v (map h cols) = map (fun c => if String.eqb c name then v else h c) cols.
Proof.
  induction 1 as [|c cols Hc Hnd IH]; intros i; cbn [col_pos map]; [discriminate|].
  destruct (String.eqb_spec name c) as [->|Hne].
  - intros H. injection H as <-. cbn [set_at]. rewrite String.eqb_refl. f_equal.
    apply map_ext_in. intros x Hx.
    destruct (String.eqb_spec x c) as [->|]; [contradiction | reflexivity].
  - destruct (col_pos name cols) as [k|]; cbn [option_map]; [|discriminate].
    intros H. injection H as <-. cbn [set_at].
    destruct (String.eqb_spec c name) as [->|_]; [congruence|].
    f_equal. now apply IH.
Qed.

Section CatalogCells.
Context {Num : Type} (W : World Num).

(** A column operation on a table whose cells are given by [g], record
    by record and column by column. *)
Lemma map_column_cells {R : Type} (df : DataFrame Num) (rs : list R)
    (g : R -> string -> cell Num) (name : string) (f : cell Num -> cell Num) :
  NoDup (df_columns df) ->
  df_rows df = map (fun r => map (g r) (df_columns df)) rs ->
  let df' := if mem name (df_columns df) then map_column name f df else df in
  df_columns df' = df_columns df
  /\ df_rows df'
     = map (fun r => map (fun c => if String.eqb c name then f (g r c) else g r c)
                         (df_columns df)) rs.
Proof.
  intros Hnd Hrows. cbv zeta.
  destruct (mem name (df_columns df)) eqn:Hmem.
  - destruct (col_pos_mem _ _ Hmem) as [i Hi]. unfold map_column. rewrite Hi.
    cbn [df_columns df_rows]. split; [reflexivity|].
    rewrite Hrows, map_map. apply map_ext. intros r. unfold cell_at.
    rewrite (col_pos_nth _ _ _ _ _ Hi), (set_at_map _ _ _ _ Hnd i Hi).
    apply map_ext. intros c. now destruct (String.eqb_spec c name) as [->|].
  - split; [reflexivity|]. rewrite Hrows. apply map_ext. intros r.
    apply map_ext_in. intros c Hc.
    destruct (String.eqb_spec c name) as [->|]; [|reflexivity].
    apply mem_not_In in Hmem. contradiction.
Qed.

Lemma catalog_cell_steps (site : site_value) (r : dict string string) (c : string) :
  c <> "Site" ->
  (let y := if String.eqb c "To"
            then to_datetime_coerce W (cell_of_name (catalog_field r c))
            else cell_of_name (catalog_field r c) in
   let x := if String.eqb c "From" then to_datetime_coerce W y else y in
   if String.eqb c "Units" then percent_to_nan x else x)
  = catalog_cell W site r c.
Proof.
  intros Hs. cbv zeta. unfold catalog_cell.
  destruct (String.eqb_spec c "Site") as [|_]; [contradiction|].
  destruct (String.eqb_spec c "Units") as [->|_]; [reflexivity|].
  destruct (String.eqb_spec c "From") as [->|_]; [reflexivity|].
  destruct (String.eqb_spec c "To") as [->|_]; reflexivity.
Qed.

(** The tidied catalog cell by cell. *)
Lemma tidy_catalog_cells (site : site_value) (data_list : list (dict string string)) :
  (forall c, In c (union_keys data_list) -> c <> "Measurement" /\ c <> "Site") ->
  let df := tidy_catalog W site (frame_of_records data_list) in
  df_columns df
  = map (fun c => if String.eqb c "RequestAs" then "Measurement" else c)
        (union_keys data_list) ++ ["Site"]
  /\ df_rows df = map (fun r => map (catalog_cell W site r) (df_columns df)) data_list.
Proof.
  intros Hkeys. cbv zeta. unfold tidy_catalog. cbv zeta.
  set (ren := fun c : string => if String.eqb c "RequestAs" then "Measurement" else c).
  set (df1 := rename_column "RequestAs" "Measurement" (frame_of_records data_list)).
  assert (Hcols1 : df_columns df1 = map ren (union_keys data_list)) by reflexivity.
  assert (Hnd1 : NoDup (df_columns df1)).
  { rewrite Hcols1. apply NoDup_map_NoDup_ForallPairs; [|apply union_keys_spec].
    intros x y Hx Hy. unfold ren.
    destruct (String.eqb_spec x "RequestAs") as [->|_],
             (String.eqb_spec y "RequestAs") as [->|_]; intros Heq;
      try congruence; subst.
    - now destruct (Hkeys _ Hy).
    - now destruct (Hkeys _ Hx). }
  assert (Hsite : ~ In "Site" (df_columns df1)).
  { rewrite Hcols1, in_map_iff. intros (c & Hc & Hin). unfold ren in Hc.
    destruct (String.eqb_spec c "RequestAs"); [discriminate|].
    subst c. now destruct (Hkeys _ Hin). }
  assert (Hrows1 : df_rows df1
                   = map (fun r => map (fun c => cell_of_name (catalog_field r c))
                                       (df_columns df1)) data_list).
  { rewrite Hcols1. unfold df1, rename_column, frame_of_records. cbn [df_rows].
    apply map_ext. intros r. rewrite map_map. apply map_ext_in. intros c Hc.
    unfold catalog_field, ren, cell_of_name.
    destruct (String.eqb_spec c "RequestAs") as [->|_]; [reflexivity|].
    destruct (String.eqb_spec c "Measurement") as [->|_]; [|reflexivity].
    now destruct (Hkeys _ Hc). }
  destruct (map_column_cells df1 data_list _ "To" (to_datetime_coerce W) Hnd1 Hrows1)
    as [Hcols2 Hrows2].
  set (df2 := if mem "To" (df_columns df1)
              then map_column "To" (to_datetime_coerce W) df1 else df1) in *.
  rewrite <- Hcols2 in Hnd1, Hsite, Hrows2.
  destruct (map_column_cells df2 data_list _ "From" (to_datetime_coerce W) Hnd1 Hrows2)
    as [Hcols3 Hrows3].
  set (df3 := if mem "From" (df_columns df2)
              then map_column "From" (to_datetime_coerce W) df2 else df2) in *.
  rewrite <- Hcols3 in Hnd1, Hsite, Hrows3.
  destruct (map_column_cells df3 data_list _ "Units" percent_to_nan Hnd1 Hrows3)
    as [Hcols4 Hrows4].
  set (df4 := if mem "Units" (df_columns df3)
              then map_column "Units" percent_to_nan df3 else df3) in *.
  rewrite <- Hcols4 in Hnd1, Hsite, Hrows4.
  unfold assign_column. rewrite (proj2 (col_pos_None _ _) Hsite).
  cbn [df_columns df_rows]. split.
  - now rewrite Hcols4, Hcols3, Hcols2, Hcols1.
  - rewrite Hrows4, map_map. apply map_ext. intros r. rewrite map_app. f_equal.
    apply map_ext_in. intros c Hc. apply (catalog_cell_steps site r c).
    intros ->. contradiction.
Qed.

(** A column of a table given cell by cell. *)
Lemma column_cells {R : Type} (df : DataFrame Num) (rs : list R)
    (g : R -> string -> cell Num) (c : string) (cells : list (cell Num)) :
  df_rows df = map (fun r => map (g r) (df_columns df)) rs ->
  column c df = Some cells ->
  cells = map (fun r => g r c) rs.
Proof.
  intros Hrows. unfold column.
  destruct (col_pos c (df_columns df)) as [i|] eqn:Hpos; cbn [option_map]; [|discriminate].
  intros H. injection H as <-. rewrite Hrows, map_map. apply map_ext. intros r.
  unfold cell_at. now apply col_pos_nth.
Qed.

Lemma percent_to_nan_never (c : cell Num) : percent_to_nan c <> CStr "%".
Proof.
  destruct c as [|s| | |]; cbn [percent_to_nan]; try discriminate.
  destruct (String.eqb_spec s "%"); congruence.
Qed.

(** The fields of the records are among the listed tags. *)
Lemma collect_sources_keys (data_sources : list Element)
    (data_list : list (dict string string)) (c : string) :
  collect_sources data_sources [] = Ok data_list ->
  In c (union_keys data_list) ->
  In c m_types \/ In c ds_types.
Proof.
  intros Hcol Hin. apply (proj2 (union_keys_spec data_list)) in Hin.
  destruct Hin as (r & Hr & Hk).
  destruct (collect_sources_records _ _ _ _ Hcol Hr) as [[] | (d & rows & Hd & Hrows & Hin)].
  destruct (source_rows_keys d rows r c Hrows Hin Hk) as [|[Ht _]]; [now left | now right].
Qed.

End CatalogCells.

(** X12. The catalog cell by cell. When the bad sites are not asked
    for, every column of the table [measurement_list] returns shows, row
    by row, a field of the record of that row: 'Measurement' shows the
    field 'RequestAs', 'From' and 'To' the dates read from their fields
    (missing when unreadable), 'Site' the site asked for, and 'Units' the
    unit, with '%' replaced by a missing value.  So no 'Units' cell is the
    string '%', there is no 'RequestAs' column, and every row carries the
    site. *)
Theorem measurement_list_catalog_cells {Num : Type} (W : World Num)
    (base_url hts url : string) (site : site_value) (measurement : option string)
    (tree1 : Element) (data_list : list (dict string string)) :
  build_url W base_url hts "MeasurementList" site measurement
            None None false None None None None = Ok url ->
  http_get_xml W url = Ok tree1 ->
  find "Error" tree1 = None ->
  only_wq_sample (findall "DataSource" tree1) = Ok false ->
  collect_sources (findall "DataSource" tree1) [] = Ok data_list ->
  In "RequestAs" (union_keys data_list) ->
  exists df,
    measurement_list W base_url hts site measurement false = ([], Ok (One df))
    /\ (forall c cells,
          column c df = Some cells ->
          cells = map (fun r => catalog_cell W site r c) data_list)
    /\ (forall cells, column "Units" df = Some cells -> ~ In (CStr "%") cells)
    /\ column "RequestAs" df = None
    /\ column "Site" df = Some (map (fun _ => cell_of_site site) data_list).
Proof.
  intros Hu Hr He Hwq Hcol Hreq.
  assert (Hkeys : forall c, In c (union_keys data_list) -> c <> "Measurement" /\ c <> "Site").
  { intros c Hc. destruct (collect_sources_keys _ _ _ Hcol Hc) as [Hin | Hin];
      cbn in Hin; split; intros ->; intuition discriminate. }
  destruct (tidy_catalog_cells W site data_list Hkeys) as [Hcols Hrows].
  set (mtype_df := tidy_catalog W site (frame_of_records data_list)) in *.
  assert (Hcells : forall c cells,
            column c {| df_index := ["Site"; "Measurement"];
                        df_columns := df_columns mtype_df;
                        df_rows := df_rows mtype_df |} = Some cells ->
            cells = map (fun r => catalog_cell W site r c) data_list).
  { intros c cells. apply column_cells. exact Hrows. }
  eexists. split; [|split; [exact Hcells | split; [|split]]].
  - assert (Hne : df_empty (frame_of_records (Num := Num) data_list) = false).
    { unfold df_empty, frame_of_records. cbn [df_columns df_rows].
      destruct (union_keys data_list) eqn:Hk; [contradiction|].
      destruct data_list; [discriminate | reflexivity]. }
    assert (Hidx : forallb (fun k => mem k (df_columns mtype_df)) ["Site"; "Measurement"]
                   = true).
    { cbn [forallb]. rewrite Hcols. rewrite !(proj2 (mem_In _ _)); [reflexivity | |].
      - apply in_app_iff. left. apply in_map_iff. exists "RequestAs". now split.
      - apply in_app_iff. right. now left. }
    unfold measurement_list.
    rewrite Hu, bindM_lift_ok, Hr, bindM_lift_ok, He.
    destruct (findall "DataSource" tree1) as [|d ds] eqn:Hds.
    { simpl in Hcol. injection Hcol as <-. contradiction. }
    rewrite Hwq, bindM_lift_ok. cbv beta iota.
    rewrite Hcol, bindM_lift_ok. cbv beta zeta. rewrite Hne. cbn [negb]. cbv iota.
    fold mtype_df. now rewrite set_index_ok, bindM_lift_ok by assumption.
  - intros cells Hc. apply Hcells in Hc. subst cells. rewrite in_map_iff.
    intros (r & Hr' & _). revert Hr'. apply percent_to_nan_never.
  - unfold column. cbn [df_columns].
    rewrite (proj2 (col_pos_None _ _)); [reflexivity|].
    rewrite Hcols, in_app_iff, in_map_iff.
    intros [(c & Hc & Hin) | [Heq | []]]; [|discriminate].
    destruct (String.eqb_spec c "RequestAs"); [discriminate|].
    subst c. destruct (collect_sources_keys _ _ _ Hcol Hin); contradiction.
  - destruct (column "Site" {| df_index := ["Site"; "Measurement"];
                               df_columns := df_columns mtype_df;
                               df_rows := df_rows mtype_df |}) as [cells|] eqn:Hc.
    + now rewrite (Hcells _ _ Hc).
    + exfalso. unfold column in Hc. cbn [df_columns] in Hc.
      destruct (col_pos "Site" (df_columns mtype_df)) eqn:Hpos; [discriminate|].
      apply col_pos_None in Hpos. apply Hpos. rewrite Hcols, in_app_iff.
      right. now left.
Qed.

Lemma measurement_list_catalog_cells_witness :
  exists df,
    measurement_list (world_of percent_catalog june_2020) "http://example.org" "data.hts"
                     (SiteStr "Site A") None false = ([], Ok (One df))
    /\ (forall cells, column "Units" df = Some cells -> ~ In (CStr "%") cells)
    /\ column "Site" df = Some [CStr "Site A"].
Proof.
  destruct (measurement_list_catalog_cells (world_of percent_catalog june_2020)
              "http://example.org" "data.hts" _ (SiteStr "Site A") None percent_catalog _
              eq_refl eq_refl eq_refl eq_refl eq_refl)
    as (df & Hml & _ & Hunits & _ & Hsite).
  - vm_compute. tauto.
  - exists df. repeat split; assumption.
Defined.
